(** * neo4j-mcp: the connection manager, query executor, schema reflector
      and tool dispatcher of [custom_neo4j_mcp/core], and the
      configuration loader of [custom_neo4j_mcp/utils], embedded in Rocq.

    The Python code is embedded shallowly.  Python objects are values of
    one inductive type, the handlers are functions in a state-and-exception
    monad over the connection manager and the trace of calls made to the
    graph engine, and the graph engine itself (the neo4j driver) is an
    arbitrary deterministic oracle that answers from the trace so far. *)

From Stdlib Require Import ZArith String List Ascii Bool Lia DecimalString.
Import ListNotations.
Open Scope string_scope.
Set Warnings "-register-all".

(** ** Python objects *)

(** The objects that flow through the adapter: what a decoded JSON
    argument bag can hold, plus the three graph objects the driver hands
    back in records.  A [str] is a sequence of characters, one [ascii]
    each; a [dict] keeps its insertion order and has [str] keys, as a
    decoded JSON object does.  Floating-point numbers and the driver's
    temporal and spatial values are outside the model. *)
Inductive value : Type :=
| VNone
| VBool (b : bool)
| VInt (z : Z)
| VStr (s : string)
| VList (l : list value)
| VDict (d : list (string * value))
| VNode (props : list (string * value))
| VRel (props : list (string * value))
| VPath (nodes rels : list (list (string * value))).

Definition pdict := list (string * value).

(** Exceptions, all of them subclasses of Python's [Exception]. *)
Inductive exn_class := AttributeError | TypeError | KeyError | IndexError | DriverError.

Record exn := Exn { exn_cls : exn_class; exn_str : string }.

Definition res (A : Type) : Type := (exn + A)%type.

Definition type_name (v : value) : string :=
  match v with
  | VNone => "NoneType"
  | VBool _ => "bool"
  | VInt _ => "int"
  | VStr _ => "str"
  | VList _ => "list"
  | VDict _ => "dict"
  | VNode _ => "Node"
  | VRel _ => "Relationship"
  | VPath _ _ => "Path"
  end.

Definition no_attribute {A} (v : value) (attr : string) : res A :=
  inl (Exn AttributeError
         ("'" ++ type_name v ++ "' object has no attribute '" ++ attr ++ "'")).

(** Truth value of an object ([if x:], [not x], [x or y]). *)
Definition truthy (v : value) : bool :=
  match v with
  | VNone => false
  | VBool b => b
  | VInt z => negb (Z.eqb z 0)
  | VStr s => negb (String.eqb s "")
  | VList l => match l with [] => false | _ => true end
  | VDict d => match d with [] => false | _ => true end
  | VNode p => match p with [] => false | _ => true end
  | VRel p => match p with [] => false | _ => true end
  | VPath _ r => match r with [] => false | _ => true end
  end.

Fixpoint lookup (d : pdict) (key : string) : option value :=
  match d with
  | [] => None
  | (k, v) :: rest => if String.eqb k key then Some v else lookup rest key
  end.

(** [d[key] = v] on a dict: an existing key keeps its place. *)
Fixpoint dict_set (d : pdict) (key : string) (v : value) : pdict :=
  match d with
  | [] => [(key, v)]
  | (k, w) :: rest =>
      if String.eqb k key then (k, v) :: rest else (k, w) :: dict_set rest key v
  end.

(** [obj.get(key, default)]. *)
Definition py_get (obj : value) (key : string) (default : value) : res value :=
  match obj with
  | VDict d | VNode d | VRel d =>
      inr (match lookup d key with Some v => v | None => default end)
  | _ => no_attribute obj "get"
  end.

(** [obj.items()]. *)
Definition py_items (obj : value) : res pdict :=
  match obj with
  | VDict d | VNode d | VRel d => inr d
  | _ => no_attribute obj "items"
  end.

Fixpoint chars (s : string) : list value :=
  match s with
  | EmptyString => []
  | String c rest => VStr (String c EmptyString) :: chars rest
  end.

Definition not_iterable {A} (v : value) : res A :=
  inl (Exn TypeError ("'" ++ type_name v ++ "' object is not iterable")).

(** [for x in obj]. *)
Definition py_iter (obj : value) : res (list value) :=
  match obj with
  | VList l => inr l
  | VStr s => inr (chars s)
  | VDict d | VNode d | VRel d => inr (map (fun kv => VStr (fst kv)) d)
  | VPath _ rels => inr (map VRel rels)
  | _ => not_iterable obj
  end.

Definition z_str (z : Z) : string := NilZero.string_of_int (Z.to_int z).

Definition nat_str (n : nat) : string := z_str (Z.of_nat n).

Fixpoint join (sep : string) (l : list string) : string :=
  match l with
  | [] => ""
  | [x] => x
  | x :: rest => x ++ sep ++ join sep rest
  end.

(** [sep.join(obj)]: every item must be a [str]. *)
Fixpoint str_items (i : nat) (l : list value) : res (list string) :=
  match l with
  | [] => inr []
  | VStr s :: rest =>
      match str_items (S i) rest with
      | inr ss => inr (s :: ss)
      | inl e => inl e
      end
  | v :: _ =>
      inl (Exn TypeError
             ("sequence item " ++ nat_str i ++ ": expected str instance, "
                ++ type_name v ++ " found"))
  end.

Definition py_join (sep : string) (obj : value) : res string :=
  match py_iter obj with
  | inr l =>
      match str_items 0 l with
      | inr ss => inr (join sep ss)
      | inl e => inl e
      end
  | inl _ => inl (Exn TypeError "can only join an iterable")
  end.

(** The first object [json.dumps] cannot serialise, in traversal order. *)
Fixpoint json_bad (v : value) : option string :=
  match v with
  | VList l =>
      (fix go (l : list value) : option string :=
         match l with
         | [] => None
         | x :: rest =>
             match json_bad x with Some t => Some t | None => go rest end
         end) l
  | VDict d =>
      (fix go (d : list (string * value)) : option string :=
         match d with
         | [] => None
         | (_, x) :: rest =>
             match json_bad x with Some t => Some t | None => go rest end
         end) d
  | VNode _ | VRel _ | VPath _ _ => Some (type_name v)
  | _ => None
  end.

(** ** The graph engine *)

(** A record of a query result: [record[key]] reads [rec_fields],
    [record.data()] is the driver's own conversion to plain data. *)
Record record := { rec_fields : pdict; rec_data : value }.

(** [summary.counters]: the driver's counter object, whose eleven
    attributes are integers. *)
Record SummaryCounters := {
  nodes_created : Z;
  nodes_deleted : Z;
  relationships_created : Z;
  relationships_deleted : Z;
  properties_set : Z;
  labels_added : Z;
  labels_removed : Z;
  indexes_added : Z;
  indexes_removed : Z;
  constraints_added : Z;
  constraints_removed : Z
}.

(** What [session.run] gives back: the records, and the summary that
    [result.consume()] returns, with its counters and its [plan]: the
    driver gives the plan as a [dict], and [None] unless the query was an
    EXPLAIN. *)
Record result := {
  records : list record;
  counters : SummaryCounters;
  res_plan : option pdict
}.

(** [result.consume().plan] as an object. *)
Definition summary_plan (r : result) : value :=
  match res_plan r with
  | Some d => VDict d
  | None => VNone
  end.

Definition auth_token := option (string * string).

(** The calls made to the driver, oldest first. *)
Inductive event :=
| EvDriver (uri : string) (auth : auth_token)
| EvVerify
| EvDriverClose
| EvSession (database : option string)
| EvRun (database : option string) (query : value) (params : value)
| EvSessionClose (database : option string).

(** The driver and the server behind it: each call is answered from the
    calls made before it. *)
Record engine := {
  eng_driver : list event -> string -> auth_token -> option exn;
  eng_verify : list event -> option exn;
  eng_close : list event -> option exn;
  eng_run : list event -> option string -> value -> value -> res result
}.

Record driver := { drv_uri : string; drv_auth : auth_token }.

(** ** The connection manager's state *)

Record Neo4jDatabase := {
  uri : string;
  username : string;
  password : string;
  database : option string;
  _driver : option driver
}.

Record world := { self : Neo4jDatabase; trace : list event }.

Definition set_driver (d : option driver) (w : world) : world :=
  {| self := {| uri := uri (self w); username := username (self w);
                password := password (self w); database := database (self w);
                _driver := d |};
     trace := trace w |}.

Definition emit (e : event) (w : world) : world :=
  {| self := self w; trace := trace w ++ [e] |}.

(** ** The monad of the Python code: state and exceptions *)

Definition M (A : Type) : Type := world -> res A * world.

Definition ret {A} (a : A) : M A := fun w => (inr a, w).

Definition raise {A} (e : exn) : M A := fun w => (inl e, w).

Definition bind {A B} (m : M A) (f : A -> M B) : M B :=
  fun w =>
    match m w with
    | (inr a, w') => f a w'
    | (inl e, w') => (inl e, w')
    end.

Notation "x <- m ;; k" := (bind m (fun x => k))
  (at level 61, m at next level, right associativity).
Notation "m ;;; k" := (bind m (fun _ => k))
  (at level 61, right associativity).

Definition lift {A} (r : res A) : M A :=
  match r with inr a => ret a | inl e => raise e end.

(** [try: m  except Exception as e: h e]. *)
Definition try_except {A} (m : M A) (h : exn -> M A) : M A :=
  fun w =>
    match m w with
    | (inr a, w') => (inr a, w')
    | (inl e, w') => h e w'
    end.

(** [for x in l: body x], collecting what the bodies return. *)
Fixpoint for_each {A B} (l : list A) (body : A -> M B) : M (list B) :=
  match l with
  | [] => ret []
  | x :: rest => y <- body x ;; ys <- for_each rest body ;; ret (y :: ys)
  end.

(** [for x in l: acc = body acc x]. *)
Fixpoint for_fold {A S} (l : list A) (acc : S) (body : S -> A -> M S) : M S :=
  match l with
  | [] => ret acc
  | x :: rest => acc' <- body acc x ;; for_fold rest acc' body
  end.

(** Finishing a [with] block: the exit action runs on every way out. *)
Definition finally {A} (m : M A) (exit : M unit) : M A :=
  fun w =>
    match m w with
    | (r, w') =>
        match exit w' with
        | (inr _, w'') => (r, w'')
        | (inl e, w'') => (inl e, w'')
        end
    end.

(** ** More of Python *)

Definition key_error {A} (key : string) : res A :=
  inl (Exn KeyError ("'" ++ key ++ "'")).

(** [record[key]] on a driver record. *)
Definition rec_get (r : record) (key : string) : res value :=
  match lookup (rec_fields r) key with
  | Some v => inr v
  | None => key_error key
  end.

(** A driver record is a tuple of its fields: empty means false. *)
Definition rec_truthy (r : record) : bool :=
  match rec_fields r with [] => false | _ => true end.

(** [result.single()]: the first record, or [None]. *)
Definition single (r : result) : option record := hd_error (records r).

(** [obj[0]]. *)
Definition py_index0 (obj : value) : res value :=
  match obj with
  | VList (x :: _) => inr x
  | VList [] => inl (Exn IndexError "list index out of range")
  | VStr (String c _) => inr (VStr (String c EmptyString))
  | VStr EmptyString => inl (Exn IndexError "string index out of range")
  | VDict _ | VNode _ | VRel _ => inl (Exn KeyError "0")
  | _ => inl (Exn TypeError
                ("'" ++ type_name obj ++ "' object is not subscriptable"))
  end.

(** The dicts of the model have [str] keys: an object used as a key must
    be a [str], which is what the engine yields for labels, property keys
    and relationship types. *)
Definition as_key (v : value) : res string :=
  match v with
  | VStr s => inr s
  | _ => inl (Exn TypeError
                ("'" ++ type_name v ++ "' object used as a dict key"))
  end.

Definition ind8 : string := "        ".
Definition ind12 : string := ind8 ++ "    ".
Definition ind16 : string := ind8 ++ ind8.
Definition nl : string := String (ascii_of_nat 10) EmptyString.

Definition dq : string := String (ascii_of_nat 34) EmptyString.

Definition dq_wrap (s : string) : string := dq ++ s ++ dq.

(** [x or y] on an optional [str]. *)
Definition str_or (x y : option string) : option string :=
  match x with
  | Some s => if String.eqb s "" then y else Some s
  | None => y
  end.

(** [x or d] where [d] is a [str]. *)
Definition or_default (x : option string) (d : string) : string :=
  match x with
  | Some s => if String.eqb s "" then d else s
  | None => d
  end.

(** [os.environ.get(name, default)]. *)
Definition environ_get (env : string -> option string) (name default : string)
  : string :=
  match env name with Some s => s | None => default end.

(** A value of an optional [str] handed to Python code. *)
Definition of_opt (o : option string) : value :=
  match o with Some s => VStr s | None => VNone end.

(** The parts of the Python runtime that are taken as given: the text of
    [str(v)] for containers and graph objects, and the text of
    [json.dumps(v, indent=2)] for an object it can serialise. *)
Record runtime := {
  py_repr : value -> string;
  json_text : value -> string
}.

(** [str(v)], which is also how an f-string renders [{v}]. *)
Definition py_str (py : runtime) (v : value) : string :=
  match v with
  | VNone => "None"
  | VBool true => "True"
  | VBool false => "False"
  | VInt z => z_str z
  | VStr s => s
  | _ => py_repr py v
  end.

(** [json.dumps(v, indent=2)]. *)
Definition json_dumps (py : runtime) (v : value) : res string :=
  match json_bad v with
  | None => inr (json_text py v)
  | Some t =>
      inl (Exn TypeError ("Object of type " ++ t ++ " is not JSON serializable"))
  end.

(** ** core/database.py *)

Module Database.
Section Methods.

Variable py : runtime.
Variable eng : engine.

(** A session is known by the database it is bound to. *)
Definition session := option string.

(** [GraphDatabase.driver(uri, auth=auth)]. *)
Definition graph_driver (u : string) (auth : auth_token) : M driver :=
  fun w =>
    let w' := emit (EvDriver u auth) w in
    match eng_driver eng (trace w) u auth with
    | None => (inr {| drv_uri := u; drv_auth := auth |}, w')
    | Some e => (inl e, w')
    end.

(** [driver.verify_connectivity()]. *)
Definition driver_verify : M unit :=
  fun w =>
    let w' := emit EvVerify w in
    match eng_verify eng (trace w) with
    | None => (inr tt, w')
    | Some e => (inl e, w')
    end.

(** [driver.close()]. *)
Definition driver_close : M unit :=
  fun w =>
    let w' := emit EvDriverClose w in
    match eng_close eng (trace w) with
    | None => (inr tt, w')
    | Some e => (inl e, w')
    end.

(** [self._driver.session(database=db)]. *)
Definition driver_session (db : option string) : M session :=
  fun w =>
    match _driver (self w) with
    | Some _ => (inr db, emit (EvSession db) w)
    | None => (no_attribute VNone "session", w)
    end.

Definition session_close (s : session) : M unit :=
  fun w => (inr tt, emit (EvSessionClose s) w).

(** [session.run(query, params)]; the driver is handed [query] as it
    is, whatever object it may be. *)
Definition session_run (s : session) (query : value) (params : value)
  : M result :=
  fun w => (eng_run eng (trace w) s query params, emit (EvRun s query params) w).

(** [session.run(query)] on a query text. *)
Definition session_run_text (s : session) (query : string) : M result :=
  session_run s (VStr query) VNone.

(** [with acquire as session: body]. *)
Definition with_session {A} (acquire : M session) (body : session -> M A)
  : M A :=
  s <- acquire ;; finally (body s) (session_close s).

Definition get_self : M Neo4jDatabase := fun w => (inr (self w), w).

(** The attribute assignments of [__init__], before it connects. *)
Definition resolve (uri username password database : option string)
    (env : string -> option string) : Neo4jDatabase :=
  {| uri := or_default uri (environ_get env "NEO4J_URL" "bolt://localhost:7687");
     username := or_default username (environ_get env "NEO4J_USERNAME" "neo4j");
     password := or_default password (environ_get env "NEO4J_PASSWORD" "");
     database := str_or database (env "NEO4J_DATABASE");
     _driver := None |}.

(** The [auth] argument of [connect]. *)
Definition auth_of (db : Neo4jDatabase) : auth_token :=
  if truthy (VStr (password db)) then Some (username db, password db) else None.

Definition verify_connectivity : M unit :=
  db <- get_self ;;
  match _driver db with
  | Some _ => driver_verify
  | None => ret tt
  end.

Definition connect : M unit :=
  try_except
    (db <- get_self ;;
     d <- graph_driver (uri db) (auth_of db) ;;
     (fun w => (inr tt, set_driver (Some d) w)) ;;;
     verify_connectivity)
    (fun e => raise e).

(** [Neo4jDatabase(uri, username, password, database)] in the environment
    [env], with the engine's history [t] so far. *)
Definition init (uri username password database : option string)
    (env : string -> option string) (t : list event) : res unit * world :=
  connect {| self := resolve uri username password database env; trace := t |}.

Definition close : M unit :=
  db <- get_self ;;
  match _driver db with
  | Some _ =>
      driver_close ;;;
      (fun w => (inr tt, set_driver None w))
  | None => ret tt
  end.

Definition get_session : M session :=
  db <- get_self ;;
  (match _driver db with
   | Some _ => ret tt
   | None => connect
   end) ;;;
  db <- get_self ;;
  driver_session (database db).

Definition run_query (query : value) (params : value)
    (database_arg : option string) : M (list value) :=
  me <- get_self ;;
  let db := str_or database_arg (database me) in
  with_session (driver_session db) (fun session =>
    result <- session_run session query
                (if truthy params then params else VDict []) ;;
    ret (map rec_data (records result))).

Definition run_write_query (query : value) (params : value)
    (database_arg : option string) : M pdict :=
  me <- get_self ;;
  let db := str_or database_arg (database me) in
  with_session (driver_session db) (fun session =>
    result <- session_run session query
                (if truthy params then params else VDict []) ;;
    let counters := counters result in
    ret [ ("nodes_created", VInt (nodes_created counters));
          ("nodes_deleted", VInt (nodes_deleted counters));
          ("relationships_created", VInt (relationships_created counters));
          ("relationships_deleted", VInt (relationships_deleted counters));
          ("properties_set", VInt (properties_set counters));
          ("labels_added", VInt (labels_added counters));
          ("labels_removed", VInt (labels_removed counters));
          ("indexes_added", VInt (indexes_added counters));
          ("indexes_removed", VInt (indexes_removed counters));
          ("constraints_added", VInt (constraints_added counters));
          ("constraints_removed", VInt (constraints_removed counters)) ]).

(** The four introspection queries of [get_basic_schema]. *)
Definition node_query : string :=
  nl ++ ind8 ++ "CALL db.labels() YIELD label"
     ++ nl ++ ind8 ++ "RETURN label"
     ++ nl ++ ind8.

Definition prop_query (label : value) : string :=
  nl ++ ind16 ++ "MATCH (n:" ++ py_str py label ++ ")"
     ++ nl ++ ind16 ++ "UNWIND keys(n) AS property"
     ++ nl ++ ind16 ++ "RETURN DISTINCT property"
     ++ nl ++ ind16.

Definition rel_query : string :=
  nl ++ ind12 ++ "CALL db.relationshipTypes() YIELD relationshipType"
     ++ nl ++ ind12 ++ "RETURN relationshipType"
     ++ nl ++ ind12.

Definition rel_details_query (rel_type : value) : string :=
  nl ++ ind16 ++ "MATCH (source)-[r:" ++ py_str py rel_type ++ "]->(target)"
     ++ nl ++ ind16
     ++ "RETURN DISTINCT labels(source) AS source_labels, labels(target) AS target_labels"
     ++ nl ++ ind16 ++ "LIMIT 5"
     ++ nl ++ ind16.

(** [schema["nodes"][label]["properties"][prop] = {"type": "unknown"}]. *)
Definition set_property (nodes : pdict) (label prop : string) : res pdict :=
  match lookup nodes label with
  | Some entry =>
      match entry with
      | VDict e =>
          match lookup e "properties" with
          | Some (VDict props) =>
              inr (dict_set nodes label
                     (VDict (dict_set e "properties"
                               (VDict (dict_set props prop
                                         (VDict [("type", VStr "unknown")]))))))
          | Some other => inl (Exn TypeError
                                 ("'" ++ type_name other
                                    ++ "' object does not support item assignment"))
          | None => key_error "properties"
          end
      | other => inl (Exn TypeError
                        ("'" ++ type_name other ++ "' object is not subscriptable"))
      end
  | None => key_error label
  end.

(** One record of the relationship-details query: an entry is appended
    for every source label and every target label of the record. *)
Definition detail_entries (rel_type : value) (rels : list value)
    (detail_record : record) : M (list value) :=
  source_labels <- lift (rec_get detail_record "source_labels") ;;
  target_labels <- lift (rec_get detail_record "target_labels") ;;
  sources <- lift (py_iter source_labels) ;;
  for_fold sources rels (fun rels source_label =>
    targets <- lift (py_iter target_labels) ;;
    for_fold targets rels (fun rels target_label =>
      ret (rels ++ [VDict [("type", rel_type);
                           ("source", source_label);
                           ("target", target_label)]])%list)).

Definition get_basic_schema : M value :=
  with_session get_session (fun session =>
    labels <- session_run_text session node_query ;;
    nodes <- for_fold (records labels) [] (fun nodes label_record =>
      label <- lift (rec_get label_record "label") ;;
      key <- lift (as_key label) ;;
      let nodes := dict_set nodes key (VDict [("properties", VDict [])]) in
      properties <- session_run_text session (prop_query label) ;;
      for_fold (records properties) nodes (fun nodes prop_record =>
        prop <- lift (rec_get prop_record "property") ;;
        pkey <- lift (as_key prop) ;;
        lift (set_property nodes key pkey))) ;;
    rel_types <- session_run_text session rel_query ;;
    rels <- for_fold (records rel_types) [] (fun rels rel_record =>
      rel_type <- lift (rec_get rel_record "relationshipType") ;;
      rel_details <- session_run_text session (rel_details_query rel_type) ;;
      for_fold (records rel_details) rels (detail_entries rel_type)) ;;
    ret (VDict [("nodes", VDict nodes); ("relationships", VList rels)])).

Definition apoc_query : string :=
  nl ++ ind12 ++ "CALL apoc.meta.schema() YIELD value"
     ++ nl ++ ind12 ++ "RETURN value"
     ++ nl ++ ind12.

Definition get_schema : M value :=
  try_except
    (with_session get_session (fun session =>
       try_except
         (result <- session_run_text session apoc_query ;;
          match single result with
          | Some record =>
              if rec_truthy record then lift (rec_get record "value")
              else ret (VDict [])
          | None => ret (VDict [])
          end)
         (fun e => get_basic_schema)))
    (fun e => get_basic_schema).

(** [info] is updated in place, so a failure after the version was
    stored leaves the version behind: the inner handler stands for that. *)
Definition get_database_info : M value :=
  me <- get_self ;;
  let info := [("version", VNone); ("edition", VNone);
               ("database_name", of_opt (database me));
               ("address", VStr (uri me))] in
  info <- try_except
    (with_session get_session (fun session =>
       result <- session_run_text session
         "CALL dbms.components() YIELD name, versions, edition RETURN name, versions, edition" ;;
       match single result with
       | Some record =>
           if rec_truthy record then
             versions <- lift (rec_get record "versions") ;;
             version <- lift (py_index0 versions) ;;
             let info := dict_set info "version" version in
             try_except
               (edition <- lift (rec_get record "edition") ;;
                ret (dict_set info "edition" edition))
               (fun e => ret info)
           else ret info
       | None => ret info
       end))
    (fun e => ret info) ;;
  ret (VDict info).

(** [record["count"] if record else 0] on the single record of [query]. *)
Definition count_query (query : string) : M value :=
  with_session get_session (fun session =>
    result <- session_run_text session query ;;
    match single result with
    | Some record =>
        if rec_truthy record then lift (rec_get record "count")
        else ret (VInt 0)
    | None => ret (VInt 0)
    end).

Definition get_node_count : M value :=
  count_query "MATCH (n) RETURN count(n) as count".

Definition get_relationship_count : M value :=
  count_query "MATCH ()-[r]->() RETURN count(r) as count".

(** [[record[key] for record in result]] on the result of [query]. *)
Definition column_query (query key : string) : M (list value) :=
  with_session get_session (fun session =>
    result <- session_run_text session query ;;
    for_each (records result) (fun record => lift (rec_get record key))).

Definition get_node_labels : M (list value) :=
  column_query "CALL db.labels() YIELD label RETURN label" "label".

Definition get_relationship_types : M (list value) :=
  column_query
    "CALL db.relationshipTypes() YIELD relationshipType RETURN relationshipType"
    "relationshipType".

Definition get_property_keys : M (list value) :=
  column_query "CALL db.propertyKeys() YIELD propertyKey RETURN propertyKey"
    "propertyKey".

(** [[record.data() for record in result]] on the result of [query]. *)
Definition data_query (query : string) : M (list value) :=
  with_session get_session (fun session =>
    result <- session_run_text session query ;;
    ret (map rec_data (records result))).

Definition get_indexes : M (list value) :=
  try_except
    (data_query
       (nl ++ ind12
           ++ "SHOW INDEXES YIELD name, labelsOrTypes, properties, type, uniqueness"
           ++ nl ++ ind12
           ++ "RETURN name, labelsOrTypes, properties, type, uniqueness"
           ++ nl ++ ind12))
    (fun _ =>
       try_except
         (data_query
            "CALL db.indexes() YIELD description, label, properties RETURN description, label, properties")
         (fun e => ret [])).

Definition get_constraints : M (list value) :=
  try_except
    (data_query
       (nl ++ ind12
           ++ "SHOW CONSTRAINTS YIELD name, labelsOrTypes, properties, type"
           ++ nl ++ ind12
           ++ "RETURN name, labelsOrTypes, properties, type"
           ++ nl ++ ind12))
    (fun _ =>
       try_except
         (data_query "CALL db.constraints() YIELD description RETURN description")
         (fun e => ret [])).

Definition get_sample_data (limit : value) : M pdict :=
  labels <- get_node_labels ;;
  for_fold labels [] (fun sample_data label =>
    let query :=
      nl ++ ind12 ++ "MATCH (n:" ++ py_str py label ++ ")"
         ++ nl ++ ind12 ++ "RETURN n"
         ++ nl ++ ind12 ++ "LIMIT " ++ py_str py limit
         ++ nl ++ ind12 in
    with_session get_session (fun session =>
      result <- session_run_text session query ;;
      nodes <- for_each (records result)
                 (fun record => lift (rec_get record "n")) ;;
      key <- lift (as_key label) ;;
      ret (dict_set sample_data key (VList nodes)))).

End Methods.
End Database.

(** ** core/server.py *)

Module Server.

(** [types.TextContent(type="text", text=...)]. *)
Inductive content := TextContent (text : string).

(** The part of a tool's input schema that names its arguments: each
    property with its JSON type, and the required ones. *)
Record schema := {
  properties : list (string * string);
  required : list string
}.

Record Tool := {
  name : string;
  description : string;
  inputSchema : schema
}.

Definition get_tools : list Tool :=
  [
    {| name := "get_neo4j_schema";
       description := "Get a list of all node types in the graph database, their attributes with name, type, and relationships to other node types";
       inputSchema := {| properties := [("detailed", "boolean")];
                        required := [] |} |};
    {| name := "get_database_info";
       description := "Get information about the Neo4j database, including version, edition, and address";
       inputSchema := {| properties := [];
                        required := [] |} |};
    {| name := "read_neo4j_cypher";
       description := "Execute Cypher read queries to read data from the database";
       inputSchema := {| properties := [("query", "string"); ("params", "object")];
                        required := ["query"] |} |};
    {| name := "write_neo4j_cypher";
       description := "Execute updating Cypher queries to modify the database";
       inputSchema := {| properties := [("query", "string"); ("params", "object")];
                        required := ["query"] |} |};
    {| name := "explain_neo4j_cypher";
       description := "Explain a Cypher query execution plan";
       inputSchema := {| properties := [("query", "string")];
                        required := ["query"] |} |};
    {| name := "get_database_statistics";
       description := "Get statistics about the Neo4j database, including node and relationship counts";
       inputSchema := {| properties := [];
                        required := [] |} |};
    {| name := "get_node_counts_by_label";
       description := "Get the number of nodes for each label in the database";
       inputSchema := {| properties := [];
                        required := [] |} |};
    {| name := "get_relationship_counts_by_type";
       description := "Get the number of relationships for each type in the database";
       inputSchema := {| properties := [];
                        required := [] |} |};
    {| name := "get_indexes";
       description := "Get all indexes in the database";
       inputSchema := {| properties := [];
                        required := [] |} |};
    {| name := "get_constraints";
       description := "Get all constraints in the database";
       inputSchema := {| properties := [];
                        required := [] |} |};
    {| name := "create_index";
       description := "Create a new index in the database";
       inputSchema := {| properties := [("label", "string"); ("properties", "array"); ("name", "string"); ("type", "string")];
                        required := ["label"; "properties"] |} |};
    {| name := "create_constraint";
       description := "Create a new constraint in the database";
       inputSchema := {| properties := [("label", "string"); ("property", "string"); ("name", "string"); ("type", "string")];
                        required := ["label"; "property"; "type"] |} |};
    {| name := "drop_index";
       description := "Drop an index from the database";
       inputSchema := {| properties := [("name", "string")];
                        required := ["name"] |} |};
    {| name := "drop_constraint";
       description := "Drop a constraint from the database";
       inputSchema := {| properties := [("name", "string")];
                        required := ["name"] |} |};
    {| name := "get_sample_data";
       description := "Get sample data for each node label in the database";
       inputSchema := {| properties := [("limit", "integer"); ("labels", "array")];
                        required := [] |} |};
    {| name := "find_nodes";
       description := "Find nodes in the database based on label and property conditions";
       inputSchema := {| properties := [("label", "string"); ("properties", "object"); ("limit", "integer")];
                        required := ["label"] |} |};
    {| name := "find_relationships";
       description := "Find relationships in the database based on type and property conditions";
       inputSchema := {| properties := [("type", "string"); ("source_label", "string"); ("target_label", "string"); ("properties", "object"); ("limit", "integer")];
                        required := ["type"] |} |};
    {| name := "find_paths";
       description := "Find paths between nodes in the database";
       inputSchema := {| properties := [("start_label", "string"); ("start_properties", "object"); ("end_label", "string"); ("end_properties", "object"); ("max_depth", "integer"); ("limit", "integer")];
                        required := ["start_label"; "start_properties"; "end_label"; "end_properties"] |} |};
    {| name := "find_shortest_path";
       description := "Find the shortest path between two nodes";
       inputSchema := {| properties := [("start_label", "string"); ("start_properties", "object"); ("end_label", "string"); ("end_properties", "object"); ("relationship_types", "array"); ("max_depth", "integer")];
                        required := ["start_label"; "start_properties"; "end_label"; "end_properties"] |} |};
    {| name := "find_all_paths";
       description := "Find all paths between two nodes";
       inputSchema := {| properties := [("start_label", "string"); ("start_properties", "object"); ("end_label", "string"); ("end_properties", "object"); ("relationship_types", "array"); ("max_depth", "integer"); ("limit", "integer")];
                        required := ["start_label"; "start_properties"; "end_label"; "end_properties"] |} |}
  ].

Section Handlers.

Variable py : runtime.
Variable eng : engine.

(** [[types.TextContent(type="text", text=json.dumps(v, indent=2))]]. *)
Definition json_content (v : value) : M (list content) :=
  text <- lift (json_dumps py v) ;;
  ret [TextContent text].

Definition get_schema (arguments : value) : M (list content) :=
  detailed <- lift (py_get arguments "detailed" (VBool false)) ;;
  schema <- (if truthy detailed then Database.get_schema py eng
             else Database.get_basic_schema py eng) ;;
  json_content schema.

Definition get_database_info (arguments : value) : M (list content) :=
  info <- Database.get_database_info eng ;;
  json_content info.

Definition execute_read_query (arguments : value) : M (list content) :=
  query <- lift (py_get arguments "query" VNone) ;;
  params <- lift (py_get arguments "params" (VDict [])) ;;
  if negb (truthy query) then ret [TextContent "No query provided"]
  else
    results <- Database.run_query eng query params None ;;
    json_content (VList results).

Definition execute_write_query (arguments : value) : M (list content) :=
  query <- lift (py_get arguments "query" VNone) ;;
  params <- lift (py_get arguments "params" (VDict [])) ;;
  if negb (truthy query) then ret [TextContent "No query provided"]
  else
    results <- Database.run_write_query eng query params None ;;
    json_content (VDict results).

(** The [plan] of the summary is a [dict] or [None], and neither has an
    attribute [operator_type]: the dict literal that starts with
    [plan.operator_type] raises at its first entry, so that what follows
    it in the block, [add_children] and [json.dumps], is never reached. *)
Definition explain_query (arguments : value) : M (list content) :=
  query <- lift (py_get arguments "query" VNone) ;;
  if negb (truthy query) then ret [TextContent "No query provided"]
  else
    let explain_query := "EXPLAIN " ++ py_str py query in
    try_except
      (Database.with_session (Database.get_session eng) (fun session =>
         result <- Database.session_run_text eng session explain_query ;;
         let plan := summary_plan result in
         lift (no_attribute plan "operator_type")))
      (fun e => ret [TextContent ("Error explaining query: " ++ exn_str e)]).

Definition get_database_statistics (arguments : value) : M (list content) :=
  node_count <- Database.get_node_count eng ;;
  relationship_count <- Database.get_relationship_count eng ;;
  database_info <- Database.get_database_info eng ;;
  json_content (VDict [("node_count", node_count);
                       ("relationship_count", relationship_count);
                       ("database_info", database_info)]).

(** The loop shared by the two count tools: one count query per name. *)
Definition counts_by (names : list value) (query_of : value -> string)
  : M pdict :=
  for_fold names [] (fun counts item =>
    Database.with_session (Database.get_session eng) (fun session =>
      result <- Database.session_run_text eng session (query_of item) ;;
      count <- match single result with
               | Some record =>
                   if rec_truthy record then lift (rec_get record "count")
                   else ret (VInt 0)
               | None => ret (VInt 0)
               end ;;
      key <- lift (as_key item) ;;
      ret (dict_set counts key count))).

Definition get_node_counts_by_label (arguments : value) : M (list content) :=
  labels <- Database.get_node_labels eng ;;
  counts <- counts_by labels (fun label =>
    "MATCH (n:" ++ py_str py label ++ ") RETURN count(n) as count") ;;
  json_content (VDict counts).

Definition get_relationship_counts_by_type (arguments : value)
  : M (list content) :=
  types_list <- Database.get_relationship_types eng ;;
  counts <- counts_by types_list (fun rel_type =>
    "MATCH ()-[r:" ++ py_str py rel_type ++ "]->() RETURN count(r) as count") ;;
  json_content (VDict counts).

Definition get_indexes (arguments : value) : M (list content) :=
  indexes <- Database.get_indexes eng ;;
  json_content (VList indexes).

Definition get_constraints (arguments : value) : M (list content) :=
  constraints <- Database.get_constraints eng ;;
  json_content (VList constraints).

(** [value == text] for a [str] literal [text]. *)
Definition eq_str (v : value) (text : string) : bool :=
  match v with VStr s => String.eqb s text | _ => false end.

Definition create_index (arguments : value) : M (list content) :=
  label <- lift (py_get arguments "label" VNone) ;;
  properties <- lift (py_get arguments "properties" (VList [])) ;;
  name <- lift (py_get arguments "name" VNone) ;;
  index_type <- lift (py_get arguments "type" (VStr "BTREE")) ;;
  if negb (truthy label) || negb (truthy properties) then
    ret [TextContent "Label and properties are required"]
  else
    props <- lift (py_iter properties) ;;
    let props_str := join ", " (map (fun prop => "n." ++ py_str py prop) props) in
    let query :=
      if truthy name then
        "CREATE " ++ py_str py index_type ++ " INDEX " ++ py_str py name
          ++ " FOR (n:" ++ py_str py label ++ ") ON (" ++ props_str ++ ")"
      else
        "CREATE " ++ py_str py index_type ++ " INDEX FOR (n:"
          ++ py_str py label ++ ") ON (" ++ props_str ++ ")" in
    try_except
      (Database.run_write_query eng (VStr query) VNone None ;;;
       ret [TextContent ("Index created successfully on :" ++ py_str py label
                           ++ "(" ++ props_str ++ ")")])
      (fun e => ret [TextContent ("Error creating index: " ++ exn_str e)]).

(** The statement for one constraint type; [None] for a type that is
    none of the three. *)
Definition constraint_query (name label property_name constraint_type : value)
  : option string :=
  let head :=
    if truthy name then "CREATE CONSTRAINT " ++ py_str py name ++ " FOR (n:"
    else "CREATE CONSTRAINT FOR (n:" in
  let body := head ++ py_str py label ++ ") REQUIRE n." ++ py_str py property_name in
  if eq_str constraint_type "UNIQUE" then Some (body ++ " IS UNIQUE")
  else if eq_str constraint_type "EXISTS" then Some (body ++ " IS NOT NULL")
  else if eq_str constraint_type "NODE_KEY" then Some (body ++ " IS NODE KEY")
  else None.

Definition create_constraint (arguments : value) : M (list content) :=
  label <- lift (py_get arguments "label" VNone) ;;
  property_name <- lift (py_get arguments "property" VNone) ;;
  name <- lift (py_get arguments "name" VNone) ;;
  constraint_type <- lift (py_get arguments "type" (VStr "UNIQUE")) ;;
  if negb (truthy label) || negb (truthy property_name)
     || negb (truthy constraint_type) then
    ret [TextContent "Label, property, and type are required"]
  else
    match constraint_query name label property_name constraint_type with
    | None =>
        ret [TextContent ("Unknown constraint type: " ++ py_str py constraint_type)]
    | Some query =>
        try_except
          (Database.run_write_query eng (VStr query) VNone None ;;;
           ret [TextContent ("Constraint created successfully on :"
                               ++ py_str py label ++ "." ++ py_str py property_name)])
          (fun e => ret [TextContent ("Error creating constraint: " ++ exn_str e)])
    end.

Definition drop_index (arguments : value) : M (list content) :=
  name <- lift (py_get arguments "name" VNone) ;;
  if negb (truthy name) then ret [TextContent "Index name is required"]
  else
    let query := "DROP INDEX " ++ py_str py name in
    try_except
      (Database.run_write_query eng (VStr query) VNone None ;;;
       ret [TextContent ("Index " ++ py_str py name ++ " dropped successfully")])
      (fun e => ret [TextContent ("Error dropping index: " ++ exn_str e)]).

Definition drop_constraint (arguments : value) : M (list content) :=
  name <- lift (py_get arguments "name" VNone) ;;
  if negb (truthy name) then ret [TextContent "Constraint name is required"]
  else
    let query := "DROP CONSTRAINT " ++ py_str py name in
    try_except
      (Database.run_write_query eng (VStr query) VNone None ;;;
       ret [TextContent ("Constraint " ++ py_str py name ++ " dropped successfully")])
      (fun e => ret [TextContent ("Error dropping constraint: " ++ exn_str e)]).

Definition get_sample_data (arguments : value) : M (list content) :=
  limit <- lift (py_get arguments "limit" (VInt 10)) ;;
  specific_labels <- lift (py_get arguments "labels" (VList [])) ;;
  sample_data <-
    (if truthy specific_labels then
       labels <- lift (py_iter specific_labels) ;;
       for_fold labels [] (fun sample_data label =>
         let query :=
           nl ++ ind16 ++ "MATCH (n:" ++ py_str py label ++ ")"
              ++ nl ++ ind16 ++ "RETURN n"
              ++ nl ++ ind16 ++ "LIMIT " ++ py_str py limit
              ++ nl ++ ind16 in
         Database.with_session (Database.get_session eng) (fun session =>
           result <- Database.session_run_text eng session query ;;
           nodes <- for_each (records result)
                      (fun record => lift (rec_get record "n")) ;;
           key <- lift (as_key label) ;;
           ret (dict_set sample_data key (VList nodes))))
     else Database.get_sample_data py eng limit) ;;
  json_content (VDict sample_data).

(** One equality term per item of a property mapping: a [str] value is
    put between single quotes, any other value is written as [str] gives
    it. *)
Definition condition (var : string) (item : string * value) : string :=
  match snd item with
  | VStr s => var ++ "." ++ fst item ++ " = '" ++ s ++ "'"
  | v => var ++ "." ++ fst item ++ " = " ++ py_str py v
  end.

Definition conditions (var : string) (items : pdict) : list string :=
  map (condition var) items.

(** The query text of [find_nodes]. *)
Definition find_nodes_query (label properties limit : value) : res string :=
  let query := "MATCH (n:" ++ py_str py label ++ ")" in
  match
    (if truthy properties then
       match py_items properties with
       | inr items =>
           match conditions "n" items with
           | [] => inr query
           | conds => inr (query ++ " WHERE " ++ join " AND " conds)
           end
       | inl e => inl e
       end
     else inr query)
  with
  | inr query => inr (query ++ " RETURN n LIMIT " ++ py_str py limit)
  | inl e => inl e
  end.

Definition find_nodes (arguments : value) : M (list content) :=
  label <- lift (py_get arguments "label" VNone) ;;
  properties <- lift (py_get arguments "properties" (VDict [])) ;;
  limit <- lift (py_get arguments "limit" (VInt 10)) ;;
  if negb (truthy label) then ret [TextContent "Node label is required"]
  else
    query <- lift (find_nodes_query label properties limit) ;;
    try_except
      (results <- Database.run_query eng (VStr query) VNone None ;;
       json_content (VList results))
      (fun e => ret [TextContent ("Error finding nodes: " ++ exn_str e)]).

(** [':' + label]: only a [str] can be added to a [str]. *)
Definition colon_plus (label : value) : res string :=
  match label with
  | VStr s => inr (":" ++ s)
  | v => inl (Exn TypeError
                ("can only concatenate str (not " ++ dq ++ type_name v ++ dq
                   ++ ") to str"))
  end.

(** The query text of [find_relationships]. *)
Definition find_relationships_query
    (rel_type source_label target_label properties limit : value) : res string :=
  match (if truthy source_label then colon_plus source_label else inr "") with
  | inl e => inl e
  | inr source =>
  match (if truthy target_label then colon_plus target_label else inr "") with
  | inl e => inl e
  | inr target =>
      let source_pattern := "(source" ++ source ++ ")" in
      let target_pattern := "(target" ++ target ++ ")" in
      let rel_pattern := "[r:" ++ py_str py rel_type ++ "]" in
      let query :=
        "MATCH " ++ source_pattern ++ "-" ++ rel_pattern ++ "->" ++ target_pattern in
      match
        (if truthy properties then
           match py_items properties with
           | inr items =>
               match conditions "r" items with
               | [] => inr query
               | conds => inr (query ++ " WHERE " ++ join " AND " conds)
               end
           | inl e => inl e
           end
         else inr query)
      with
      | inr query =>
          inr (query ++ " RETURN source, r, target LIMIT " ++ py_str py limit)
      | inl e => inl e
      end
  end
  end.

Definition find_relationships (arguments : value) : M (list content) :=
  rel_type <- lift (py_get arguments "type" VNone) ;;
  source_label <- lift (py_get arguments "source_label" VNone) ;;
  target_label <- lift (py_get arguments "target_label" VNone) ;;
  properties <- lift (py_get arguments "properties" (VDict [])) ;;
  limit <- lift (py_get arguments "limit" (VInt 10)) ;;
  if negb (truthy rel_type) then ret [TextContent "Relationship type is required"]
  else
    query <- lift (find_relationships_query rel_type source_label target_label
                     properties limit) ;;
    try_except
      (results <- Database.run_query eng (VStr query) VNone None ;;
       json_content (VList results))
      (fun e => ret [TextContent ("Error finding relationships: " ++ exn_str e)]).

(** [' AND '.join(conds) if conds else 'true']. *)
Definition where_clause (conds : list string) : string :=
  match conds with
  | [] => "true"
  | _ => join " AND " conds
  end.

(** The two [MATCH ... WHERE ...] lines every path query starts with. *)
Definition endpoints_clause (start_label end_label : value)
    (start_conditions end_conditions : list string) : string :=
  nl ++ ind8 ++ "MATCH (start:" ++ py_str py start_label ++ "), (end:"
     ++ py_str py end_label ++ ")"
     ++ nl ++ ind8 ++ "WHERE " ++ where_clause start_conditions
     ++ nl ++ ind8 ++ "AND " ++ where_clause end_conditions.

(** [path.nodes] and [path.relationships]. *)
Definition path_nodes (path : value) : res (list pdict) :=
  match path with
  | VPath nodes _ => inr nodes
  | _ => no_attribute path "nodes"
  end.

Definition path_relationships (path : value) : res (list pdict) :=
  match path with
  | VPath _ rels => inr rels
  | _ => no_attribute path "relationships"
  end.

(** The [path_data] dict built from [record["path"]]; the three path
    tools build it with the same four lines. *)
Definition path_data (record : record) : res value :=
  match rec_get record "path" with
  | inl e => inl e
  | inr path =>
      match path_nodes path with
      | inl e => inl e
      | inr nodes =>
          match path_relationships path with
          | inl e => inl e
          | inr rels =>
              inr (VDict [("nodes", VList (map VDict nodes));
                          ("relationships", VList (map VDict rels));
                          ("length", VInt (Z.of_nat (length rels)))])
          end
      end
  end.

Definition find_paths_query
    (start_label end_label max_depth limit : value)
    (start_conditions end_conditions : list string) : string :=
  endpoints_clause start_label end_label start_conditions end_conditions
    ++ nl ++ ind8 ++ "MATCH path = (start)-[*1.." ++ py_str py max_depth ++ "]->(end)"
    ++ nl ++ ind8 ++ "RETURN path"
    ++ nl ++ ind8 ++ "LIMIT " ++ py_str py limit
    ++ nl ++ ind8.

Definition find_paths (arguments : value) : M (list content) :=
  start_label <- lift (py_get arguments "start_label" VNone) ;;
  start_properties <- lift (py_get arguments "start_properties" (VDict [])) ;;
  end_label <- lift (py_get arguments "end_label" VNone) ;;
  end_properties <- lift (py_get arguments "end_properties" (VDict [])) ;;
  max_depth <- lift (py_get arguments "max_depth" (VInt 3)) ;;
  limit <- lift (py_get arguments "limit" (VInt 5)) ;;
  if negb (truthy start_label) || negb (truthy end_label) then
    ret [TextContent "Start and end labels are required"]
  else
    start_items <- lift (py_items start_properties) ;;
    let start_conditions := conditions "start" start_items in
    end_items <- lift (py_items end_properties) ;;
    let end_conditions := conditions "end" end_items in
    let query := find_paths_query start_label end_label max_depth limit
                   start_conditions end_conditions in
    try_except
      (Database.with_session (Database.get_session eng) (fun session =>
         result <- Database.session_run_text eng session query ;;
         paths <- for_each (records result)
                    (fun record => lift (path_data record)) ;;
         json_content (VList paths)))
      (fun e => ret [TextContent ("Error finding paths: " ++ exn_str e)]).

(** The relationship pattern of [find_shortest_path] and
    [find_all_paths], branch for branch as both handlers write it. *)
Definition rel_pattern (relationship_types max_depth : value) : res string :=
  if truthy relationship_types then
    inr ("[*1.." ++ py_str py max_depth ++ "]")
  else
    match py_join "|" relationship_types with
    | inl e => inl e
    | inr rel_types_str =>
        inr ("[*1.." ++ py_str py max_depth ++ " r WHERE type(r) IN ['"
               ++ rel_types_str ++ "']]")
    end.

Definition find_shortest_path_query
    (start_label end_label : value)
    (start_conditions end_conditions : list string) (rel_pattern : string)
  : string :=
  endpoints_clause start_label end_label start_conditions end_conditions
    ++ nl ++ ind8 ++ "MATCH path = shortestPath((start)-" ++ rel_pattern ++ "->(end))"
    ++ nl ++ ind8 ++ "RETURN path"
    ++ nl ++ ind8.

Definition find_shortest_path (arguments : value) : M (list content) :=
  start_label <- lift (py_get arguments "start_label" VNone) ;;
  start_properties <- lift (py_get arguments "start_properties" (VDict [])) ;;
  end_label <- lift (py_get arguments "end_label" VNone) ;;
  end_properties <- lift (py_get arguments "end_properties" (VDict [])) ;;
  relationship_types <- lift (py_get arguments "relationship_types" (VList [])) ;;
  max_depth <- lift (py_get arguments "max_depth" (VInt 5)) ;;
  if negb (truthy start_label) || negb (truthy end_label) then
    ret [TextContent "Start and end labels are required"]
  else
    start_items <- lift (py_items start_properties) ;;
    let start_conditions := conditions "start" start_items in
    end_items <- lift (py_items end_properties) ;;
    let end_conditions := conditions "end" end_items in
    rel_pattern <- lift (rel_pattern relationship_types max_depth) ;;
    let query := find_shortest_path_query start_label end_label
                   start_conditions end_conditions rel_pattern in
    try_except
      (Database.with_session (Database.get_session eng) (fun session =>
         result <- Database.session_run_text eng session query ;;
         match single result with
         | Some record =>
             if rec_truthy record then
               path_data <- lift (path_data record) ;;
               json_content path_data
             else ret [TextContent "No path found"]
         | None => ret [TextContent "No path found"]
         end))
      (fun e => ret [TextContent ("Error finding shortest path: " ++ exn_str e)]).

Definition find_all_paths_query
    (start_label end_label limit : value)
    (start_conditions end_conditions : list string) (rel_pattern : string)
  : string :=
  endpoints_clause start_label end_label start_conditions end_conditions
    ++ nl ++ ind8 ++ "MATCH path = allShortestPaths((start)-" ++ rel_pattern
    ++ "->(end))"
    ++ nl ++ ind8 ++ "RETURN path"
    ++ nl ++ ind8 ++ "LIMIT " ++ py_str py limit
    ++ nl ++ ind8.

Definition find_all_paths (arguments : value) : M (list content) :=
  start_label <- lift (py_get arguments "start_label" VNone) ;;
  start_properties <- lift (py_get arguments "start_properties" (VDict [])) ;;
  end_label <- lift (py_get arguments "end_label" VNone) ;;
  end_properties <- lift (py_get arguments "end_properties" (VDict [])) ;;
  relationship_types <- lift (py_get arguments "relationship_types" (VList [])) ;;
  max_depth <- lift (py_get arguments "max_depth" (VInt 3)) ;;
  limit <- lift (py_get arguments "limit" (VInt 5)) ;;
  if negb (truthy start_label) || negb (truthy end_label) then
    ret [TextContent "Start and end labels are required"]
  else
    start_items <- lift (py_items start_properties) ;;
    let start_conditions := conditions "start" start_items in
    end_items <- lift (py_items end_properties) ;;
    let end_conditions := conditions "end" end_items in
    rel_pattern <- lift (rel_pattern relationship_types max_depth) ;;
    let query := find_all_paths_query start_label end_label limit
                   start_conditions end_conditions rel_pattern in
    try_except
      (Database.with_session (Database.get_session eng) (fun session =>
         result <- Database.session_run_text eng session query ;;
         paths <- for_each (records result)
                    (fun record => lift (path_data record)) ;;
         json_content (VList paths)))
      (fun e => ret [TextContent ("Error finding all paths: " ++ exn_str e)]).

(** The chain of name tests inside the [try] of [handle_call_tool]. *)
Definition route (name : string) (arguments : value) : M (list content) :=
  if String.eqb name "get_neo4j_schema" then get_schema arguments
  else if String.eqb name "get_database_info" then get_database_info arguments
  else if String.eqb name "read_neo4j_cypher" then execute_read_query arguments
  else if String.eqb name "write_neo4j_cypher" then execute_write_query arguments
  else if String.eqb name "explain_neo4j_cypher" then explain_query arguments
  else if String.eqb name "get_database_statistics" then
    get_database_statistics arguments
  else if String.eqb name "get_node_counts_by_label" then
    get_node_counts_by_label arguments
  else if String.eqb name "get_relationship_counts_by_type" then
    get_relationship_counts_by_type arguments
  else if String.eqb name "get_indexes" then get_indexes arguments
  else if String.eqb name "get_constraints" then get_constraints arguments
  else if String.eqb name "create_index" then create_index arguments
  else if String.eqb name "create_constraint" then create_constraint arguments
  else if String.eqb name "drop_index" then drop_index arguments
  else if String.eqb name "drop_constraint" then drop_constraint arguments
  else if String.eqb name "get_sample_data" then get_sample_data arguments
  else if String.eqb name "find_nodes" then find_nodes arguments
  else if String.eqb name "find_relationships" then find_relationships arguments
  else if String.eqb name "find_paths" then find_paths arguments
  else if String.eqb name "find_shortest_path" then find_shortest_path arguments
  else if String.eqb name "find_all_paths" then find_all_paths arguments
  else ret [TextContent ("Unknown tool: " ++ name)].

Definition handle_call_tool (name : string) (arguments : value)
  : M (list content) :=
  try_except (route name arguments)
    (fun e => ret [TextContent ("Error: " ++ exn_str e)]).

End Handlers.
End Server.

(** ** Concrete runtimes and engines, for evaluating the code *)

(** A compact rendering of an object, one line, JSON-like.  It stands in
    for the two functions of the runtime when the code is evaluated on a
    concrete input; the theorems hold for every runtime. *)
Fixpoint show (v : value) : string :=
  match v with
  | VNone => "null"
  | VBool true => "true"
  | VBool false => "false"
  | VInt z => z_str z
  | VStr s => dq_wrap s
  | VList l => "[" ++ join ", " (map show l) ++ "]"
  | VDict d =>
      "{" ++ join ", " (map (fun kv => dq_wrap (fst kv) ++ ": " ++ show (snd kv)) d)
          ++ "}"
  | VNode _ => "<Node>"
  | VRel _ => "<Relationship>"
  | VPath _ _ => "<Path>"
  end.

Definition plain : runtime := {| py_repr := show; json_text := show |}.

Definition no_counters : SummaryCounters :=
  {| nodes_created := 0; nodes_deleted := 0;
     relationships_created := 0; relationships_deleted := 0;
     properties_set := 0; labels_added := 0; labels_removed := 0;
     indexes_added := 0; indexes_removed := 0;
     constraints_added := 0; constraints_removed := 0 |}.

(** A result with the given records and nothing else. *)
Definition rows (rs : list record) : result :=
  {| records := rs; counters := no_counters; res_plan := None |}.

(** A record whose [data()] is the dict of its fields. *)
Definition row (fields : pdict) : record :=
  {| rec_fields := fields; rec_data := VDict fields |}.

(** An engine that accepts every connection and answers a query from its
    text alone: a database that nothing else is changing. *)
Definition answering (answer : value -> res result) : engine :=
  {| eng_driver := fun _ _ _ => None;
     eng_verify := fun _ => None;
     eng_close := fun _ => None;
     eng_run := fun _ _ query _ => answer query |}.

(** An empty database. *)
Definition quiet : engine := answering (fun _ => inr (rows [])).

(** A manager as [__init__] leaves it when nothing is passed and the
    environment is empty, connected, with no call recorded yet. *)
Definition fresh : world :=
  {| self := {| uri := "bolt://localhost:7687"; username := "neo4j";
                password := ""; database := None;
                _driver := Some {| drv_uri := "bolt://localhost:7687";
                                   drv_auth := None |} |};
     trace := [] |}.

(** ** The vocabulary of the properties, and concrete inputs *)

(** The error of reading [.session] on an absent handle. *)
Definition no_session : exn :=
  Exn AttributeError "'NoneType' object has no attribute 'session'".

(** A manager whose handle is absent, for evaluating the code. *)
Definition closed : world := set_driver None fresh.

(** The order in which one setting is resolved: the explicit argument
    when it is given and not empty, else the environment value when the
    variable is set, else the default. *)
Definition precedence (explicit environment : option string)
    (default resolved : string) : Prop :=
  (forall s, explicit = Some s -> s <> "" -> resolved = s)
  /\ (explicit = None \/ explicit = Some "" ->
      forall e, environment = Some e -> resolved = e)
  /\ (explicit = None \/ explicit = Some "" ->
      environment = None -> resolved = default).

(** An environment given by the variables it sets. *)
Fixpoint environ (vars : list (string * string)) (name : string)
  : option string :=
  match vars with
  | [] => None
  | (k, v) :: rest => if String.eqb k name then Some v else environ rest name
  end.

(** The eleven counters of the mutation record, in the order the record
    lists them. *)
Definition counter_keys : list string :=
  ["nodes_created"; "nodes_deleted"; "relationships_created";
   "relationships_deleted"; "properties_set"; "labels_added";
   "labels_removed"; "indexes_added"; "indexes_removed";
   "constraints_added"; "constraints_removed"].

(** The counter of the driver's summary that a key of the record names. *)
Definition counter_of (c : SummaryCounters) (key : string) : option Z :=
  if String.eqb key "nodes_created" then Some (nodes_created c)
  else if String.eqb key "nodes_deleted" then Some (nodes_deleted c)
  else if String.eqb key "relationships_created" then
    Some (relationships_created c)
  else if String.eqb key "relationships_deleted" then
    Some (relationships_deleted c)
  else if String.eqb key "properties_set" then Some (properties_set c)
  else if String.eqb key "labels_added" then Some (labels_added c)
  else if String.eqb key "labels_removed" then Some (labels_removed c)
  else if String.eqb key "indexes_added" then Some (indexes_added c)
  else if String.eqb key "indexes_removed" then Some (indexes_removed c)
  else if String.eqb key "constraints_added" then Some (constraints_added c)
  else if String.eqb key "constraints_removed" then
    Some (constraints_removed c)
  else None.

(** What the engine reports for a statement that creates one node with
    two properties. *)
Definition one_node_two_properties : SummaryCounters :=
  {| nodes_created := 1; nodes_deleted := 0;
     relationships_created := 0; relationships_deleted := 0;
     properties_set := 2; labels_added := 0; labels_removed := 0;
     indexes_added := 0; indexes_removed := 0;
     constraints_added := 0; constraints_removed := 0 |}.

(** [params or {}]. *)
Definition params_or_empty (params : value) : value :=
  if truthy params then params else VDict [].

(** An engine on which every statement creates one node with two
    properties. *)
Definition creating : engine :=
  answering (fun _ => inr {| records := [];
                             counters := one_node_two_properties;
                             res_plan := None |}).

(** [arguments.get(key, default)] on an argument bag that is a dict. *)
Definition arg_or (args : pdict) (key : string) (default : value) : value :=
  match lookup args key with Some v => v | None => default end.

(** The equality term of one property: the key, and the value between
    single quotes when it is a [str], as [str] writes it otherwise. *)
Definition equality_term (py : runtime) (item : string * value) : string :=
  "n." ++ fst item ++ " = "
    ++ match snd item with
       | VStr s => "'" ++ s ++ "'"
       | v => py_str py v
       end.

(** The query text for a label, the items of a property mapping and a
    limit: the [MATCH] on the label, the [WHERE] conjunction when there
    are items, the [RETURN] with the limit. *)
Definition nodes_query (py : runtime) (label : string) (items : pdict)
    (limit : value) : string :=
  "MATCH (n:" ++ label ++ ")"
    ++ match items with
       | [] => ""
       | _ => " WHERE " ++ join " AND " (map (equality_term py) items)
       end
    ++ " RETURN n LIMIT " ++ py_str py limit.

(** A call that asks for the paths from Alice to Bob, with the given
    extra arguments. *)
Definition alice_to_bob (extra : pdict) : value :=
  VDict ([("start_label", VStr "Person");
          ("start_properties", VDict [("name", VStr "Alice")]);
          ("end_label", VStr "Person");
          ("end_properties", VDict [("name", VStr "Bob")])] ++ extra).

(** The calls a path tool makes on a connected manager: a session, one
    query, the session closed. *)
Definition one_query (query : string) : list event :=
  [EvSession None; EvRun None (VStr query) VNone; EvSessionClose None].

(** A computation that, when it returns, returns one text content. *)
Definition emits_text (m : M (list Server.content)) : Prop :=
  forall w out w', m w = (inr out, w') ->
  exists text, out = [Server.TextContent text].

(** The names in the catalog of tools. *)
Definition registered (name : string) : bool :=
  existsb (String.eqb name) (map Server.name Server.get_tools).

(** The shape of a serialised path: the property mappings of its nodes,
    the property mappings of its relationships, and the number of its
    relationships. *)
Definition path_shape (p : list pdict * list pdict) : value :=
  VDict [("nodes", VList (map VDict (fst p)));
         ("relationships", VList (map VDict (snd p)));
         ("length", VInt (Z.of_nat (length (snd p))))].

(** A record whose [path] field is the path [p]. *)
Definition holds_path (r : record) (p : list pdict * list pdict) : Prop :=
  rec_get r "path" = inr (VPath (fst p) (snd p)).

(** The engine, asked [query] in a fresh session of the manager of [w],
    answers with the result [r]. *)
Definition answers (eng : engine) (w : world) (query : string) (r : result)
  : Prop :=
  eng_run eng (trace w ++ [EvSession (database (self w))])%list
    (database (self w)) (VStr query) VNone = inr r.

(** The world after one session in which [query] alone was run. *)
Definition after_query (w : world) (query : string) : world :=
  {| self := self w;
     trace := (trace w
       ++ [EvSession (database (self w));
           EvRun (database (self w)) (VStr query) VNone;
           EvSessionClose (database (self w))])%list |}.

(** Two routes from Alice to Charlie, one direct and one through Bob,
    and an engine that answers every query with them. *)
Definition direct_route : list pdict * list pdict :=
  ([[("name", VStr "Alice")]; [("name", VStr "Charlie")]],
   [[("project", VStr "Neo4j MCP")]]).

(** The route through Bob. *)
Definition route_through_bob : list pdict * list pdict :=
  ([[("name", VStr "Alice")]; [("name", VStr "Bob")]; [("name", VStr "Charlie")]],
   [[("since", VInt 2020)]; [("since", VInt 2021)]]).

(** A record with the one field [path]. *)
Definition path_row (p : list pdict * list pdict) : record :=
  {| rec_fields := [("path", VPath (fst p) (snd p))]; rec_data := VNone |}.

(** An engine that answers every query with the two routes. *)
Definition two_routes : engine :=
  answering (fun _ => inr (rows [path_row direct_route; path_row route_through_bob])).

(** The arguments of a call for the paths from Alice to Charlie. *)
Definition alice_to_charlie : pdict :=
  [("start_label", VStr "Person");
   ("start_properties", VDict [("name", VStr "Alice")]);
   ("end_label", VStr "Person");
   ("end_properties", VDict [("name", VStr "Charlie")])].





(** A database as the four introspection queries of [get_basic_schema]
    see it: the node labels, the property keys found on the nodes of a
    label, the relationship types, and for a relationship type the rows
    of the details query, each a pair of the label list of a source node
    and the label list of a target node. *)
Record reflected := {
  db_labels : list string;
  db_keys : string -> list string;
  db_rel_types : list string;
  db_endpoints : string -> list (list string * list string)
}.

(** The engine answers the query text [query], whenever and in whatever
    session it is asked, with records that have the fields [fields]. *)
Definition yields (eng : engine) (query : string) (fields : list pdict) : Prop :=
  forall t db, exists r,
    eng_run eng t db (VStr query) VNone = inr r
    /\ map rec_fields (records r) = fields.

(** The fields of a record of the details query. *)
Definition endpoint_fields (row : list string * list string) : pdict :=
  [("source_labels", VList (map VStr (fst row)));
   ("target_labels", VList (map VStr (snd row)))].

(** The four statements of [get_basic_schema] as the engine receives
    them, with the line breaks and the indentation of the source. *)
Definition labels_statement : string :=
  nl ++ "        CALL db.labels() YIELD label"
     ++ nl ++ "        RETURN label"
     ++ nl ++ "        ".

Definition keys_statement (label : string) : string :=
  nl ++ "                MATCH (n:" ++ label ++ ")"
     ++ nl ++ "                UNWIND keys(n) AS property"
     ++ nl ++ "                RETURN DISTINCT property"
     ++ nl ++ "                ".

Definition types_statement : string :=
  nl ++ "            CALL db.relationshipTypes() YIELD relationshipType"
     ++ nl ++ "            RETURN relationshipType"
     ++ nl ++ "            ".

Definition details_statement (rel_type : string) : string :=
  nl ++ "                MATCH (source)-[r:" ++ rel_type ++ "]->(target)"
     ++ nl
     ++ "                RETURN DISTINCT labels(source) AS source_labels, labels(target) AS target_labels"
     ++ nl ++ "                LIMIT 5"
     ++ nl ++ "                ".

(** The engine serves the database [g]: it answers the statement that
    lists the labels with the labels of [g], the statement that lists the
    keys of a label with the keys found on its nodes, the statement that
    lists the relationship types with the types of [g], and the details
    statement of a type with its rows. *)
Definition reflects (py : runtime) (eng : engine) (g : reflected) : Prop :=
  yields eng labels_statement
    (map (fun l => [("label", VStr l)]) (db_labels g))
  /\ (forall l, In l (db_labels g) ->
      yields eng (keys_statement l)
        (map (fun k => [("property", VStr k)]) (db_keys g l)))
  /\ yields eng types_statement
       (map (fun t => [("relationshipType", VStr t)]) (db_rel_types g))
  /\ (forall t, In t (db_rel_types g) ->
      yields eng (details_statement t)
        (map endpoint_fields (db_endpoints g t))).

(** What is reported for every property. *)
Definition unknown_type : value := VDict [("type", VStr "unknown")].

(** The schema entry of a label whose nodes carry the keys [keys]. *)
Definition node_entry (keys : list string) : value :=
  VDict [("properties",
          VDict (fold_left (fun d k => dict_set d k unknown_type) keys []))].

(** The [nodes] part of the schema. *)
Definition schema_nodes (g : reflected) : pdict :=
  fold_left (fun d l => dict_set d l (node_entry (db_keys g l))) (db_labels g) [].

(** One entry of the [relationships] part. *)
Definition relationship_entry (t s target : string) : value :=
  VDict [("type", VStr t); ("source", VStr s); ("target", VStr target)].

(** The entries of one row of the details query: one for every source
    label and every target label of the row. *)
Definition row_entries (t : string) (row : list string * list string)
  : list value :=
  flat_map (fun s => map (relationship_entry t s) (snd row)) (fst row).

(** The [relationships] part of the schema. *)
Definition schema_relationships (g : reflected) : list value :=
  flat_map (fun t => flat_map (row_entries t) (db_endpoints g t))
    (db_rel_types g).

(** The schema of the database [g]. *)
Definition basic_schema (g : reflected) : value :=
  VDict [("nodes", VDict (schema_nodes g));
         ("relationships", VList (schema_relationships g))].

(** A computation that returns, with a result that satisfies [P], and
    leaves the manager as it was. *)
Definition runs {A} (m : M A) (P : A -> Prop) : Prop :=
  forall w, exists a w', m w = (inr a, w') /\ self w' = self w /\ P a.

(** Every endpoint in the rows of [g] carries exactly one label. *)
Definition single_labelled (g : reflected) : Prop :=
  forall t row, In t (db_rel_types g) -> In row (db_endpoints g t) ->
  exists s target, row = ([s], [target]).

(** An engine that accepts every connection and serves the database [g]
    to the four introspection queries, and nothing else. *)
Definition serving (py : runtime) (g : reflected) : engine :=
  answering (fun query =>
    if Server.eq_str query Database.node_query then
      inr (rows (map (fun l => row [("label", VStr l)]) (db_labels g)))
    else if Server.eq_str query Database.rel_query then
      inr (rows (map (fun t => row [("relationshipType", VStr t)])
                   (db_rel_types g)))
    else
      match find (fun l => Server.eq_str query (Database.prop_query py (VStr l)))
              (db_labels g) with
      | Some l =>
          inr (rows (map (fun k => row [("property", VStr k)]) (db_keys g l)))
      | None =>
          match find (fun t => Server.eq_str query
                                 (Database.rel_details_query py (VStr t)))
                  (db_rel_types g) with
          | Some t => inr (rows (map (fun r => row (endpoint_fields r))
                                   (db_endpoints g t)))
          | None => inl (Exn DriverError "unknown statement")
          end
      end).

(** The database that holds only (:Person {name}). *)
Definition person_only : reflected :=
  {| db_labels := ["Person"];
     db_keys := fun _ => ["name"];
     db_rel_types := [];
     db_endpoints := fun _ => [] |}.

(** A database in which a KNOWS relationship leaves a node labelled both
    A and B and another leaves a node labelled A, both towards nodes
    labelled C: two distinct rows of label lists. *)
Definition shared_label : reflected :=
  {| db_labels := ["A"; "B"; "C"];
     db_keys := fun _ => [];
     db_rel_types := ["KNOWS"];
     db_endpoints := fun _ => [(["A"; "B"], ["C"]); (["A"], ["C"])] |}.

(** ** Sessions and driver-level calls in a trace *)

(** What a call does to the number of sessions that are open. *)
Definition session_delta (e : event) : Z :=
  match e with
  | EvSession _ => 1
  | EvSessionClose _ => -1
  | _ => 0
  end.

(** The number of sessions opened and not yet closed in a trace. *)
Definition open_sessions (t : list event) : Z :=
  fold_right (fun e n => session_delta e + n)%Z 0%Z t.

(** The calls that go through a session: opening one, running a query in
    it, closing it.  The others create, check or close the driver. *)
Definition session_call (e : event) : Prop :=
  match e with
  | EvSession _ | EvRun _ _ _ | EvSessionClose _ => True
  | _ => False
  end.

(** Two managers with the same connection configuration. *)
Definition same_config (a b : Neo4jDatabase) : Prop :=
  uri a = uri b /\ username a = username b
  /\ password a = password b /\ database a = database b.

(** A move from [w] to [w'] that keeps the configuration, changes the
    number of open sessions by [gain], and, when [w] has its handle in
    place, leaves the manager as it is and only adds session calls. *)
Definition step (gain : Z) (w w' : world) : Prop :=
  same_config (self w') (self w)
  /\ open_sessions (trace w') = (open_sessions (trace w) + gain)%Z
  /\ (forall d, _driver (self w) = Some d ->
      self w' = self w
      /\ exists added,
           trace w' = (trace w ++ added)%list /\ Forall session_call added).

(** A computation all of whose runs are such moves, with the gain given
    by the outcome. *)
Definition orderly {A} (gain : res A -> Z) (m : M A) : Prop :=
  forall w r w', m w = (r, w') -> step (gain r) w w'.

(** A computation that leaves no session open. *)
Definition tidy {A} (m : M A) : Prop := orderly (fun _ => 0%Z) m.

(** A computation that opens one session when it returns, and none when
    it raises. *)
Definition acquiring (m : M Database.session) : Prop :=
  orderly (fun r => match r with inr _ => 1%Z | inl _ => 0%Z end) m.

(** ** More vocabulary: outcomes of the database methods *)

(** A computation whose results, when it returns, satisfy [P]. *)
Definition ensures {A} (P : A -> Prop) (m : M A) : Prop :=
  forall w a w', m w = (inr a, w') -> P a.

(** A computation that never raises. *)
Definition never_raises {A} (m : M A) : Prop :=
  forall w, exists a w', m w = (inr a, w').

(** The statements of [get_indexes] and [get_constraints]: the one for
    current servers, and the one tried when that fails. *)
Definition show_indexes : string :=
  nl ++ ind12
     ++ "SHOW INDEXES YIELD name, labelsOrTypes, properties, type, uniqueness"
     ++ nl ++ ind12
     ++ "RETURN name, labelsOrTypes, properties, type, uniqueness"
     ++ nl ++ ind12.

Definition call_indexes : string :=
  "CALL db.indexes() YIELD description, label, properties RETURN description, label, properties".

Definition show_constraints : string :=
  nl ++ ind12
     ++ "SHOW CONSTRAINTS YIELD name, labelsOrTypes, properties, type"
     ++ nl ++ ind12
     ++ "RETURN name, labelsOrTypes, properties, type"
     ++ nl ++ ind12.

Definition call_constraints : string :=
  "CALL db.constraints() YIELD description RETURN description".

(** The statement of [get_database_info]. *)
Definition components_query : string :=
  "CALL dbms.components() YIELD name, versions, edition RETURN name, versions, edition".

(** The info mapping with the given version and edition. *)
Definition database_info (me : Neo4jDatabase) (version edition : value) : value :=
  VDict [("version", version); ("edition", edition);
         ("database_name", of_opt (database me));
         ("address", VStr (uri me))].

(** An engine that accepts connections and rejects every statement. *)
Definition rejecting (e : exn) : engine := answering (fun _ => inl e).

(** An engine on which the driver is created but the connectivity check
    fails. *)
Definition unreachable (e : exn) : engine :=
  {| eng_driver := fun _ _ _ => None;
     eng_verify := fun _ => Some e;
     eng_close := fun _ => None;
     eng_run := fun _ _ _ _ => inl e |}.

(** The error of a statement the server does not know. *)
Definition unknown_procedure : exn :=
  Exn DriverError "There is no procedure with the name `db.indexes` registered".

(** The handle [connect] creates from the configuration of a manager. *)
Definition handle_of (me : Neo4jDatabase) : driver :=
  {| drv_uri := uri me; drv_auth := Database.auth_of me |}.

(** The world after [connect] created the driver and asked for the
    connectivity check. *)
Definition after_connect (w : world) : world :=
  {| self := self (set_driver (Some (handle_of (self w))) w);
     trace := (trace w
       ++ [EvDriver (uri (self w)) (Database.auth_of (self w)); EvVerify])%list |}.

(** The engine has no schema meta-procedure: it rejects the statement
    that calls it, whenever it is asked. *)
Definition without_apoc (eng : engine) : Prop :=
  forall t db, exists e,
    eng_run eng t db (VStr Database.apoc_query) VNone = inl e.

(** ** More vocabulary: statements and outcomes of the handlers *)

(** The world after one session in which [query] alone was run with the
    parameters [params]. *)
Definition after_run (w : world) (query params : value) : world :=
  {| self := self w;
     trace := (trace w
       ++ [EvSession (database (self w));
           EvRun (database (self w)) query params;
           EvSessionClose (database (self w))])%list |}.

(** The engine's answer to [query] with [params], asked in a fresh
    session of the manager of [w]. *)
Definition answer (eng : engine) (w : world) (query params : value)
  : res result :=
  eng_run eng (trace w ++ [EvSession (database (self w))])%list
    (database (self w)) query params.

(** The record of the eleven counters of a summary. *)
Definition counters_record (c : SummaryCounters) : pdict :=
  [("nodes_created", VInt (nodes_created c));
   ("nodes_deleted", VInt (nodes_deleted c));
   ("relationships_created", VInt (relationships_created c));
   ("relationships_deleted", VInt (relationships_deleted c));
   ("properties_set", VInt (properties_set c));
   ("labels_added", VInt (labels_added c));
   ("labels_removed", VInt (labels_removed c));
   ("indexes_added", VInt (indexes_added c));
   ("indexes_removed", VInt (indexes_removed c));
   ("constraints_added", VInt (constraints_added c));
   ("constraints_removed", VInt (constraints_removed c))].

(** The text a statement handler returns: [ok] when the engine executed
    the statement, the prefix and the message of the exception when it
    did not. *)
Definition statement_text (outcome : res result) (ok prefix : string)
  : string :=
  match outcome with
  | inr _ => ok
  | inl e => prefix ++ exn_str e
  end.

(** The statement of [create_index] for a label and property names. *)
Definition index_statement (py : runtime) (index_type name : value)
    (label : string) (props : list string) : string :=
  "CREATE " ++ py_str py index_type ++ " INDEX "
    ++ (if truthy name then py_str py name ++ " " else "")
    ++ "FOR (n:" ++ label ++ ") ON ("
    ++ join ", " (map (fun p => "n." ++ p) props) ++ ")".

(** A constraint type that [create_constraint] knows. *)
Definition known_constraint_type (constraint_type : value) : bool :=
  Server.eq_str constraint_type "UNIQUE"
  || Server.eq_str constraint_type "EXISTS"
  || Server.eq_str constraint_type "NODE_KEY".

(** An engine that answers every statement with one record holding the
    schema value [v]. *)
Definition with_apoc (v : value) : engine :=
  answering (fun _ => inr (rows [row [("value", v)]])).

(** The equality term of one property of the variable [var]. *)
Definition property_term (py : runtime) (var : string) (item : string * value)
  : string :=
  var ++ "." ++ fst item ++ " = "
    ++ match snd item with
       | VStr s => "'" ++ s ++ "'"
       | v => py_str py v
       end.

(** The label part of a node pattern: nothing when no label is given or
    the label is empty. *)
Definition label_part (label : option string) : string :=
  match label with
  | Some s => if String.eqb s "" then "" else ":" ++ s
  | None => ""
  end.

(** The query text of [find_relationships] for a relationship type,
    optional end labels, the items of a property mapping and a limit. *)
Definition relationships_query (py : runtime) (rel_type : string)
    (source target : option string) (items : pdict) (limit : value) : string :=
  "MATCH (source" ++ label_part source ++ ")-[r:" ++ rel_type
    ++ "]->(target" ++ label_part target ++ ")"
    ++ match items with
       | [] => ""
       | _ => " WHERE " ++ join " AND " (map (property_term py "r") items)
       end
    ++ " RETURN source, r, target LIMIT " ++ py_str py limit.

(** The text of a handler that returns rows: the JSON text of the data
    of the records, or the prefix and the message of what went wrong,
    in the engine or in the serialisation. *)
Definition rows_text (py : runtime) (prefix : string) (outcome : res result)
  : string :=
  match outcome with
  | inr r =>
      match json_dumps py (VList (map rec_data (records r))) with
      | inr text => text
      | inl e => prefix ++ exn_str e
      end
  | inl e => prefix ++ exn_str e
  end.

(** The text of [write_neo4j_cypher]: the JSON text of the counters, or
    the dispatcher's prefix and the message of the engine's exception. *)
Definition counters_text (py : runtime) (outcome : res result) : string :=
  match outcome with
  | inr r => json_text py (VDict (counters_record (counters r)))
  | inl e => "Error: " ++ exn_str e
  end.

(** The text of [explain_neo4j_cypher]. *)
Definition plan_text (outcome : res result) : string :=
  match outcome with
  | inr r =>
      match res_plan r with
      | Some _ =>
          "Error explaining query: 'dict' object has no attribute 'operator_type'"
      | None =>
          "Error explaining query: 'NoneType' object has no attribute 'operator_type'"
      end
  | inl e => "Error explaining query: " ++ exn_str e
  end.

(** The query of the [get_sample_data] tool for one of the labels it was
    given. *)
Definition sample_query (py : runtime) (label limit : value) : string :=
  nl ++ ind16 ++ "MATCH (n:" ++ py_str py label ++ ")"
     ++ nl ++ ind16 ++ "RETURN n"
     ++ nl ++ ind16 ++ "LIMIT " ++ py_str py limit
     ++ nl ++ ind16.

(** A record whose [n] field is a node with the properties [props]. *)
Definition holds_node (r : record) (props : pdict) : Prop :=
  rec_get r "n" = inr (VNode props).

(** The message of the attribute error on an absent handle. *)
Definition no_session_text : string :=
  "'NoneType' object has no attribute 'session'".

(** Concrete inputs: a call that creates an index on two properties, a
    call that drops by name, and a plan of two operators. *)
Definition index_call : pdict :=
  [("label", VStr "Person");
   ("properties", VList [VStr "name"; VStr "age"]);
   ("name", VStr "person_idx")].

Definition drop_call : pdict := [("name", VStr "person_idx")].

Definition scan_plan : pdict :=
  [("operatorType", VStr "ProduceResults"); ("identifiers", VList [VStr "n"]);
   ("args", VDict []);
   ("children",
    VList [VDict [("operatorType", VStr "AllNodesScan");
                  ("identifiers", VList [VStr "n"]); ("args", VDict []);
                  ("children", VList [])]])].

(** An engine that answers every statement with one record holding a
    node. *)
Definition one_node : engine :=
  answering (fun _ =>
    inr (rows [{| rec_fields := [("n", VNode [("name", VStr "Alice")])];
                  rec_data := VDict [("n", VDict [("name", VStr "Alice")])] |}])).

(** An engine that answers every statement with the plan [scan_plan]. *)
Definition explaining : engine :=
  answering (fun _ => inr {| records := []; counters := no_counters;
                             res_plan := Some scan_plan |}).

(** ** More vocabulary: counting by name *)

(** The statements of the two count tools. *)
Definition label_count_query (py : runtime) (label : value) : string :=
  "MATCH (n:" ++ py_str py label ++ ") RETURN count(n) as count".

Definition type_count_query (py : runtime) (rel_type : value) : string :=
  "MATCH ()-[r:" ++ py_str py rel_type ++ "]->() RETURN count(r) as count".

(** The engine lists [names] in the column [key] of [listing] and, for
    each of them, answers the statement made of it with the single
    number [count]. *)
Definition counts_served (eng : engine) (listing key : string)
    (query_of : value -> string) (names : list string) (count : string -> Z)
  : Prop :=
  yields eng listing (map (fun l => [(key, VStr l)]) names)
  /\ (forall l, In l names ->
      yields eng (query_of (VStr l)) [[("count", VInt (count l))]]).

(** The mapping that assigns its count to every name, in order. *)
Definition counted (names : list string) (count : string -> Z) : pdict :=
  fold_left (fun d l => dict_set d l (VInt (count l))) names [].

(** A database with two people, one city and three acquaintances, one
    of the labels listed twice. *)
Definition census : engine :=
  answering (fun query =>
    if Server.eq_str query "CALL db.labels() YIELD label RETURN label" then
      inr (rows [row [("label", VStr "Person")]; row [("label", VStr "City")];
                 row [("label", VStr "Person")]])
    else if Server.eq_str query "MATCH (n:Person) RETURN count(n) as count" then
      inr (rows [row [("count", VInt 2)]])
    else if Server.eq_str query "MATCH (n:City) RETURN count(n) as count" then
      inr (rows [row [("count", VInt 1)]])
    else if Server.eq_str query
      "CALL db.relationshipTypes() YIELD relationshipType RETURN relationshipType"
    then inr (rows [row [("relationshipType", VStr "KNOWS")]])
    else if Server.eq_str query "MATCH ()-[r:KNOWS]->() RETURN count(r) as count"
    then inr (rows [row [("count", VInt 3)]])
    else inl (Exn DriverError "unknown statement")).

Definition census_count (l : string) : Z :=
  if String.eqb l "Person" then 2 else 1.

(** What the statistics tool reports. *)
Definition statistics (me : Neo4jDatabase) (nodes relationships : Z)
    (version edition : string) : value :=
  VDict [("node_count", VInt nodes);
         ("relationship_count", VInt relationships);
         ("database_info", database_info me (VStr version) (VStr edition))].

(** The engine counts [nodes] nodes and [relationships] relationships and
    names itself a server of the given versions and edition. *)
Definition measures (eng : engine) (nodes relationships : Z)
    (version : string) (older : list value) (edition : string) : Prop :=
  yields eng "MATCH (n) RETURN count(n) as count" [[("count", VInt nodes)]]
  /\ yields eng "MATCH ()-[r]->() RETURN count(r) as count"
       [[("count", VInt relationships)]]
  /\ yields eng components_query
       [[("name", VStr "Neo4j Kernel");
         ("versions", VList (VStr version :: older));
         ("edition", VStr edition)]].

(** A community server with five nodes and four relationships. *)
Definition community : engine :=
  answering (fun query =>
    if Server.eq_str query "MATCH (n) RETURN count(n) as count" then
      inr (rows [row [("count", VInt 5)]])
    else if Server.eq_str query "MATCH ()-[r]->() RETURN count(r) as count" then
      inr (rows [row [("count", VInt 4)]])
    else if Server.eq_str query components_query then
      inr (rows [row [("name", VStr "Neo4j Kernel");
                      ("versions", VList [VStr "5.12.0"]);
                      ("edition", VStr "community")]])
    else inl (Exn DriverError "unknown statement")).

(** ** utils/config.py *)

Module Config.

(** What the code of this module can raise, by class.  [Unmodelled]
    stands for the inputs the embedding leaves out: the update of a
    section from a non-empty JSON array, a sequence of pairs to Python. *)
Inductive failure :=
  | TypeErr
  | ValueErr
  | KeyErr
  | OSErr (message : string)
  | Unmodelled.

(** The three section objects of [DEFAULT_CONFIG].  The top-level dict is
    never assigned to, so it always maps the three names to these three
    objects; what changes is what the objects hold. *)
Record sections := {
  neo4j : pdict;
  server : pdict;
  logging : pdict
}.

Definition DEFAULT_CONFIG : sections :=
  {| neo4j := [("uri", VStr "bolt://localhost:7687");
               ("username", VStr "neo4j");
               ("password", VStr "");
               ("database", VNone)];
     server := [("name", VStr "neo4j-mcp-server");
                ("version", VStr "0.1.0")];
     logging := [("level", VStr "INFO"); ("file", VNone)] |}.

(** The objects a load can return: [DEFAULT_CONFIG] itself, or the
    shallow copy that [DEFAULT_CONFIG.copy()] makes, a new top-level dict
    over the same three section objects. *)
Inductive config_object := TheDefaults | ShallowCopy.

(** What a dict over the three section objects reads as. *)
Definition contents (s : sections) : value :=
  VDict [("neo4j", VDict (neo4j s));
         ("server", VDict (server s));
         ("logging", VDict (logging s))].

(** What a caller reads in a returned object: both kinds hold the
    section objects themselves. *)
Definition read (c : config_object) (s : sections) : value :=
  match c with TheDefaults | ShallowCopy => contents s end.

(** The calls made to the file system. *)
Inductive fs_event :=
  | FsExists (path : string)
  | FsMakedirs (path : string)
  | FsOpen (path mode : string)
  | FsDump (path text : string)
  | FsLoad (path : string).

(** The file system, which answers from the calls made so far:
    [expanduser("~")], [os.path.exists], [os.makedirs], [open] and
    [json.dump] with the error they raise if any, and [json.load] with the
    object it parses or the error it raises. *)
Record filesystem := {
  home : string;
  fs_exists : list fs_event -> string -> bool;
  fs_makedirs : list fs_event -> string -> option failure;
  fs_open : list fs_event -> string -> string -> option failure;
  fs_dump : list fs_event -> string -> string -> option failure;
  fs_load : list fs_event -> string -> failure + value
}.

(** The state: what the section objects hold, and the calls so far. *)
Record state := {
  defaults : sections;
  calls : list fs_event
}.

Definition F (A : Type) : Type := state -> (failure + A) * state.

Definition ret {A} (a : A) : F A := fun s => (inr a, s).

Definition raise {A} (f : failure) : F A := fun s => (inl f, s).

Definition bind {A B} (m : F A) (k : A -> F B) : F B :=
  fun s =>
    let (r, s') := m s in
    match r with
    | inl f => (inl f, s')
    | inr a => k a s'
    end.

Definition lift {A} (r : failure + A) : F A := fun s => (r, s).

Declare Scope config_scope.
Delimit Scope config_scope with config.

Notation "x <- m ;; k" := (bind m (fun x => k))
  (at level 61, m at next level, right associativity) : config_scope.
Notation "m ;;; k" := (bind m (fun _ => k))
  (at level 61, right associativity) : config_scope.

Local Open Scope config_scope.

Definition record_call (e : fs_event) (s : state) : state :=
  {| defaults := defaults s; calls := (calls s ++ [e])%list |}.

(** A call that returns nothing, or raises what the file system says. *)
Definition effect (e : fs_event) (answer : list fs_event -> option failure)
  : F unit :=
  fun s =>
    (match answer (calls s) with Some f => inl f | None => inr tt end,
     record_call e s).

(** *** Python and POSIX helpers *)

Definition slash : ascii := "/"%char.

Definition starts_with_slash (s : string) : bool :=
  match s with
  | String c _ => Ascii.eqb c slash
  | EmptyString => false
  end.

Fixpoint ends_with_slash (s : string) : bool :=
  match s with
  | EmptyString => false
  | String c EmptyString => Ascii.eqb c slash
  | String _ rest => ends_with_slash rest
  end.

(** [os.path.join(a, b)] of [posixpath]; with more components it joins
    them one after the other. *)
Definition path_join (a b : string) : string :=
  if starts_with_slash b then b
  else if String.eqb a "" || ends_with_slash a then a ++ b
  else a ++ "/" ++ b.

Fixpoint has_slash (s : string) : bool :=
  match s with
  | EmptyString => false
  | String c rest => Ascii.eqb c slash || has_slash rest
  end.

Fixpoint all_slashes (s : string) : bool :=
  match s with
  | EmptyString => true
  | String c rest => Ascii.eqb c slash && all_slashes rest
  end.

(** [p[:p.rfind('/') + 1]]. *)
Fixpoint through_last_slash (p : string) : string :=
  match p with
  | EmptyString => EmptyString
  | String c rest =>
      if has_slash p then String c (through_last_slash rest) else EmptyString
  end.

(** [head.rstrip('/')]. *)
Fixpoint rstrip_slashes (head : string) : string :=
  match head with
  | EmptyString => EmptyString
  | String c rest =>
      if all_slashes head then EmptyString else String c (rstrip_slashes rest)
  end.

(** [os.path.dirname(p)] of [posixpath]. *)
Definition dirname (p : string) : string :=
  let head := through_last_slash p in
  if truthy (VStr head) && negb (all_slashes head) then rstrip_slashes head
  else head.

(** [key in obj] for a [str] key. *)
Definition py_contains (key : string) (obj : value) : failure + bool :=
  match obj with
  | VDict d => inr (match lookup d key with Some _ => true | None => false end)
  | VList l => inr (existsb (fun v => Server.eq_str v key) l)
  | VStr s => inr (match String.index 0 key s with
                   | Some _ => true
                   | None => false
                   end)
  | VNone | VBool _ | VInt _ => inl TypeErr
  | VNode _ | VRel _ | VPath _ _ => inl Unmodelled
  end.

(** [obj[key]] for a [str] key. *)
Definition py_getitem (obj : value) (key : string) : failure + value :=
  match obj with
  | VDict d => match lookup d key with Some v => inr v | None => inl KeyErr end
  | VNode _ | VRel _ | VPath _ _ => inl Unmodelled
  | _ => inl TypeErr
  end.

(** [section.update(other)]: the items of a dict are assigned in their
    order; the empty text and the empty array have no pair to give; a
    text has characters, which are no pairs; [None], booleans and numbers
    cannot be iterated. *)
Definition py_update (section : pdict) (other : value) : failure + pdict :=
  match other with
  | VDict d =>
      inr (fold_left (fun acc kv => dict_set acc (fst kv) (snd kv)) d section)
  | VStr EmptyString | VList [] => inr section
  | VStr _ => inl ValueErr
  | VNone | VBool _ | VInt _ => inl TypeErr
  | VList _ | VNode _ | VRel _ | VPath _ _ => inl Unmodelled
  end.

(** The names of the sections. *)
Inductive section_name := Neo4j | ServerSection | Logging.

Definition key_of (n : section_name) : string :=
  match n with
  | Neo4j => "neo4j"
  | ServerSection => "server"
  | Logging => "logging"
  end.

Definition get_section (n : section_name) (s : sections) : pdict :=
  match n with
  | Neo4j => neo4j s
  | ServerSection => server s
  | Logging => logging s
  end.

Definition set_section (n : section_name) (d : pdict) (s : sections)
  : sections :=
  match n with
  | Neo4j => {| neo4j := d; server := server s; logging := logging s |}
  | ServerSection => {| neo4j := neo4j s; server := d; logging := logging s |}
  | Logging => {| neo4j := neo4j s; server := server s; logging := d |}
  end.

Section Functions.

Variable py : runtime.
Variable fs : filesystem.

(** [os.path.exists(path)]. *)
Definition path_exists (path : string) : F bool :=
  fun s => (inr (fs_exists fs (calls s) path), record_call (FsExists path) s).

(** [os.makedirs(path)]. *)
Definition makedirs (path : string) : F unit :=
  effect (FsMakedirs path) (fun t => fs_makedirs fs t path).

(** [with open(path, "w") as f: json.dump(obj, f, indent=2)], where
    [obj] reads as [v] when it is dumped.  The file is opened before
    anything is serialised; its closing is not recorded. *)
Definition dump_to (path : string) (v : value) : F unit :=
  effect (FsOpen path "w") (fun t => fs_open fs t path "w") ;;;
  text <- lift (match json_dumps py v with
                | inr text => inr text
                | inl _ => inl TypeErr
                end) ;;
  effect (FsDump path text) (fun t => fs_dump fs t path text).

(** [with open(path, "r") as f: config = json.load(f)]. *)
Definition load_from (path : string) : F value :=
  effect (FsOpen path "r") (fun t => fs_open fs t path "r") ;;;
  (fun s => (fs_load fs (calls s) path, record_call (FsLoad path) s)).

Definition get_defaults : F sections := fun s => (inr (defaults s), s).

(** [if name in config: merged_config[name].update(config[name])]; the
    object updated is the section object of [DEFAULT_CONFIG]. *)
Definition update_section (n : section_name) (config : value) : F unit :=
  present <- lift (py_contains (key_of n) config) ;;
  if (present : bool) then
    other <- lift (py_getitem config (key_of n)) ;;
    current <- get_defaults ;;
    updated <- lift (py_update (get_section n current) other) ;;
    (fun s => (inr tt, {| defaults := set_section n updated (defaults s);
                          calls := calls s |}))
  else ret tt.

Definition get_config_path : F string :=
  here <- path_exists "config.json" ;;
  if (here : bool) then ret "config.json"
  else
    let home_config :=
      path_join (path_join (home fs) ".neo4j-mcp") "config.json" in
    at_home <- path_exists home_config ;;
    if (at_home : bool) then ret home_config
    else
      let system_config := "/etc/neo4j-mcp/config.json" in
      in_system <- path_exists system_config ;;
      if (in_system : bool) then ret system_config
      else ret home_config.

(** The directory of [config_path] is made when it has a name and does
    not exist. *)
Definition ensure_directory (config_path : string) : F unit :=
  let config_dir := dirname config_path in
  if truthy (VStr config_dir) then
    there <- path_exists config_dir ;;
    if (there : bool) then ret tt else makedirs config_dir
  else ret tt.

Definition load_config (config_path : option string) : F config_object :=
  config_path <- match config_path with
                 | None => get_config_path
                 | Some p => ret p
                 end ;;
  present <- path_exists config_path ;;
  if negb present then
    ensure_directory config_path ;;;
    current <- get_defaults ;;
    dump_to config_path (contents current) ;;;
    ret TheDefaults
  else
    config <- load_from config_path ;;
    update_section Neo4j config ;;;
    update_section ServerSection config ;;;
    update_section Logging config ;;;
    ret ShallowCopy.

Definition save_config (config : value) (config_path : option string)
  : F unit :=
  config_path <- match config_path with
                 | None => get_config_path
                 | Some p => ret p
                 end ;;
  ensure_directory config_path ;;;
  dump_to config_path config.

End Functions.

End Config.

(** ** More vocabulary: configuration files *)

(** Assigning the items of [d] in their order, as [dict.update] does. *)
Definition updated (section d : pdict) : pdict :=
  fold_left (fun acc kv => dict_set acc (fst kv) (snd kv)) d section.

(** What the JSON object [file] gives for the key [k] of the section
    [n], if it has that section and the section has the key. *)
Definition mentioned (file : pdict) (n : Config.section_name) (k : string)
  : option value :=
  match lookup file (Config.key_of n) with
  | Some (VDict d) => lookup d k
  | _ => None
  end.

(** The sections that [file] has are objects, and an object has every
    key once. *)
Definition sections_are_objects (file : pdict) : Prop :=
  forall n,
    match lookup file (Config.key_of n) with
    | None => True
    | Some (VDict d) => NoDup (map fst d)
    | Some _ => False
    end.

(** [None], a boolean or a number. *)
Definition scalar (v : value) : bool :=
  match v with
  | VNone | VBool _ | VInt _ => true
  | _ => false
  end.

(** A file system on which nothing fails. *)
Definition obliging (fs : Config.filesystem) : Prop :=
  (forall t p, Config.fs_makedirs fs t p = None)
  /\ (forall t p mode, Config.fs_open fs t p mode = None)
  /\ (forall t p text, Config.fs_dump fs t p text = None).

(** The configuration file [path] exists and parses as [v]. *)
Definition holds (fs : Config.filesystem) (s : Config.state) (path : string)
    (v : value) : Prop :=
  Config.fs_exists fs (Config.calls s) path = true
  /\ Config.fs_open fs (Config.calls s ++ [Config.FsExists path])%list path "r"
     = None
  /\ Config.fs_load fs
       (Config.calls s ++ [Config.FsExists path; Config.FsOpen path "r"])%list
       path
     = inr v.

(** The calls of a load that finds its file. *)
Definition reading (path : string) : list Config.fs_event :=
  [Config.FsExists path; Config.FsOpen path "r"; Config.FsLoad path].

(** The calls that see to the directory of [path], after the calls [t]. *)
Definition directory_calls (fs : Config.filesystem) (t : list Config.fs_event)
    (path : string) : list Config.fs_event :=
  let config_dir := Config.dirname path in
  if truthy (VStr config_dir) then
    Config.FsExists config_dir
      :: (if Config.fs_exists fs t config_dir then []
          else [Config.FsMakedirs config_dir])
  else [].

(** The section objects as the module is imported, with no call made. *)
Definition imported : Config.state :=
  {| Config.defaults := Config.DEFAULT_CONFIG; Config.calls := [] |}.

(** A file system whose only file is [path], which parses as [v]. *)
Definition with_file (path : string) (v : value) : Config.filesystem :=
  {| Config.home := "/home/neo";
     Config.fs_exists := fun _ p => String.eqb p path;
     Config.fs_makedirs := fun _ _ => None;
     Config.fs_open := fun _ _ _ => None;
     Config.fs_dump := fun _ _ _ => None;
     Config.fs_load := fun _ p =>
       if String.eqb p path then inr v else inl (Config.OSErr "No such file") |}.

(** A file system with the home directory [h] and nothing in it. *)
Definition empty_disk (h : string) : Config.filesystem :=
  {| Config.home := h;
     Config.fs_exists := fun _ _ => false;
     Config.fs_makedirs := fun _ _ => None;
     Config.fs_open := fun _ _ _ => None;
     Config.fs_dump := fun _ _ _ => None;
     Config.fs_load := fun _ _ => inl (Config.OSErr "No such file") |}.

(** The directory and the file that a first run creates. *)
Definition home_directory (h : string) : string :=
  Config.path_join h ".neo4j-mcp".

Definition home_config (h : string) : string :=
  Config.path_join (home_directory h) "config.json".

(** A file system on which nothing exists. *)
Definition bare (fs : Config.filesystem) : Prop :=
  forall t p, Config.fs_exists fs t p = false.

(** A configuration file that names another server and has a key of its
    own, and one whose [server] section is a number. *)
Definition remote_file : pdict :=
  [("neo4j", VDict [("uri", VStr "bolt://db:7687")]); ("comment", VStr "x")].

Definition broken_file : pdict :=
  [("neo4j", VDict [("uri", VStr "bolt://db:7687")]); ("server", VInt 1)].

(** * Properties *)

(** ** The monad *)

Lemma bind_ret {A B} (a : A) (f : A -> M B) (w : world) :
  bind (ret a) f w = f a w.
Proof. reflexivity. Qed.

Lemma bind_ok {A B} (m : M A) (f : A -> M B) (w w' : world) (a : A) :
  m w = (inr a, w') -> bind m f w = f a w'.
Proof. intros H. unfold bind. now rewrite H. Qed.

Lemma try_ok {A} (m : M A) (h : exn -> M A) (w w' : world) (a : A) :
  m w = (inr a, w') -> try_except m h w = (inr a, w').
Proof. intros H. unfold try_except. now rewrite H. Qed.

(** ** The connection manager *)

Section Connection.

Variable eng : engine.

(** C9. [close()] is idempotent.  On a manager whose handle is absent,
    [close()] makes no call to the driver, raises nothing and leaves the
    manager as it was; and [close()] followed by [close()] behaves, in
    its outcome, in the manager it leaves and in the calls it makes, as
    one [close()]. *)
Theorem close_idempotent (w : world) :
  Database.close eng (set_driver None w) = (inr tt, set_driver None w)
  /\ (Database.close eng ;;; Database.close eng) w = Database.close eng w.
Proof.
  split; [reflexivity |].
  unfold bind at 1.
  destruct (Database.close eng w) as [[e | []] w'] eqn:E; [reflexivity |].
  assert (Hd : _driver (self w') = None).
  { revert E. unfold Database.close, Database.get_self, bind, ret.
    destruct (_driver (self w)) eqn:D.
    - unfold Database.driver_close.
      destruct (eng_close eng (trace w)); intros [= <-]; reflexivity.
    - intros [= <-]. exact D. }
  unfold Database.close, Database.get_self, bind, ret. now rewrite Hd.
Qed.

(** C10. On a manager whose handle is absent, [run_query] and
    [run_write_query] raise the attribute error of the absent handle,
    make no call to the driver and leave the manager as it was, while
    [get_session] first asks for a new driver with the resolved
    configuration; when the engine accepts it and answers the
    connectivity check, the handle is in place again and the session
    bound to the configured database is returned. *)
Theorem absent_handle (w : world) (query params : value)
    (database_arg : option string) :
  _driver (self w) = None ->
  Database.run_query eng query params database_arg w = (inl no_session, w)
  /\ Database.run_write_query eng query params database_arg w
     = (inl no_session, w)
  /\ (exists r w' rest,
        Database.get_session eng w = (r, w')
        /\ trace w' = (trace w
             ++ EvDriver (uri (self w)) (Database.auth_of (self w)) :: rest)%list)
  /\ (eng_driver eng (trace w) (uri (self w)) (Database.auth_of (self w)) = None ->
      eng_verify eng
        (trace w ++ [EvDriver (uri (self w)) (Database.auth_of (self w))])%list
      = None ->
      let d := {| drv_uri := uri (self w);
                  drv_auth := Database.auth_of (self w) |} in
      Database.get_session eng w
      = (inr (database (self w)),
         {| self := self (set_driver (Some d) w);
            trace := (trace w
              ++ [EvDriver (uri (self w)) (Database.auth_of (self w));
                  EvVerify; EvSession (database (self w))])%list |})).
Proof.
  intros Hd. repeat split.
  - unfold Database.run_query, Database.with_session, Database.driver_session,
      Database.get_self, bind, ret. now rewrite Hd.
  - unfold Database.run_write_query, Database.with_session,
      Database.driver_session, Database.get_self, bind, ret. now rewrite Hd.
  - unfold Database.get_session, Database.get_self, bind, ret. rewrite Hd.
    unfold Database.connect, Database.get_self, Database.graph_driver,
      Database.verify_connectivity, Database.driver_verify,
      Database.driver_session, bind, ret, try_except, raise.
    destruct (eng_driver eng (trace w) (uri (self w))
                (Database.auth_of (self w))); simpl.
    + eexists _, _, _. split; reflexivity.
    + destruct (eng_verify eng _); simpl;
        (eexists _, _, _; split;
         [reflexivity
         | unfold emit, set_driver; cbn; rewrite <- ?app_assoc; reflexivity]).
  - intros Hdrv Hver d.
    unfold Database.get_session, Database.get_self, bind, ret. rewrite Hd.
    unfold Database.connect, Database.get_self, Database.graph_driver,
      Database.verify_connectivity, Database.driver_verify,
      Database.driver_session, bind, ret, try_except, raise.
    rewrite Hdrv. simpl. rewrite Hver.
    unfold emit, set_driver. cbn. rewrite <- !app_assoc. reflexivity.
Qed.

End Connection.

Lemma absent_handle_witness :
  _driver (self closed) = None
  /\ Database.run_query quiet (VStr "RETURN 1") VNone None closed
     = (inl no_session, closed)
  /\ Database.run_write_query quiet (VStr "CREATE (n)") VNone None closed
     = (inl no_session, closed)
  /\ Database.get_session quiet closed
     = (inr None,
        {| self := self fresh;
           trace := [EvDriver "bolt://localhost:7687" None; EvVerify;
                     EvSession None] |}).
Proof.
  split; [reflexivity |].
  pose proof (absent_handle quiet closed (VStr "RETURN 1") VNone None eq_refl)
    as [Hq _].
  pose proof (absent_handle quiet closed (VStr "CREATE (n)") VNone None eq_refl)
    as [_ [Hw [_ Hs]]].
  split; [exact Hq |]. split; [exact Hw |].
  exact (Hs eq_refl eq_refl).
Defined.

(** ** The connection configuration *)

Lemma or_default_precedence (explicit : option string)
    (env : string -> option string) (name default : string) :
  precedence explicit (env name) default
    (or_default explicit (environ_get env name default)).
Proof.
  unfold precedence, or_default, environ_get. repeat split.
  - intros s -> Hs. destruct (String.eqb_spec s ""); [contradiction | reflexivity].
  - intros [-> | ->] e ->; reflexivity.
  - intros [-> | ->] ->; reflexivity.
Qed.

Lemma or_default_nonempty (explicit : option string) (d : string) :
  d <> "" -> or_default explicit d <> "".
Proof.
  intros Hd. unfold or_default. destruct explicit as [s |]; [| exact Hd].
  destruct (String.eqb_spec s ""); assumption.
Qed.

Lemma environ_get_nonempty (env : string -> option string)
    (name default : string) :
  env name <> Some "" -> default <> "" -> environ_get env name default <> "".
Proof.
  unfold environ_get. intros He Hd. destruct (env name) as [s |]; [| exact Hd].
  intros ->. now apply He.
Qed.

Section Configuration.

Variables uri_arg username_arg password_arg database_arg : option string.
Variable env : string -> option string.

Local Abbreviation config :=
  (Database.resolve uri_arg username_arg password_arg database_arg env).

(** C8, as the code has it.  Each of uri, username and password is
    resolved in the order explicit argument, environment value,
    hard-coded default, where an explicit empty string counts as not
    given; the resolved uri (username) is not empty unless the environment
    sets NEO4J_URL (NEO4J_USERNAME) to the empty string; and when the
    resolved password is empty the driver is created with no credential,
    which is what [__init__] asks the engine for first. *)
Theorem resolve_config (eng : engine) (t : list event) :
  precedence uri_arg (env "NEO4J_URL") "bolt://localhost:7687" (uri config)
  /\ precedence username_arg (env "NEO4J_USERNAME") "neo4j" (username config)
  /\ precedence password_arg (env "NEO4J_PASSWORD") "" (password config)
  /\ (env "NEO4J_URL" <> Some "" -> uri config <> "")
  /\ (env "NEO4J_USERNAME" <> Some "" -> username config <> "")
  /\ (password config = "" -> Database.auth_of config = None)
  /\ (password config <> "" ->
      Database.auth_of config = Some (username config, password config))
  /\ (exists r w' rest,
        Database.init eng uri_arg username_arg password_arg database_arg env t
        = (r, w')
        /\ trace w' = (t ++ EvDriver (uri config) (Database.auth_of config)
                         :: rest)%list).
Proof.
  split; [apply or_default_precedence |].
  split; [apply or_default_precedence |].
  split; [apply or_default_precedence |].
  split.
  { intros He. apply or_default_nonempty, environ_get_nonempty;
      [exact He | discriminate]. }
  split.
  { intros He. apply or_default_nonempty, environ_get_nonempty;
      [exact He | discriminate]. }
  split.
  { unfold Database.auth_of. intros ->. reflexivity. }
  split.
  { unfold Database.auth_of, truthy. intros Hp.
    destruct (String.eqb_spec (password config) ""); [contradiction | reflexivity]. }
  unfold Database.init, Database.connect, Database.get_self,
    Database.graph_driver, Database.verify_connectivity,
    Database.driver_verify, bind, ret, try_except, raise.
  cbn [self trace].
  destruct (eng_driver eng t (uri config) (Database.auth_of config)).
  - eexists _, _, _. split; reflexivity.
  - cbn. destruct (eng_verify eng _);
      (eexists _, _, _; split;
       [reflexivity
       | unfold emit, set_driver; cbn; rewrite <- ?app_assoc; reflexivity]).
Qed.

End Configuration.

(** C8, as stated, fails: with no explicit uri and NEO4J_URL set to the
    empty string, the resolved uri is empty. *)
Lemma resolve_empty_uri :
  uri (Database.resolve None None None None (environ [("NEO4J_URL", "")])) = "".
Proof. reflexivity. Qed.

(** ** The query executor *)

Section Executor.

Variable eng : engine.

(** C5. When the handle is in place and the engine executes the query,
    [run_write_query] opens one session, runs the query once, closes the
    session, and returns a record whose keys are exactly the eleven
    counter names, each present once and each holding the integer the
    engine's summary reports for it (so a counter the engine reports as
    zero is there, with value zero); for a statement that creates one
    node with two properties the record has nodes_created = 1,
    properties_set = 2 and every other counter 0. *)
Theorem run_write_query_counters (w : world) (query params : value)
    (database_arg : option string) (d : driver) (r : result) :
  _driver (self w) = Some d ->
  eng_run eng (trace w ++ [EvSession (str_or database_arg (database (self w)))])%list
    (str_or database_arg (database (self w))) query (params_or_empty params)
  = inr r ->
  exists out,
    Database.run_write_query eng query params database_arg w
    = (inr out,
       {| self := self w;
          trace := (trace w
            ++ [EvSession (str_or database_arg (database (self w)));
                EvRun (str_or database_arg (database (self w))) query
                  (params_or_empty params);
                EvSessionClose (str_or database_arg (database (self w)))])%list |})
    /\ map fst out = counter_keys
    /\ NoDup (map fst out)
    /\ (forall key, lookup out key = option_map VInt (counter_of (counters r) key))
    /\ (counters r = one_node_two_properties ->
        out = [("nodes_created", VInt 1); ("nodes_deleted", VInt 0);
               ("relationships_created", VInt 0);
               ("relationships_deleted", VInt 0);
               ("properties_set", VInt 2); ("labels_added", VInt 0);
               ("labels_removed", VInt 0); ("indexes_added", VInt 0);
               ("indexes_removed", VInt 0); ("constraints_added", VInt 0);
               ("constraints_removed", VInt 0)]).
Proof.
  intros Hd Hrun. eexists. split.
  - unfold Database.run_write_query, Database.with_session,
      Database.driver_session, Database.session_run, Database.session_close,
      Database.get_self, finally, bind, ret.
    rewrite Hd. cbn [trace emit self].
    fold (params_or_empty params). rewrite Hrun.
    unfold emit. cbn [trace self]. rewrite <- !app_assoc. reflexivity.
  - split; [reflexivity |]. split.
    + cbn [map fst]. repeat constructor; cbn; intuition discriminate.
    + split.
      * intros key. cbn [lookup]. unfold counter_of.
        repeat match goal with
               | |- context [String.eqb ?a key] =>
                   rewrite (String.eqb_sym a key);
                   destruct (String.eqb key a); [reflexivity |]
               end.
        reflexivity.
      * intros ->. reflexivity.
Qed.

End Executor.

Lemma run_write_query_counters_witness :
  exists out w',
    Database.run_write_query creating
      (VStr "CREATE (n:Person {name: 'Alice', age: 30})") VNone None fresh
    = (inr out, w')
    /\ lookup out "nodes_created" = Some (VInt 1)
    /\ lookup out "properties_set" = Some (VInt 2)
    /\ lookup out "labels_removed" = Some (VInt 0).
Proof.
  destruct (run_write_query_counters creating fresh
              (VStr "CREATE (n:Person {name: 'Alice', age: 30})") VNone None
              {| drv_uri := "bolt://localhost:7687"; drv_auth := None |}
              {| records := []; counters := one_node_two_properties;
                 res_plan := None |} eq_refl eq_refl)
    as [out [Hrun [_ [_ [_ Hone]]]]].
  exists out. eexists. split; [exact Hrun |].
  rewrite (Hone eq_refl). repeat split.
Defined.

(** ** Arguments of a tool call *)

Lemma py_get_dict (args : pdict) (key : string) (default : value) :
  py_get (VDict args) key default = inr (arg_or args key default).
Proof. reflexivity. Qed.

Lemma truthy_str (s : string) : s <> "" -> truthy (VStr s) = true.
Proof.
  intros Hs. unfold truthy. destruct (String.eqb_spec s ""); [contradiction | reflexivity].
Qed.

(** What [run_query] asks of the engine when the handle is in place: one
    session, the query, the session closed, whatever the engine answers. *)
Lemma run_query_trace (eng : engine) (query params : value)
    (database_arg : option string) (w : world) (d : driver) :
  _driver (self w) = Some d ->
  exists r,
    Database.run_query eng query params database_arg w
    = (r, {| self := self w;
             trace := (trace w
               ++ [EvSession (str_or database_arg (database (self w)));
                   EvRun (str_or database_arg (database (self w))) query
                     (params_or_empty params);
                   EvSessionClose (str_or database_arg (database (self w)))])%list |}).
Proof.
  intros Hd.
  unfold Database.run_query, Database.with_session, Database.driver_session,
    Database.session_run, Database.session_close, Database.get_self,
    finally, bind, ret.
  rewrite Hd. cbn [trace emit self]. fold (params_or_empty params).
  destruct (eng_run eng _ _ _ _); eexists;
    unfold emit; cbn [trace self]; rewrite <- !app_assoc; reflexivity.
Qed.

(** ** find_nodes *)

Section FindNodes.

Variable py : runtime.
Variable eng : engine.

Lemma condition_equality_term (item : string * value) :
  Server.condition py "n" item = equality_term py item.
Proof.
  unfold Server.condition, equality_term.
  destruct item as [key v]. destruct v; reflexivity.
Qed.

Lemma append_assoc (a b c : string) : ((a ++ b) ++ c = a ++ b ++ c)%string.
Proof. induction a as [| x a IH]; simpl; [reflexivity | now rewrite IH]. Qed.

Lemma find_nodes_query_text (label : string) (items : pdict) (limit : value) :
  Server.find_nodes_query py (VStr label) (VDict items) limit
  = inr (nodes_query py label items limit).
Proof.
  unfold Server.find_nodes_query, nodes_query, Server.conditions.
  destruct items as [| item items].
  - cbn [truthy py_str]. f_equal. rewrite !append_assoc. reflexivity.
  - cbn [truthy py_items map py_str].
    rewrite !condition_equality_term.
    rewrite (map_ext _ _ condition_equality_term).
    f_equal. rewrite !append_assoc. reflexivity.
Qed.

(** C4. For a call to [find_nodes] whose label is a non-empty [str] and
    whose properties are a mapping, the query is
    [MATCH (n:<label>)], then, when the mapping is not empty, [ WHERE ]
    and the equality terms of its items joined by [ AND ], one term per
    key and in the mapping's order, a [str] value single-quoted and any
    other value bare, then [ RETURN n LIMIT <limit>]; with an empty
    mapping there is no [WHERE] part.  That text is the query handed to
    the engine. *)
Theorem find_nodes_builds_query (args : pdict) (label : string)
    (items : pdict) (w : world) (d : driver) :
  lookup args "label" = Some (VStr label) ->
  label <> "" ->
  arg_or args "properties" (VDict []) = VDict items ->
  _driver (self w) = Some d ->
  Server.find_nodes_query py (VStr label) (VDict items)
    (arg_or args "limit" (VInt 10))
  = inr (nodes_query py label items (arg_or args "limit" (VInt 10)))
  /\ length (map (equality_term py) items) = length items
  /\ nodes_query py label [] (arg_or args "limit" (VInt 10))
     = "MATCH (n:" ++ label ++ ") RETURN n LIMIT "
         ++ py_str py (arg_or args "limit" (VInt 10))
  /\ exists out,
       Server.find_nodes py eng (VDict args) w
       = (inr out,
          {| self := self w;
             trace := (trace w
               ++ [EvSession (database (self w));
                   EvRun (database (self w))
                     (VStr (nodes_query py label items
                              (arg_or args "limit" (VInt 10))))
                     (VDict []);
                   EvSessionClose (database (self w))])%list |}).
Proof.
  intros Hlabel Hne Hprops Hd.
  split; [apply find_nodes_query_text |].
  split; [apply length_map |].
  split.
  { reflexivity. }
  unfold Server.find_nodes.
  rewrite !py_get_dict. unfold lift at 1 2 3. rewrite !bind_ret.
  assert (Hl : arg_or args "label" VNone = VStr label)
    by (unfold arg_or; now rewrite Hlabel).
  rewrite Hl, Hprops, (truthy_str label Hne).
  cbn [negb]. rewrite find_nodes_query_text. unfold lift at 1.
  rewrite bind_ret.
  destruct (run_query_trace eng
              (VStr (nodes_query py label items (arg_or args "limit" (VInt 10))))
              VNone None w d Hd) as [r Hr].
  cbn [str_or params_or_empty truthy] in Hr.
  unfold try_except, bind. rewrite Hr.
  destruct r as [e | results]; [eexists; reflexivity |].
  unfold Server.json_content, bind, lift.
  destruct (json_dumps py (VList results)); eexists; reflexivity.
Qed.

End FindNodes.

Lemma find_nodes_builds_query_witness :
  Server.find_nodes_query plain (VStr "Person")
    (VDict [("name", VStr "Alice"); ("age", VInt 30)]) (VInt 5)
  = inr "MATCH (n:Person) WHERE n.name = 'Alice' AND n.age = 30 RETURN n LIMIT 5".
Proof.
  exact (proj1 (find_nodes_builds_query plain quiet
                  [("label", VStr "Person");
                   ("properties", VDict [("name", VStr "Alice"); ("age", VInt 30)]);
                   ("limit", VInt 5)]
                  "Person" [("name", VStr "Alice"); ("age", VInt 30)] fresh
                  {| drv_uri := "bolt://localhost:7687"; drv_auth := None |}
                  eq_refl ltac:(discriminate) eq_refl eq_refl)).
Defined.

(** ** The relationship pattern of the shortest-path tools *)

(** C1, on the code.  With relationship types ["KNOWS"] the pattern both
    handlers build is the unfiltered [[*1..5]], and with no relationship
    types it is a pattern filtered on the one type [''], the empty name:
    the two branches are the other way round from what the claim says.
    The queries [find_shortest_path] and [find_all_paths] hand to the
    engine carry these patterns. *)
Theorem relationship_filter_inverted (py : runtime) :
  Server.rel_pattern py (VList [VStr "KNOWS"]) (VInt 5) = inr "[*1..5]"
  /\ Server.rel_pattern py (VList []) (VInt 5)
     = inr "[*1..5 r WHERE type(r) IN ['']]"
  /\ trace (snd (Server.find_shortest_path py quiet
                   (alice_to_bob [("relationship_types", VList [VStr "KNOWS"])])
                   fresh))
     = one_query (Server.find_shortest_path_query py (VStr "Person") (VStr "Person")
                    ["start.name = 'Alice'"] ["end.name = 'Bob'"] "[*1..5]")
  /\ trace (snd (Server.find_shortest_path py quiet (alice_to_bob []) fresh))
     = one_query (Server.find_shortest_path_query py (VStr "Person") (VStr "Person")
                    ["start.name = 'Alice'"] ["end.name = 'Bob'"]
                    "[*1..5 r WHERE type(r) IN ['']]")
  /\ trace (snd (Server.find_all_paths py quiet
                   (alice_to_bob [("relationship_types", VList [VStr "KNOWS"])])
                   fresh))
     = one_query (Server.find_all_paths_query py (VStr "Person") (VStr "Person")
                    (VInt 5) ["start.name = 'Alice'"] ["end.name = 'Bob'"]
                    "[*1..3]")
  /\ trace (snd (Server.find_all_paths py quiet (alice_to_bob []) fresh))
     = one_query (Server.find_all_paths_query py (VStr "Person") (VStr "Person")
                    (VInt 5) ["start.name = 'Alice'"] ["end.name = 'Bob'"]
                    "[*1..3 r WHERE type(r) IN ['']]").
Proof.
  repeat (split; [reflexivity |]). reflexivity.
Qed.

(** ** The dispatcher *)

Lemma emits_ret (text : string) : emits_text (ret [Server.TextContent text]).
Proof. intros w out w' [= <- _]. now exists text. Qed.

Lemma emits_bind {A} (m : M A) (f : A -> M (list Server.content)) :
  (forall a, emits_text (f a)) -> emits_text (bind m f).
Proof.
  intros Hf w out w'. unfold bind.
  destruct (m w) as [[e | a] w1]; [discriminate | apply Hf].
Qed.

Lemma emits_try (m : M (list Server.content))
    (h : exn -> M (list Server.content)) :
  emits_text m -> (forall e, emits_text (h e)) -> emits_text (try_except m h).
Proof.
  intros Hm Hh w out w'. unfold try_except.
  destruct (m w) as [[e | a] w1] eqn:E.
  - apply Hh.
  - intros [= <- <-]. exact (Hm _ _ _ E).
Qed.

Lemma emits_finally (body : M (list Server.content)) (s : Database.session) :
  emits_text body -> emits_text (finally body (Database.session_close s)).
Proof.
  intros Hb w out w'. unfold finally, Database.session_close.
  destruct (body w) as [r w1] eqn:E. intros [= -> _].
  exact (Hb _ _ _ E).
Qed.

Lemma emits_raise (e : exn) : emits_text (raise e).
Proof. intros w out w'. discriminate. Qed.

Lemma emits_json (py : runtime) (v : value) :
  emits_text (Server.json_content py v).
Proof.
  apply emits_bind. intros text. apply emits_ret.
Qed.

Ltac emits :=
  repeat first
    [ apply emits_ret
    | apply emits_raise
    | apply emits_json
    | apply emits_finally
    | apply emits_bind; intros
    | apply emits_try; [| intros]
    | match goal with
      | |- emits_text (if ?b then _ else _) => destruct b
      | |- emits_text (match ?x with _ => _ end) => destruct x
      | |- emits_text (lift ?r) => destruct r; cbn [lift]
      end ].

Section Dispatch.

Variable py : runtime.
Variable eng : engine.

Lemma route_emits_text (name : string) (arguments : value) :
  emits_text (Server.route py eng name arguments).
Proof.
  unfold Server.route.
  repeat match goal with
         | |- emits_text (if String.eqb name ?s then _ else _) =>
             destruct (String.eqb name s)
         end.
  all: try apply emits_ret.
  all: unfold Server.get_schema, Server.get_database_info,
         Server.execute_read_query, Server.execute_write_query,
         Server.explain_query, Server.get_database_statistics,
         Server.get_node_counts_by_label,
         Server.get_relationship_counts_by_type, Server.get_indexes,
         Server.get_constraints, Server.create_index,
         Server.create_constraint, Server.drop_index, Server.drop_constraint,
         Server.get_sample_data, Server.find_nodes, Server.find_relationships,
         Server.find_paths, Server.find_shortest_path, Server.find_all_paths.
  all: emits.
Qed.

Lemma route_unknown (name : string) (arguments : value) :
  registered name = false ->
  Server.route py eng name arguments
  = ret [Server.TextContent ("Unknown tool: " ++ name)].
Proof.
  unfold registered. cbn [map Server.get_tools Server.name existsb].
  intros H. unfold Server.route.
  repeat match goal with
         | |- context [String.eqb name ?s] =>
             destruct (String.eqb name s);
             [ cbn in H; rewrite ?orb_true_r in H; discriminate |]
         end.
  reflexivity.
Qed.

(** Every call ends in one text content. *)
Lemma handle_call_tool_text (name : string) (arguments : value) (w : world) :
  exists text w',
    Server.handle_call_tool py eng name arguments w
    = (inr [Server.TextContent text], w').
Proof.
  unfold Server.handle_call_tool, try_except.
  destruct (Server.route py eng name arguments w) as [[e | out] w'] eqn:E.
  - eexists _, _. reflexivity.
  - destruct (route_emits_text name arguments w out w' E) as [text ->].
    eexists _, _. reflexivity.
Qed.

(** C2. Whatever the tool name and the arguments, [handle_call_tool]
    returns one text content and raises nothing.  For a name that is not
    in the catalog the text is [Unknown tool: <name>] and nothing else
    happens; when the routed handler raises, the text is [Error: ]
    followed by the exception's message; and when it returns, its result
    is passed on as it is. *)
Theorem handle_call_tool_total (name : string) (arguments : value) (w : world) :
  (exists text w',
     Server.handle_call_tool py eng name arguments w
     = (inr [Server.TextContent text], w'))
  /\ (registered name = false ->
      Server.handle_call_tool py eng name arguments w
      = (inr [Server.TextContent ("Unknown tool: " ++ name)], w))
  /\ (forall e w',
        Server.route py eng name arguments w = (inl e, w') ->
        Server.handle_call_tool py eng name arguments w
        = (inr [Server.TextContent ("Error: " ++ exn_str e)], w'))
  /\ (forall out w',
        Server.route py eng name arguments w = (inr out, w') ->
        Server.handle_call_tool py eng name arguments w = (inr out, w')).
Proof.
  split; [apply handle_call_tool_text |].
  unfold Server.handle_call_tool. repeat split.
  - intros H. rewrite (route_unknown name arguments H). reflexivity.
  - intros e w' E. unfold try_except. now rewrite E.
  - intros out w' E. unfold try_except. now rewrite E.
Qed.

End Dispatch.

(** ** Path results *)

Lemma path_data_shape (r : record) (p : list pdict * list pdict) :
  holds_path r p -> Server.path_data r = inr (path_shape p).
Proof.
  unfold holds_path, Server.path_data. intros ->. reflexivity.
Qed.

Lemma holds_path_truthy (r : record) (p : list pdict * list pdict) :
  holds_path r p -> rec_truthy r = true.
Proof.
  unfold holds_path, rec_get, rec_truthy.
  destruct (rec_fields r); [discriminate | reflexivity].
Qed.

Lemma for_each_path_data (rs : list record)
    (paths : list (list pdict * list pdict)) (w : world) :
  Forall2 holds_path rs paths ->
  for_each rs (fun r => lift (Server.path_data r)) w
  = (inr (map path_shape paths), w).
Proof.
  induction 1 as [| r p rs paths Hp _ IH]; [reflexivity |].
  cbn [for_each map]. unfold bind at 1.
  rewrite (path_data_shape r p Hp). cbn [lift ret].
  unfold bind at 1. rewrite IH. reflexivity.
Qed.

Lemma json_bad_head (v : value) (l : list value) :
  json_bad (VList (v :: l)) = None -> json_bad v = None.
Proof.
  cbn [json_bad]. destruct (json_bad v); [discriminate | reflexivity].
Qed.

(** What a handler that opens a session from a connected manager, runs
    one query text and works on the answer without further calls does. *)
Lemma one_query_session (eng : engine) {A} (query : string) (w : world)
    (d : driver) (r : result) (work : result -> M A) (a : A) :
  _driver (self w) = Some d ->
  eng_run eng (trace w ++ [EvSession (database (self w))])%list
    (database (self w)) (VStr query) VNone = inr r ->
  (forall w1, work r w1 = (inr a, w1)) ->
  Database.with_session (Database.get_session eng) (fun session =>
    result <- Database.session_run_text eng session query ;; work result) w
  = (inr a,
     {| self := self w;
        trace := (trace w
          ++ [EvSession (database (self w));
              EvRun (database (self w)) (VStr query) VNone;
              EvSessionClose (database (self w))])%list |}).
Proof.
  intros Hd Hrun Hwork.
  unfold Database.with_session, Database.get_session, Database.get_self,
    Database.driver_session, Database.session_run_text, Database.session_run,
    Database.session_close, finally, bind, ret.
  rewrite Hd. cbn [trace emit self]. rewrite Hd. cbn [trace emit self].
  rewrite Hrun, Hwork.
  unfold emit. cbn [trace self]. rewrite <- !app_assoc. reflexivity.
Qed.

Lemma json_content_ok (py : runtime) (v : value) (w : world) :
  json_bad v = None ->
  Server.json_content py v w = (inr [Server.TextContent (json_text py v)], w).
Proof.
  intros H. unfold Server.json_content, json_dumps, bind, lift. now rewrite H.
Qed.

Section PathTools.

Variable py : runtime.
Variable eng : engine.
Variable args : pdict.
Variable w : world.

Local Abbreviation start_label := (arg_or args "start_label" VNone).
Local Abbreviation end_label := (arg_or args "end_label" VNone).
Local Abbreviation start_properties := (arg_or args "start_properties" (VDict [])).
Local Abbreviation end_properties := (arg_or args "end_properties" (VDict [])).
Local Abbreviation relationship_types :=
  (arg_or args "relationship_types" (VList [])).

(** C7. Take a call of a path tool with both labels given and property
    mappings for both ends, on a connected manager, and let the engine
    answer the tool's query with records whose [path] fields are the
    paths [paths], all of them serialisable.  Then [find_paths] and
    [find_all_paths] return the JSON text of the list of the paths'
    shapes, and [find_shortest_path] the JSON text of the shape of the
    first path (or [No path found] when there is none), where the shape
    of a path is the mapping with the keys [nodes], [relationships] and
    [length], holding the property mappings of its nodes, those of its
    relationships, and the number of its relationships: the same shape
    for the three tools. *)
Theorem path_results_uniform (d : driver) (start_items end_items : pdict)
    (rs : list record) (paths : list (list pdict * list pdict)) :
  truthy start_label = true ->
  truthy end_label = true ->
  py_items start_properties = inr start_items ->
  py_items end_properties = inr end_items ->
  _driver (self w) = Some d ->
  Forall2 holds_path rs paths ->
  json_bad (VList (map path_shape paths)) = None ->
  (forall query r,
     query = Server.find_paths_query py start_label end_label
               (arg_or args "max_depth" (VInt 3)) (arg_or args "limit" (VInt 5))
               (Server.conditions py "start" start_items)
               (Server.conditions py "end" end_items) ->
     answers eng w query r -> records r = rs ->
     Server.find_paths py eng (VDict args) w
     = (inr [Server.TextContent (json_text py (VList (map path_shape paths)))],
        after_query w query))
  /\ (forall pattern query r,
        Server.rel_pattern py relationship_types
          (arg_or args "max_depth" (VInt 3)) = inr pattern ->
        query = Server.find_all_paths_query py start_label end_label
                  (arg_or args "limit" (VInt 5))
                  (Server.conditions py "start" start_items)
                  (Server.conditions py "end" end_items) pattern ->
        answers eng w query r -> records r = rs ->
        Server.find_all_paths py eng (VDict args) w
        = (inr [Server.TextContent (json_text py (VList (map path_shape paths)))],
           after_query w query))
  /\ (forall pattern query r,
        Server.rel_pattern py relationship_types
          (arg_or args "max_depth" (VInt 5)) = inr pattern ->
        query = Server.find_shortest_path_query py start_label end_label
                  (Server.conditions py "start" start_items)
                  (Server.conditions py "end" end_items) pattern ->
        answers eng w query r -> records r = rs ->
        Server.find_shortest_path py eng (VDict args) w
        = (inr [Server.TextContent
                  match paths with
                  | [] => "No path found"
                  | p :: _ => json_text py (path_shape p)
                  end],
           after_query w query)).
Proof.
  intros Hs He Hsi Hei Hd Hpaths Hjson. repeat split.
  - intros query r -> Hrun Hrs.
    unfold Server.find_paths. rewrite !py_get_dict.
    unfold lift at 1 2 3 4 5 6. rewrite !bind_ret.
    rewrite Hs, He. cbn [negb orb]. rewrite Hsi, Hei.
    unfold lift at 1 2. rewrite !bind_ret.
    apply try_ok. apply (one_query_session eng _ w d r); [exact Hd | exact Hrun |].
    intros w1. rewrite Hrs.
    erewrite bind_ok by (apply for_each_path_data; exact Hpaths).
    now apply json_content_ok.
  - intros pattern query r Hpat -> Hrun Hrs.
    unfold Server.find_all_paths. rewrite !py_get_dict.
    unfold lift at 1 2 3 4 5 6 7. rewrite !bind_ret.
    rewrite Hs, He. cbn [negb orb]. rewrite Hsi, Hei, Hpat.
    unfold lift at 1 2 3. rewrite !bind_ret.
    apply try_ok. apply (one_query_session eng _ w d r); [exact Hd | exact Hrun |].
    intros w1. rewrite Hrs.
    erewrite bind_ok by (apply for_each_path_data; exact Hpaths).
    now apply json_content_ok.
  - intros pattern query r Hpat -> Hrun Hrs.
    unfold Server.find_shortest_path. rewrite !py_get_dict.
    unfold lift at 1 2 3 4 5 6. rewrite !bind_ret.
    rewrite Hs, He. cbn [negb orb]. rewrite Hsi, Hei, Hpat.
    unfold lift at 1 2 3. rewrite !bind_ret.
    apply try_ok. apply (one_query_session eng _ w d r); [exact Hd | exact Hrun |].
    intros w1. unfold single. rewrite Hrs.
    destruct Hpaths as [| r0 p rs' paths' Hp _]; [reflexivity |].
    cbn [hd_error]. rewrite (holds_path_truthy r0 p Hp).
    rewrite (path_data_shape r0 p Hp). cbn [lift]. rewrite bind_ret.
    apply json_content_ok. exact (json_bad_head _ _ Hjson).
Qed.

End PathTools.

Lemma path_results_uniform_witness :
  fst (Server.find_paths plain two_routes (VDict alice_to_charlie) fresh)
  = inr [Server.TextContent
           (show (VList [path_shape direct_route; path_shape route_through_bob]))]
  /\ fst (Server.find_all_paths plain two_routes (VDict alice_to_charlie) fresh)
     = inr [Server.TextContent
              (show (VList [path_shape direct_route; path_shape route_through_bob]))]
  /\ fst (Server.find_shortest_path plain two_routes (VDict alice_to_charlie) fresh)
     = inr [Server.TextContent (show (path_shape direct_route))].
Proof.
  destruct (path_results_uniform plain two_routes alice_to_charlie fresh
              {| drv_uri := "bolt://localhost:7687"; drv_auth := None |}
              [("name", VStr "Alice")] [("name", VStr "Charlie")]
              [path_row direct_route; path_row route_through_bob]
              [direct_route; route_through_bob]
              eq_refl eq_refl eq_refl eq_refl eq_refl
              ltac:(repeat constructor)
              eq_refl) as [Hpaths [Hall Hshortest]].
  split; [| split].
  - rewrite (Hpaths _ _ eq_refl eq_refl eq_refl). reflexivity.
  - rewrite (Hall _ _ _ eq_refl eq_refl eq_refl eq_refl). reflexivity.
  - rewrite (Hshortest _ _ _ eq_refl eq_refl eq_refl eq_refl). reflexivity.
Defined.

(** ** Required arguments *)

Lemma lookup_app (a b : pdict) (key : string) :
  lookup (a ++ b)%list key
  = match lookup a key with Some v => Some v | None => lookup b key end.
Proof.
  induction a as [| [k v] a IH]; [reflexivity |].
  cbn [app lookup]. destruct (String.eqb k key); [reflexivity | exact IH].
Qed.


Section Required.

Variable py : runtime.
Variable eng : engine.


End Required.



(** ** The schema reflector *)

Lemma runs_ret {A} (a : A) (P : A -> Prop) : P a -> runs (ret a) P.
Proof. intros H w. exists a, w. repeat split. exact H. Qed.

Lemma runs_bind {A B} (m : M A) (f : A -> M B) (P : A -> Prop)
    (Q : B -> Prop) :
  runs m P -> (forall a, P a -> runs (f a) Q) -> runs (bind m f) Q.
Proof.
  intros Hm Hf w. destruct (Hm w) as [a [w1 [E [S Pa]]]].
  destruct (Hf a Pa w1) as [b [w2 [E2 [S2 Qb]]]].
  exists b, w2. unfold bind. rewrite E. repeat split; [exact E2 | congruence | exact Qb].
Qed.

Lemma bind_ret_fun {A B} (a : A) (f : A -> M B) : bind (ret a) f = f a.
Proof. reflexivity. Qed.

Lemma runs_lift {A} (r : res A) (a : A) (P : A -> Prop) :
  r = inr a -> P a -> runs (lift r) P.
Proof. intros -> H. now apply runs_ret. Qed.

Lemma runs_session_run (eng : engine) (s : Database.session) (query : string)
    (fields : list pdict) :
  yields eng query fields ->
  runs (Database.session_run_text eng s query)
    (fun r => map rec_fields (records r) = fields).
Proof.
  intros H w. destruct (H (trace w) s) as [r [E F]].
  exists r. eexists. unfold Database.session_run_text, Database.session_run.
  rewrite E. repeat split. exact F.
Qed.

(** A loop whose body follows [step] on an abstraction [abs] of the
    accumulator, over records that stand for the items [xs]. *)
Lemma runs_for_fold {A X S T} (R : A -> X -> Prop) (abs : S -> T)
    (step : S -> X -> S) (body : T -> A -> M T) (l : list A) (xs : list X) :
  Forall2 R l xs ->
  (forall s a x, R a x -> In x xs ->
     runs (body (abs s) a) (eq (abs (step s x)))) ->
  forall s0,
    runs (for_fold l (abs s0) body) (eq (abs (fold_left step xs s0))).
Proof.
  induction 1 as [| a x l xs Hax _ IH]; intros Hbody s0.
  - now apply runs_ret.
  - cbn [for_fold fold_left].
    apply (runs_bind _ _ (eq (abs (step s0 x)))).
    + apply Hbody; [exact Hax | now left].
    + intros ? <-. apply IH. intros s a' x' Hr Hin. apply Hbody; [exact Hr | now right].
Qed.

Lemma fields_Forall2 {X} (f : X -> pdict) (l : list record) (xs : list X) :
  map rec_fields l = map f xs ->
  Forall2 (fun r x => rec_fields r = f x) l xs.
Proof.
  revert xs. induction l as [| r l IH]; intros [| x xs]; try discriminate.
  - constructor.
  - cbn [map]. intros [= H1 H2]. constructor; [exact H1 | now apply IH].
Qed.

Lemma lookup_dict_set (d : pdict) (key : string) (v : value) :
  lookup (dict_set d key v) key = Some v.
Proof.
  induction d as [| [k x] d IH]; cbn [dict_set lookup].
  - now rewrite String.eqb_refl.
  - destruct (String.eqb k key) eqn:E; cbn [lookup]; rewrite E; [reflexivity | exact IH].
Qed.

Lemma dict_set_twice (d : pdict) (key : string) (v v' : value) :
  dict_set (dict_set d key v) key v' = dict_set d key v'.
Proof.
  induction d as [| [k x] d IH]; cbn [dict_set].
  - now rewrite String.eqb_refl.
  - destruct (String.eqb k key) eqn:E; cbn [dict_set]; rewrite E; [reflexivity | now rewrite IH].
Qed.

Lemma set_property_entry (nodes : pdict) (label key : string) (props : pdict) :
  Database.set_property
    (dict_set nodes label (VDict [("properties", VDict props)])) label key
  = inr (dict_set nodes label
           (VDict [("properties", VDict (dict_set props key unknown_type))])).
Proof.
  unfold Database.set_property. rewrite lookup_dict_set.
  cbn [lookup String.eqb Ascii.eqb Bool.eqb dict_set]. now rewrite dict_set_twice.
Qed.

Lemma fold_left_app_flat_map {X Y} (f : X -> list Y) (xs : list X)
    (acc : list Y) :
  fold_left (fun acc x => acc ++ f x)%list xs acc = (acc ++ flat_map f xs)%list.
Proof.
  revert acc. induction xs as [| x xs IH]; intros acc; cbn [fold_left flat_map].
  - now rewrite app_nil_r.
  - now rewrite IH, app_assoc.
Qed.

Lemma flat_map_singleton {X Y} (f : X -> Y) (xs : list X) :
  flat_map (fun x => [f x]) xs = map f xs.
Proof. induction xs as [| x xs IH]; cbn; [reflexivity | now rewrite IH]. Qed.

Lemma Forall2_map_left {X Y} (f : X -> Y) (xs : list X) :
  Forall2 (fun y x => y = f x) (map f xs) xs.
Proof. induction xs; constructor; auto. Qed.

Lemma rec_get_first (r : record) (key : string) (v : value) (rest : pdict) :
  rec_fields r = (key, v) :: rest -> rec_get r key = inr v.
Proof. unfold rec_get. intros ->. cbn [lookup]. now rewrite String.eqb_refl. Qed.

Section Reflector.

Variable py : runtime.
Variable eng : engine.
Variable g : reflected.
Hypothesis serves : reflects py eng g.

Lemma runs_detail_entries (t : string) (rels : list value) (r : record)
    (row : list string * list string) :
  rec_fields r = endpoint_fields row ->
  runs (Database.detail_entries (VStr t) rels r)
    (eq (rels ++ row_entries t row)%list).
Proof.
  intros Hr. unfold Database.detail_entries.
  apply (runs_bind _ _ (eq (VList (map VStr (fst row))))).
  { apply runs_lift with (a := VList (map VStr (fst row))); [| reflexivity].
    now apply rec_get_first with (rest := [("target_labels", VList (map VStr (snd row)))]). }
  intros ? <-.
  apply (runs_bind _ _ (eq (VList (map VStr (snd row))))).
  { apply runs_lift with (a := VList (map VStr (snd row))); [| reflexivity].
    unfold rec_get. rewrite Hr. reflexivity. }
  intros ? <-. cbn [py_iter lift]. rewrite bind_ret_fun.
  unfold row_entries.
  rewrite <- (fold_left_app_flat_map
                (fun s => map (relationship_entry t s) (snd row))).
  apply (runs_for_fold (fun v s => v = VStr s) (fun x => x)
           (fun acc s => acc ++ map (relationship_entry t s) (snd row))%list).
  { apply Forall2_map_left. }
  intros acc ? s -> _. rewrite bind_ret_fun.
  rewrite <- (flat_map_singleton (relationship_entry t s)).
  rewrite <- (fold_left_app_flat_map (fun target => [relationship_entry t s target])).
  apply (runs_for_fold (fun v s => v = VStr s) (fun x => x)
           (fun acc target => acc ++ [relationship_entry t s target])%list).
  { apply Forall2_map_left. }
  intros acc' ? target -> _. now apply runs_ret.
Qed.

Lemma get_session_connected (w : world) (d : driver) :
  _driver (self w) = Some d ->
  Database.get_session eng w
  = (inr (database (self w)), emit (EvSession (database (self w))) w).
Proof.
  intros Hd.
  unfold Database.get_session, Database.get_self, Database.driver_session,
    bind, ret.
  rewrite Hd. cbn. now rewrite Hd.
Qed.

(** The body of the [with] block of [get_basic_schema] computes the
    schema of [g]. *)
Lemma get_basic_schema_runs (w : world) (d : driver) :
  _driver (self w) = Some d ->
  exists w',
    Database.get_basic_schema py eng w = (inr (basic_schema g), w')
    /\ self w' = self w.
Proof.
  intros Hd. destruct serves as [Hlabels [Hkeys [Htypes Hrows]]].
  unfold Database.get_basic_schema, Database.with_session.
  unfold bind at 1. rewrite (get_session_connected w d Hd).
  match goal with
  | |- context [finally ?body _] =>
      assert (Hbody : runs body (eq (basic_schema g)))
  end.
  { eapply runs_bind; [apply runs_session_run, Hlabels |].
    intros labels Hl. apply fields_Forall2 in Hl.
    apply (runs_bind _ _ (eq (schema_nodes g))).
    { unfold schema_nodes.
      apply (runs_for_fold _ (fun x => x)
               (fun d l => dict_set d l (node_entry (db_keys g l)))
               _ _ _ Hl).
      intros nodes r l Hr Hin.
      apply (runs_bind _ _ (eq (VStr l)));
        [apply runs_lift with (a := VStr l);
         [now apply rec_get_first with (rest := []) | reflexivity] |].
      intros ? <-. cbn [as_key lift]. rewrite bind_ret_fun.
      eapply runs_bind; [apply runs_session_run, (Hkeys l Hin) |].
      intros props Hp. apply fields_Forall2 in Hp.
      apply (runs_for_fold _
               (fun ps => dict_set nodes l (VDict [("properties", VDict ps)]))
               (fun ps k => dict_set ps k unknown_type)
               _ _ _ Hp).
      intros ps r' k Hr' _.
      apply (runs_bind _ _ (eq (VStr k)));
        [apply runs_lift with (a := VStr k);
         [now apply rec_get_first with (rest := []) | reflexivity] |].
      intros ? <-. cbn [as_key lift]. rewrite bind_ret_fun.
      apply runs_lift with (a := dict_set nodes l
        (VDict [("properties", VDict (dict_set ps k unknown_type))]));
        [apply set_property_entry | reflexivity]. }
    intros ? <-.
    eapply runs_bind; [apply runs_session_run, Htypes |].
    intros types Ht. apply fields_Forall2 in Ht.
    apply (runs_bind _ _ (eq (schema_relationships g))).
    { unfold schema_relationships.
      replace (flat_map (fun t => flat_map (row_entries t) (db_endpoints g t))
                 (db_rel_types g))
        with (fold_left
                (fun rels t =>
                   rels ++ flat_map (row_entries t) (db_endpoints g t))%list
                (db_rel_types g) [])
        by (now rewrite fold_left_app_flat_map).
      apply (runs_for_fold _ (fun x => x) _ _ _ _ Ht).
      intros rels r t Hr Hin.
      apply (runs_bind _ _ (eq (VStr t)));
        [apply runs_lift with (a := VStr t);
         [now apply rec_get_first with (rest := []) | reflexivity] |].
      intros ? <-.
      eapply runs_bind; [apply runs_session_run, (Hrows t Hin) |].
      intros details Hdet. apply fields_Forall2 in Hdet.
      rewrite <- (fold_left_app_flat_map (row_entries t)).
      apply (runs_for_fold _ (fun x => x)
               (fun rels row => rels ++ row_entries t row)%list _ _ _ Hdet).
      intros rels' r' row Hr' _. now apply runs_detail_entries. }
    intros ? <-. now apply runs_ret. }
  destruct (Hbody (emit (EvSession (database (self w))) w))
    as [a [w2 [E [S <-]]]].
  unfold finally. rewrite E. unfold Database.session_close.
  eexists. split; [reflexivity | exact S].
Qed.

End Reflector.

(** ** The shape of the schema *)

Lemma dict_set_new (d : pdict) (key : string) (v : value) :
  lookup d key = None -> dict_set d key v = (d ++ [(key, v)])%list.
Proof.
  induction d as [| [k x] d IH]; cbn [lookup dict_set app]; [reflexivity |].
  destruct (String.eqb k key); [discriminate |].
  intros H. now rewrite IH.
Qed.

(** Setting distinct new keys one after the other appends them in order. *)
Lemma fold_dict_set_distinct (f : string -> value) (keys : list string)
    (acc : pdict) :
  NoDup keys -> (forall k, In k keys -> lookup acc k = None) ->
  fold_left (fun d k => dict_set d k (f k)) keys acc
  = (acc ++ map (fun k => (k, f k)) keys)%list.
Proof.
  revert acc. induction keys as [| k keys IH]; intros acc Hnd Hnew.
  - cbn. now rewrite app_nil_r.
  - cbn [fold_left map]. inversion Hnd as [| ? ? Hk Hnd']; subst.
    rewrite (dict_set_new acc k (f k)) by (apply Hnew; now left).
    rewrite IH; [now rewrite <- app_assoc | exact Hnd' |].
    intros k' Hin. rewrite lookup_app, (Hnew k') by now right.
    cbn [lookup]. destruct (String.eqb_spec k k'); [subst; contradiction | reflexivity].
Qed.

Lemma node_entry_distinct (keys : list string) :
  NoDup keys ->
  node_entry keys
  = VDict [("properties", VDict (map (fun k => (k, unknown_type)) keys))].
Proof.
  intros H. unfold node_entry.
  now rewrite (fold_dict_set_distinct (fun _ => unknown_type) keys [] H).
Qed.

Lemma schema_nodes_distinct (g : reflected) :
  NoDup (db_labels g) ->
  schema_nodes g = map (fun l => (l, node_entry (db_keys g l))) (db_labels g).
Proof.
  intros H. unfold schema_nodes.
  now rewrite (fold_dict_set_distinct (fun l => node_entry (db_keys g l))
                 (db_labels g) [] H).
Qed.

(** The relationship entries are those of the label pairs of the rows. *)
Lemma in_schema_relationships (g : reflected) (e : value) :
  In e (schema_relationships g)
  <-> exists t row s target,
        In t (db_rel_types g) /\ In row (db_endpoints g t)
        /\ In s (fst row) /\ In target (snd row)
        /\ e = relationship_entry t s target.
Proof.
  unfold schema_relationships, row_entries. split.
  - intros H. apply in_flat_map in H as [t [Ht H]].
    apply in_flat_map in H as [row [Hrow H]].
    apply in_flat_map in H as [s [Hs H]].
    apply in_map_iff in H as [target [<- Htarget]].
    now exists t, row, s, target.
  - intros [t [row [s [target [Ht [Hrow [Hs [Htarget ->]]]]]]]].
    apply in_flat_map. exists t. split; [exact Ht |].
    apply in_flat_map. exists row. split; [exact Hrow |].
    apply in_flat_map. exists s. split; [exact Hs |].
    now apply in_map.
Qed.

Lemma length_row_entries (t : string) (row : list string * list string) :
  length (row_entries t row) = length (fst row) * length (snd row).
Proof.
  unfold row_entries. induction (fst row) as [| s ss IH]; [reflexivity |].
  cbn [flat_map length]. now rewrite length_app, length_map, IH.
Qed.

Lemma NoDup_flat_map {X Y} (f : X -> list Y) (l : list X) :
  NoDup l ->
  (forall x, In x l -> NoDup (f x)) ->
  (forall x x' y, In x l -> In x' l -> In y (f x) -> In y (f x') -> x = x') ->
  NoDup (flat_map f l).
Proof.
  induction 1 as [| x l Hx Hnd IH]; intros Hf Hinj; [constructor |].
  cbn [flat_map]. apply NoDup_app. repeat split.
  - apply Hf. now left.
  - apply IH.
    + intros x' Hin. apply Hf. now right.
    + intros a b y Ha Hb. apply Hinj; now right.
  - intros y Hy Hy'. apply in_flat_map in Hy' as [x' [Hx' Hy']].
    assert (x = x') by (apply (Hinj x x' y); auto; [now left | now right]).
    subst. contradiction.
Qed.

Lemma schema_relationships_distinct (g : reflected) :
  single_labelled g ->
  NoDup (db_rel_types g) ->
  (forall t, In t (db_rel_types g) -> NoDup (db_endpoints g t)) ->
  NoDup (schema_relationships g).
Proof.
  intros Hsingle Htypes Hrows. unfold schema_relationships.
  apply NoDup_flat_map; [exact Htypes | |].
  - intros t Ht. apply NoDup_flat_map; [now apply Hrows | |].
    + intros row Hrow. destruct (Hsingle t row Ht Hrow) as [s [target ->]].
      cbn. repeat constructor. intros [].
    + intros row row' y Hrow Hrow'.
      destruct (Hsingle t row Ht Hrow) as [s [target ->]].
      destruct (Hsingle t row' Ht Hrow') as [s' [target' ->]].
      cbn. intros [<- | []] [[= -> ->] | []]. reflexivity.
  - intros t t' y Ht Ht' Hy Hy'.
    apply in_flat_map in Hy as [row [_ Hy]].
    apply in_flat_map in Hy' as [row' [_ Hy']].
    unfold row_entries in Hy, Hy'.
    apply in_flat_map in Hy as [s [_ Hy]].
    apply in_flat_map in Hy' as [s' [_ Hy']].
    apply in_map_iff in Hy as [target [<- _]].
    apply in_map_iff in Hy' as [target' [[= ->] _]]. reflexivity.
Qed.

Section ReflectorClaim.

Variable py : runtime.
Variable eng : engine.
Variable g : reflected.

(** X17. On a connected manager whose engine serves the database [g],
    answering the four statements of the source as [g] dictates,
    [get_basic_schema] returns the schema of [g] and leaves the manager
    as it was.  Under [nodes] the schema has every label with the
    property keys found on its nodes, each with type ["unknown"]; under
    [relationships] it has, for every relationship type and every row of
    its details statement, one entry for every source label and every
    target label of the row, and nothing else, so that a type without
    rows has no entry, and a row gives as many entries as it has source
    labels times target labels.  When every endpoint in the rows carries
    one label, the rows of a type are distinct and every type is listed
    once, no entry is repeated.  On the database that holds only the
    label Person with the key name, and no relationship type, the schema
    is
    [{"nodes": {"Person": {"properties": {"name": {"type": "unknown"}}}},
      "relationships": []}]. *)
Theorem get_basic_schema_reflects (w : world) (d : driver) :
  reflects py eng g ->
  _driver (self w) = Some d ->
  (exists w',
     Database.get_basic_schema py eng w = (inr (basic_schema g), w')
     /\ self w' = self w)
  /\ (NoDup (db_labels g) ->
      (forall l, In l (db_labels g) -> NoDup (db_keys g l)) ->
      schema_nodes g
      = map (fun l =>
               (l, VDict [("properties",
                           VDict (map (fun k => (k, VDict [("type", VStr "unknown")]))
                                    (db_keys g l)))]))
          (db_labels g))
  /\ (forall e,
        In e (schema_relationships g)
        <-> exists t row s target,
              In t (db_rel_types g) /\ In row (db_endpoints g t)
              /\ In s (fst row) /\ In target (snd row)
              /\ e = VDict [("type", VStr t); ("source", VStr s);
                            ("target", VStr target)])
  /\ (forall t row,
        length (row_entries t row) = length (fst row) * length (snd row))
  /\ (single_labelled g -> NoDup (db_rel_types g) ->
      (forall t, In t (db_rel_types g) -> NoDup (db_endpoints g t)) ->
      NoDup (schema_relationships g))
  /\ (db_labels g = ["Person"] -> db_keys g "Person" = ["name"] ->
      db_rel_types g = [] ->
      basic_schema g
      = VDict [("nodes",
                VDict [("Person",
                        VDict [("properties",
                                VDict [("name", VDict [("type", VStr "unknown")])])])]);
               ("relationships", VList [])]).
Proof.
  intros Hserves Hd.
  split; [now apply (get_basic_schema_runs py eng g Hserves w d) |].
  split.
  { intros Hl Hk. rewrite (schema_nodes_distinct g Hl).
    apply map_ext_in. intros l Hin. now rewrite (node_entry_distinct _ (Hk l Hin)). }
  split; [apply in_schema_relationships |].
  split; [apply length_row_entries |].
  split; [apply schema_relationships_distinct |].
  intros Hl Hk Ht. unfold basic_schema, schema_nodes, schema_relationships.
  rewrite Hl, Ht. cbn [fold_left flat_map dict_set]. rewrite Hk. reflexivity.
Qed.

End ReflectorClaim.

Lemma person_only_served : reflects plain (serving plain person_only) person_only.
Proof.
  repeat split.
  - intros t db. eexists. split; reflexivity.
  - intros l [<- | []] t db. eexists. split; reflexivity.
  - intros t db. eexists. split; reflexivity.
  - intros t [].
Defined.

Lemma get_basic_schema_reflects_witness :
  fst (Database.get_basic_schema plain (serving plain person_only) fresh)
  = inr (VDict [("nodes",
                 VDict [("Person",
                         VDict [("properties",
                                 VDict [("name", VDict [("type", VStr "unknown")])])])]);
                ("relationships", VList [])]).
Proof.
  destruct (get_basic_schema_reflects plain (serving plain person_only)
              person_only fresh
              {| drv_uri := "bolt://localhost:7687"; drv_auth := None |}
              person_only_served eq_refl)
    as [[w' [Hrun _]] [_ [_ [_ [_ Hperson]]]]].
  rewrite Hrun. cbn [fst]. now rewrite (Hperson eq_refl eq_refl eq_refl).
Defined.

(** C6, on the code.  In a database where a KNOWS relationship leaves a
    node labelled both A and B and another leaves a node labelled A, both
    towards nodes labelled C, the details statement, which the code sends
    with [RETURN DISTINCT] and [LIMIT 5], has two distinct rows of label
    lists, and [get_basic_schema] enters the triple (KNOWS, A, C) twice:
    the loops over the labels of a row append an entry for every label
    combination without looking at what is already there, so that the
    distinctness the statement asks for is lost on endpoints with several
    labels.  The statements the engine receives are the eight of the
    trace. *)
Theorem get_basic_schema_repeats_triple :
  NoDup (db_endpoints shared_label "KNOWS")
  /\ length (db_endpoints shared_label "KNOWS") <= 5
  /\ Database.get_basic_schema plain (serving plain shared_label) fresh
     = (inr (VDict
               [("nodes",
                 VDict [("A", VDict [("properties", VDict [])]);
                        ("B", VDict [("properties", VDict [])]);
                        ("C", VDict [("properties", VDict [])])]);
                ("relationships",
                 VList [VDict [("type", VStr "KNOWS"); ("source", VStr "A");
                               ("target", VStr "C")];
                        VDict [("type", VStr "KNOWS"); ("source", VStr "B");
                               ("target", VStr "C")];
                        VDict [("type", VStr "KNOWS"); ("source", VStr "A");
                               ("target", VStr "C")]])]),
        {| self := self fresh;
           trace :=
             [EvSession None;
              EvRun None (VStr labels_statement) VNone;
              EvRun None (VStr (keys_statement "A")) VNone;
              EvRun None (VStr (keys_statement "B")) VNone;
              EvRun None (VStr (keys_statement "C")) VNone;
              EvRun None (VStr types_statement) VNone;
              EvRun None (VStr (details_statement "KNOWS")) VNone;
              EvSessionClose None] |})
  /\ ~ NoDup (schema_relationships shared_label).
Proof.
  split; [cbn; repeat constructor; cbn; intuition discriminate |].
  split; [cbn; lia |].
  split; [reflexivity |].
  cbn. intros H. inversion H as [| ? ? Hnotin _]. apply Hnotin.
  right. left. reflexivity.
Qed.

(** ** Sessions are released, the configuration is kept *)

Lemma open_sessions_app (a b : list event) :
  open_sessions (a ++ b) = (open_sessions a + open_sessions b)%Z.
Proof.
  induction a as [| e a IH]; cbn [app open_sessions fold_right]; [reflexivity |].
  fold (open_sessions (a ++ b)). fold (open_sessions a). rewrite IH. lia.
Qed.

Lemma same_config_refl (a : Neo4jDatabase) : same_config a a.
Proof. repeat split. Qed.

Lemma same_config_trans (a b c : Neo4jDatabase) :
  same_config a b -> same_config b c -> same_config a c.
Proof.
  intros [H1 [H2 [H3 H4]]] [K1 [K2 [K3 K4]]]. repeat split; congruence.
Qed.

Lemma step_refl (w : world) : step 0 w w.
Proof.
  split; [apply same_config_refl |]. split; [lia |].
  intros d _. split; [reflexivity |]. exists []. split; [now rewrite app_nil_r | constructor].
Qed.

Lemma step_trans (g1 g2 : Z) (w w1 w2 : world) :
  step g1 w w1 -> step g2 w1 w2 -> step (g1 + g2) w w2.
Proof.
  intros [C1 [O1 D1]] [C2 [O2 D2]].
  split; [exact (same_config_trans _ _ _ C2 C1) |]. split; [lia |].
  intros d Hd. destruct (D1 d Hd) as [S1 [a1 [T1 F1]]].
  assert (Hd1 : _driver (self w1) = Some d) by now rewrite S1.
  destruct (D2 d Hd1) as [S2 [a2 [T2 F2]]].
  split; [congruence |]. exists (a1 ++ a2)%list. split.
  - now rewrite T2, T1, app_assoc.
  - apply Forall_app. now split.
Qed.

(** One session call, added to the trace. *)
Lemma step_emit (e : event) (w : world) :
  session_call e -> step (session_delta e) w (emit e w).
Proof.
  intros He. split; [apply same_config_refl |]. split.
  - cbn [emit trace]. rewrite open_sessions_app. cbn. lia.
  - intros d _. split; [reflexivity |]. exists [e]. split; [reflexivity |].
    now constructor.
Qed.

Lemma tidy_ret {A} (a : A) : tidy (ret a).
Proof. intros w r w' [= <- <-]. apply step_refl. Qed.

Lemma tidy_raise {A} (e : exn) : tidy (@raise A e).
Proof. intros w r w' [= <- <-]. apply step_refl. Qed.

Lemma tidy_lift {A} (r : res A) : tidy (lift r).
Proof. destruct r; [apply tidy_raise | apply tidy_ret]. Qed.

Lemma tidy_bind {A B} (m : M A) (f : A -> M B) :
  tidy m -> (forall a, tidy (f a)) -> tidy (bind m f).
Proof.
  intros Hm Hf w r w'. unfold bind.
  destruct (m w) as [[e | a] w1] eqn:E.
  - intros [= <- <-]. exact (Hm _ _ _ E).
  - intros E2. exact (step_trans 0 0 _ _ _ (Hm _ _ _ E) (Hf a _ _ _ E2)).
Qed.

Lemma tidy_try {A} (m : M A) (h : exn -> M A) :
  tidy m -> (forall e, tidy (h e)) -> tidy (try_except m h).
Proof.
  intros Hm Hh w r w'. unfold try_except.
  destruct (m w) as [[e | a] w1] eqn:E.
  - intros E2. exact (step_trans 0 0 _ _ _ (Hm _ _ _ E) (Hh e _ _ _ E2)).
  - intros [= <- <-]. exact (Hm _ _ _ E).
Qed.

Lemma tidy_for_each {A B} (l : list A) (body : A -> M B) :
  (forall a, tidy (body a)) -> tidy (for_each l body).
Proof.
  intros Hb. induction l as [| x l IH]; cbn [for_each]; [apply tidy_ret |].
  apply tidy_bind; [apply Hb |]. intros y.
  apply tidy_bind; [exact IH |]. intros ys. apply tidy_ret.
Qed.

Lemma tidy_for_fold {A S} (l : list A) (body : S -> A -> M S) (acc : S) :
  (forall s a, tidy (body s a)) -> tidy (for_fold l acc body).
Proof.
  intros Hb. revert acc. induction l as [| x l IH]; intros acc; cbn [for_fold];
    [apply tidy_ret |].
  apply tidy_bind; [apply Hb |]. intros acc'. apply IH.
Qed.

Lemma tidy_get_self : tidy Database.get_self.
Proof. intros w r w' [= <- <-]. apply step_refl. Qed.

Lemma tidy_session_run (eng : engine) (s : Database.session)
    (query params : value) :
  tidy (Database.session_run eng s query params).
Proof.
  intros w r w' [= <- <-]. exact (step_emit (EvRun s query params) w I).
Qed.

Lemma acquiring_driver_session (db : option string) :
  acquiring (Database.driver_session db).
Proof.
  intros w r w'. unfold Database.driver_session.
  destruct (_driver (self w)); intros [= <- <-].
  - exact (step_emit (EvSession db) w I).
  - apply step_refl.
Qed.

(** [with] releases the session it acquired, however its body ends. *)
Lemma tidy_with_session {A} (acquire : M Database.session)
    (body : Database.session -> M A) :
  acquiring acquire -> (forall s, tidy (body s)) ->
  tidy (Database.with_session acquire body).
Proof.
  intros Ha Hb w r w'. unfold Database.with_session, bind.
  destruct (acquire w) as [[e | s] w1] eqn:E.
  - intros [= <- <-]. exact (Ha _ _ _ E).
  - unfold finally, Database.session_close.
    destruct (body s w1) as [r1 w2] eqn:E2. intros [= <- <-].
    pose proof (step_trans _ _ _ _ _ (Ha _ _ _ E) (Hb s _ _ _ E2)) as H.
    exact (step_trans _ _ _ _ _ H (step_emit (EvSessionClose s) w2 I)).
Qed.

(** Connecting from a manager without handle. *)
Lemma connect_step (eng : engine) (w : world) (r : res unit) (w' : world) :
  _driver (self w) = None -> Database.connect eng w = (r, w') -> step 0 w w'.
Proof.
  intros Hd.
  unfold Database.connect, Database.get_self, Database.graph_driver,
    Database.verify_connectivity, Database.driver_verify, bind, ret,
    try_except, raise.
  destruct (eng_driver eng (trace w) (uri (self w)) (Database.auth_of (self w)));
    cbn.
  - intros [= <- <-]. split; [apply same_config_refl |]. split.
    + cbn [emit trace]. rewrite open_sessions_app. cbn. lia.
    + intros d. rewrite Hd. discriminate.
  - destruct (eng_verify eng _); intros [= <- <-];
      (split; [repeat split |]; split;
       [ unfold emit, set_driver; cbn [trace self];
         rewrite !open_sessions_app; cbn; lia
       | intros d; rewrite Hd; discriminate ]).
Qed.

Lemma acquiring_get_session (eng : engine) :
  acquiring (Database.get_session eng).
Proof.
  intros w r w'. unfold Database.get_session, Database.get_self, bind, ret.
  destruct (_driver (self w)) as [d |] eqn:Hd.
  - apply acquiring_driver_session.
  - destruct (Database.connect eng w) as [[e | []] w1] eqn:E.
    + intros [= <- <-]. exact (connect_step eng w _ _ Hd E).
    + intros E2.
      pose proof (connect_step eng w _ _ Hd E) as [C1 [O1 _]].
      pose proof (acquiring_driver_session _ _ _ _ E2) as [C2 [O2 _]].
      split; [exact (same_config_trans _ _ _ C2 C1) |]. split; [lia |].
      intros d. rewrite Hd. discriminate.
Qed.


Ltac tidy_step :=
  first
    [ apply tidy_ret
    | apply tidy_raise
    | apply tidy_lift
    | apply tidy_get_self
    | apply tidy_session_run
    | solve [eauto 2]
    | apply tidy_with_session;
      [first [apply acquiring_get_session | apply acquiring_driver_session]
      | intros]
    | apply tidy_try; [| intros]
    | apply tidy_for_each; intros
    | apply tidy_for_fold; intros
    | apply tidy_bind; [| intros]
    | match goal with
      | |- tidy (if ?b then _ else _) => destruct b
      | |- tidy (match ?x with _ => _ end) => destruct x
      | |- tidy (let _ := _ in _) => cbv zeta
      end ].

Section Tidy.

Variable py : runtime.
Variable eng : engine.

Lemma tidy_run_query (query params : value) (database_arg : option string) :
  tidy (Database.run_query eng query params database_arg).
Proof. unfold Database.run_query. repeat tidy_step. Qed.

Lemma tidy_run_write_query (query params : value)
    (database_arg : option string) :
  tidy (Database.run_write_query eng query params database_arg).
Proof. unfold Database.run_write_query. repeat tidy_step. Qed.

Lemma tidy_detail_entries (rel_type : value) (rels : list value) (r : record) :
  tidy (Database.detail_entries rel_type rels r).
Proof. unfold Database.detail_entries. repeat tidy_step. Qed.

Lemma tidy_get_basic_schema : tidy (Database.get_basic_schema py eng).
Proof.
  unfold Database.get_basic_schema. pose proof tidy_detail_entries.
  repeat tidy_step.
Qed.

Lemma tidy_get_schema : tidy (Database.get_schema py eng).
Proof.
  unfold Database.get_schema. pose proof tidy_get_basic_schema.
  repeat tidy_step.
Qed.

Lemma tidy_get_database_info : tidy (Database.get_database_info eng).
Proof. unfold Database.get_database_info. repeat tidy_step. Qed.

Lemma tidy_count_query (query : string) : tidy (Database.count_query eng query).
Proof. unfold Database.count_query. repeat tidy_step. Qed.

Lemma tidy_column_query (query key : string) :
  tidy (Database.column_query eng query key).
Proof. unfold Database.column_query. repeat tidy_step. Qed.

Lemma tidy_data_query (query : string) : tidy (Database.data_query eng query).
Proof. unfold Database.data_query. repeat tidy_step. Qed.

Lemma tidy_get_indexes : tidy (Database.get_indexes eng).
Proof.
  unfold Database.get_indexes. pose proof tidy_data_query. repeat tidy_step.
Qed.

Lemma tidy_get_constraints : tidy (Database.get_constraints eng).
Proof.
  unfold Database.get_constraints. pose proof tidy_data_query. repeat tidy_step.
Qed.

Lemma tidy_get_sample_data (limit : value) :
  tidy (Database.get_sample_data py eng limit).
Proof.
  unfold Database.get_sample_data, Database.get_node_labels.
  pose proof tidy_column_query. repeat tidy_step.
Qed.

Lemma tidy_route (name : string) (arguments : value) :
  tidy (Server.route py eng name arguments).
Proof.
  pose proof tidy_run_query. pose proof tidy_run_write_query.
  pose proof tidy_get_basic_schema. pose proof tidy_get_schema.
  pose proof tidy_get_database_info. pose proof tidy_count_query.
  pose proof tidy_column_query. pose proof tidy_get_indexes.
  pose proof tidy_get_constraints. pose proof tidy_get_sample_data.
  unfold Server.route.
  repeat match goal with
         | |- tidy (if String.eqb name ?s then _ else _) =>
             destruct (String.eqb name s)
         end.
  all: unfold Server.get_schema, Server.get_database_info,
         Server.execute_read_query, Server.execute_write_query,
         Server.explain_query, Server.get_database_statistics,
         Server.get_node_counts_by_label,
         Server.get_relationship_counts_by_type, Server.get_indexes,
         Server.get_constraints, Server.create_index,
         Server.create_constraint, Server.drop_index, Server.drop_constraint,
         Server.get_sample_data, Server.find_nodes, Server.find_relationships,
         Server.find_paths, Server.find_shortest_path, Server.find_all_paths,
         Server.counts_by, Server.json_content,
         Database.get_node_count, Database.get_relationship_count,
         Database.get_node_labels, Database.get_relationship_types.
  all: repeat tidy_step.
Qed.

Lemma tidy_handle_call_tool (name : string) (arguments : value) :
  tidy (Server.handle_call_tool py eng name arguments).
Proof.
  unfold Server.handle_call_tool. apply tidy_try; [apply tidy_route |].
  intros e. apply tidy_ret.
Qed.

End Tidy.

Section ToolCalls.

Variable py : runtime.
Variable eng : engine.

(** X1. Whatever the tool, the arguments, the state of the manager and
    the answers of the engine, a tool call closes every session it opens:
    the number of open sessions after the call is the number before. *)
Theorem tool_call_releases_sessions (name : string) (arguments : value)
    (w : world) :
  open_sessions (trace (snd (Server.handle_call_tool py eng name arguments w)))
  = open_sessions (trace w).
Proof.
  destruct (Server.handle_call_tool py eng name arguments w) as [r w'] eqn:E.
  destruct (tidy_handle_call_tool py eng name arguments w r w' E) as [_ [H _]].
  cbn [snd]. lia.
Qed.

(** X2. A tool call never changes the uri, the username, the password or
    the database name of the manager, not even when it has to connect
    again. *)
Theorem tool_call_keeps_configuration (name : string) (arguments : value)
    (w : world) :
  same_config (self (snd (Server.handle_call_tool py eng name arguments w)))
    (self w).
Proof.
  destruct (Server.handle_call_tool py eng name arguments w) as [r w'] eqn:E.
  exact (proj1 (tidy_handle_call_tool py eng name arguments w r w' E)).
Qed.

(** X3. On a manager whose handle is in place, a tool call leaves the
    manager as it is, handle included, and reaches the engine through
    sessions only: it creates no driver, runs no connectivity check and
    closes no driver. *)
Theorem tool_call_on_connected_manager (name : string) (arguments : value)
    (w : world) (d : driver) :
  _driver (self w) = Some d ->
  self (snd (Server.handle_call_tool py eng name arguments w)) = self w
  /\ exists added,
       trace (snd (Server.handle_call_tool py eng name arguments w))
       = (trace w ++ added)%list
       /\ Forall session_call added.
Proof.
  intros Hd.
  destruct (Server.handle_call_tool py eng name arguments w) as [r w'] eqn:E.
  destruct (tidy_handle_call_tool py eng name arguments w r w' E) as [_ [_ H]].
  exact (H d Hd).
Qed.

End ToolCalls.

Lemma tool_call_on_connected_manager_witness :
  self (snd (Server.handle_call_tool plain two_routes "find_all_paths"
               (VDict alice_to_charlie) fresh))
  = self fresh.
Proof.
  exact (proj1 (tool_call_on_connected_manager plain two_routes "find_all_paths"
                  (VDict alice_to_charlie) fresh
                  {| drv_uri := "bolt://localhost:7687"; drv_auth := None |}
                  eq_refl)).
Defined.

(** ** Database methods that absorb failures *)

Lemma ensures_ret {A} (P : A -> Prop) (a : A) : P a -> ensures P (ret a).
Proof. intros H w a' w' [= <- _]. exact H. Qed.

Lemma ensures_raise {A} (P : A -> Prop) (e : exn) : ensures P (raise e).
Proof. intros w a w'. discriminate. Qed.

Lemma ensures_bind {A B} (P : B -> Prop) (m : M A) (f : A -> M B) :
  (forall a, ensures P (f a)) -> ensures P (bind m f).
Proof.
  intros Hf w b w'. unfold bind.
  destruct (m w) as [[e | a] w1]; [discriminate | apply Hf].
Qed.

Lemma ensures_try {A} (P : A -> Prop) (m : M A) (h : exn -> M A) :
  ensures P m -> (forall e, ensures P (h e)) -> ensures P (try_except m h).
Proof.
  intros Hm Hh w a w'. unfold try_except.
  destruct (m w) as [[e | a1] w1] eqn:E.
  - apply Hh.
  - intros [= <- <-]. exact (Hm _ _ _ E).
Qed.

Lemma ensures_with_session {A} (P : A -> Prop) (acquire : M Database.session)
    (body : Database.session -> M A) :
  (forall s, ensures P (body s)) ->
  ensures P (Database.with_session acquire body).
Proof.
  intros Hb. apply ensures_bind. intros s w a w'.
  unfold finally, Database.session_close.
  destruct (body s w) as [r w1] eqn:E. intros [= -> _].
  exact (Hb _ _ _ _ E).
Qed.

(** A handler that returns makes [try] total. *)
Lemma never_raises_try {A} (m : M A) (h : exn -> M A) :
  (forall e, never_raises (h e)) -> never_raises (try_except m h).
Proof.
  intros Hh w. unfold try_except.
  destruct (m w) as [[e | a] w1]; [apply Hh | now exists a, w1].
Qed.

Lemma never_raises_ret {A} (a : A) : never_raises (ret a).
Proof. intros w. now exists a, w. Qed.

(** One statement, run in a session of a connected manager. *)
Lemma data_query_connected (eng : engine) (query : string) (w : world)
    (d : driver) :
  _driver (self w) = Some d ->
  Database.data_query eng query w
  = (match eng_run eng (trace w ++ [EvSession (database (self w))])%list
             (database (self w)) (VStr query) VNone with
     | inr r => inr (map rec_data (records r))
     | inl e => inl e
     end,
     after_query w query).
Proof.
  intros Hd.
  unfold Database.data_query, Database.with_session, Database.get_session,
    Database.get_self, Database.driver_session, Database.session_run_text,
    Database.session_run, Database.session_close, finally, bind, ret.
  rewrite Hd. cbn [trace emit self]. rewrite Hd. cbn [trace emit self].
  unfold after_query.
  destruct (eng_run eng _ _ _ _); unfold emit; cbn [trace self];
    rewrite <- !app_assoc; reflexivity.
Qed.

Lemma bind_get_self {B} (f : Neo4jDatabase -> M B) (w : world) :
  bind Database.get_self f w = f (self w) w.
Proof. reflexivity. Qed.

Section Absorbing.

Variable eng : engine.

(** X4. [get_database_info] never raises, whatever the state of the
    manager and the answers of the engine, and what it returns always has
    the four keys version, edition, database_name and address, the last
    two taken from the configuration.  When the statement fails on a
    connected manager, version and edition are [None]. *)
Theorem get_database_info_never_raises (w : world) :
  (exists version edition w',
     Database.get_database_info eng w
     = (inr (database_info (self w) version edition), w'))
  /\ (forall d e,
        _driver (self w) = Some d ->
        eng_run eng (trace w ++ [EvSession (database (self w))])%list
          (database (self w)) (VStr components_query) VNone = inl e ->
        Database.get_database_info eng w
        = (inr (database_info (self w) VNone VNone),
           after_query w components_query)).
Proof.
  split.
  - unfold Database.get_database_info.
    rewrite bind_get_self. cbv zeta.
    match goal with
    | |- context [try_except ?m ?h] =>
        assert (Hm : ensures
                  (fun info => exists version edition,
                     VDict info = database_info (self w) version edition) m)
    end.
    { apply ensures_with_session. intros s. apply ensures_bind. intros r.
      destruct (single r) as [record |];
        [| apply ensures_ret; now exists VNone, VNone].
      destruct (rec_truthy record);
        [| apply ensures_ret; now exists VNone, VNone].
      apply ensures_bind. intros versions. apply ensures_bind. intros version.
      apply ensures_try.
      - apply ensures_bind. intros edition. apply ensures_ret.
        now exists version, edition.
      - intros e. apply ensures_ret. now exists version, VNone. }
    unfold bind at 1, try_except.
    match goal with
    | |- context [Database.with_session ?a ?b w] =>
        destruct (Database.with_session a b w) as [[e | info] w1] eqn:E
    end.
    + cbn. now exists VNone, VNone, w1.
    + destruct (Hm _ _ _ E) as [version [edition Hinfo]].
      cbn. rewrite Hinfo. now exists version, edition, w1.
  - intros d e Hd Hrun.
    unfold Database.get_database_info.
    rewrite bind_get_self. cbv zeta. unfold bind, try_except.
    unfold Database.with_session, Database.get_session, Database.get_self,
      Database.driver_session, Database.session_run_text,
      Database.session_run, Database.session_close, finally, bind, ret.
    rewrite Hd. cbn [trace emit self]. rewrite Hd. cbn [trace emit self].
    fold components_query. rewrite Hrun. cbn.
    unfold after_query, emit. cbn [trace self]. rewrite <- !app_assoc.
    reflexivity.
Qed.

(** X5. [get_indexes] and [get_constraints] never raise.  On a connected
    manager each returns the data of its first statement when the engine
    accepts it, without trying the second; when the engine rejects both
    statements, each returns the empty list, having tried the two in
    order. *)
Theorem index_and_constraint_listing (w : world) :
  never_raises (Database.get_indexes eng)
  /\ never_raises (Database.get_constraints eng)
  /\ (forall d, _driver (self w) = Some d ->
      (forall r, answers eng w show_indexes r ->
         Database.get_indexes eng w
         = (inr (map rec_data (records r)), after_query w show_indexes))
      /\ (forall r, answers eng w show_constraints r ->
            Database.get_constraints eng w
            = (inr (map rec_data (records r)), after_query w show_constraints))
      /\ (forall e1 e2,
            eng_run eng (trace w ++ [EvSession (database (self w))])%list
              (database (self w)) (VStr show_indexes) VNone = inl e1 ->
            eng_run eng
              (trace (after_query w show_indexes)
                 ++ [EvSession (database (self w))])%list
              (database (self w)) (VStr call_indexes) VNone = inl e2 ->
            Database.get_indexes eng w
            = (inr [], after_query (after_query w show_indexes) call_indexes))
      /\ (forall e1 e2,
            eng_run eng (trace w ++ [EvSession (database (self w))])%list
              (database (self w)) (VStr show_constraints) VNone = inl e1 ->
            eng_run eng
              (trace (after_query w show_constraints)
                 ++ [EvSession (database (self w))])%list
              (database (self w)) (VStr call_constraints) VNone = inl e2 ->
            Database.get_constraints eng w
            = (inr [],
               after_query (after_query w show_constraints) call_constraints))).
Proof.
  split; [| split].
  - apply never_raises_try. intros _. apply never_raises_try. intros _.
    apply never_raises_ret.
  - apply never_raises_try. intros _. apply never_raises_try. intros _.
    apply never_raises_ret.
  - intros d Hd.
    assert (Hd' : forall q, _driver (self (after_query w q)) = Some d)
      by (intros q; exact Hd).
    repeat split.
    + intros r Hr. unfold Database.get_indexes, try_except.
      fold show_indexes. rewrite (data_query_connected eng _ w d Hd).
      unfold answers in Hr. now rewrite Hr.
    + intros r Hr. unfold Database.get_constraints, try_except.
      fold show_constraints. rewrite (data_query_connected eng _ w d Hd).
      unfold answers in Hr. now rewrite Hr.
    + intros e1 e2 H1 H2. unfold Database.get_indexes, try_except.
      fold show_indexes call_indexes.
      rewrite (data_query_connected eng _ w d Hd), H1.
      rewrite (data_query_connected eng _ _ d (Hd' _)).
      cbn [self after_query] in *. now rewrite H2.
    + intros e1 e2 H1 H2. unfold Database.get_constraints, try_except.
      fold show_constraints call_constraints.
      rewrite (data_query_connected eng _ w d Hd), H1.
      rewrite (data_query_connected eng _ _ d (Hd' _)).
      cbn [self after_query] in *. now rewrite H2.
Qed.

End Absorbing.

(** ** The schema with and without the meta-procedure *)

Lemma get_schema_runs_basic (py : runtime) (eng : engine) (g : reflected)
    (w : world) (d : driver) :
  reflects py eng g ->
  without_apoc eng ->
  _driver (self w) = Some d ->
  exists w',
    Database.get_schema py eng w = (inr (basic_schema g), w')
    /\ self w' = self w.
Proof.
  intros Hserves Hapoc Hd.
  unfold Database.get_schema, try_except, Database.with_session.
  unfold bind at 1. rewrite (get_session_connected eng w d Hd).
  unfold finally, try_except, bind, Database.session_run_text,
    Database.session_run.
  cbn [trace emit self].
  destruct (Hapoc (trace w ++ [EvSession (database (self w))])%list
              (database (self w))) as [e He].
  rewrite He.
  match goal with
  | |- context [Database.get_basic_schema py eng ?w1] =>
      destruct (get_basic_schema_runs py eng g Hserves w1 d Hd) as [w2 [E S]]
  end.
  rewrite E. unfold Database.session_close. eexists. split; [reflexivity |].
  exact S.
Qed.

(** X6. On a connected manager whose engine serves the database [g] and
    has no schema meta-procedure, [get_schema] returns what
    [get_basic_schema] computes, the schema of [g], and raises nothing:
    the failure of the procedure call is absorbed. *)
Theorem get_schema_falls_back (py : runtime) (eng : engine) (g : reflected)
    (w : world) (d : driver) :
  reflects py eng g ->
  without_apoc eng ->
  _driver (self w) = Some d ->
  exists w',
    Database.get_schema py eng w = (inr (basic_schema g), w')
    /\ self w' = self w.
Proof. exact (get_schema_runs_basic py eng g w d). Qed.

Lemma get_schema_falls_back_witness :
  fst (Database.get_schema plain (serving plain person_only) fresh)
  = inr (basic_schema person_only).
Proof.
  destruct (get_schema_falls_back plain (serving plain person_only)
              person_only fresh
              {| drv_uri := "bolt://localhost:7687"; drv_auth := None |}
              person_only_served
              (fun _ _ => ex_intro _ (Exn DriverError "unknown statement") eq_refl)
              eq_refl) as [w' [Hrun _]].
  now rewrite Hrun.
Defined.

(** X7. On a connected manager whose engine answers the call of the
    schema meta-procedure, [get_schema] returns the [value] field of the
    first record, and the empty mapping when there is no record; nothing
    else is asked of the engine. *)
Theorem get_schema_with_apoc (py : runtime) (eng : engine) (w : world)
    (d : driver) (r : result) :
  _driver (self w) = Some d ->
  answers eng w Database.apoc_query r ->
  (records r = [] ->
   Database.get_schema py eng w
   = (inr (VDict []), after_query w Database.apoc_query))
  /\ (forall record rest v,
        records r = record :: rest ->
        rec_get record "value" = inr v ->
        Database.get_schema py eng w
        = (inr v, after_query w Database.apoc_query)).
Proof.
  intros Hd Hrun. unfold answers in Hrun. split.
  - intros Hnone.
    unfold Database.get_schema, try_except, Database.with_session.
    unfold bind at 1. rewrite (get_session_connected eng w d Hd).
    unfold finally, try_except, bind, Database.session_run_text,
      Database.session_run, single.
    cbn [trace emit self]. rewrite Hrun, Hnone. cbn.
    unfold after_query, emit. cbn [trace self]. rewrite <- !app_assoc.
    reflexivity.
  - intros record rest v Hsome Hv.
    assert (Ht : rec_truthy record = true).
    { revert Hv. unfold rec_get, rec_truthy.
      destruct (rec_fields record); [discriminate | reflexivity]. }
    unfold Database.get_schema, try_except, Database.with_session.
    unfold bind at 1. rewrite (get_session_connected eng w d Hd).
    unfold finally, try_except, bind, Database.session_run_text,
      Database.session_run, single.
    cbn [trace emit self]. rewrite Hrun, Hsome. cbn [hd_error].
    rewrite Ht, Hv. cbn.
    unfold after_query, emit. cbn [trace self]. rewrite <- !app_assoc.
    reflexivity.
Qed.

(** ** Connecting *)

(** X8. [connect] fails fast and keeps what it has done.  When the driver
    cannot be created the exception propagates, no connectivity check is
    made and the handle is as before.  When the driver is created and the
    connectivity check fails, the exception propagates as well, but the
    new handle stays in place: the next [get_session] does not connect
    again and hands out a session of the unverified handle. *)
Theorem connect_fails_fast (eng : engine) (w : world) (e : exn) :
  (eng_driver eng (trace w) (uri (self w)) (Database.auth_of (self w)) = Some e ->
   Database.connect eng w
   = (inl e, emit (EvDriver (uri (self w)) (Database.auth_of (self w))) w))
  /\ (eng_driver eng (trace w) (uri (self w)) (Database.auth_of (self w)) = None ->
      eng_verify eng
        (trace w ++ [EvDriver (uri (self w)) (Database.auth_of (self w))])%list
      = Some e ->
      Database.connect eng w = (inl e, after_connect w)
      /\ Database.get_session eng (after_connect w)
         = (inr (database (self w)),
            emit (EvSession (database (self w))) (after_connect w))).
Proof.
  split.
  - intros Hdrv.
    unfold Database.connect, Database.get_self, Database.graph_driver,
      bind, ret, try_except, raise.
    now rewrite Hdrv.
  - intros Hdrv Hver. split.
    + unfold Database.connect, Database.get_self, Database.graph_driver,
        Database.verify_connectivity, Database.driver_verify,
        bind, ret, try_except, raise.
      rewrite Hdrv. cbn. rewrite Hver.
      unfold after_connect, emit, set_driver, handle_of. cbn.
      rewrite <- !app_assoc. reflexivity.
    + apply (get_session_connected eng (after_connect w) (handle_of (self w))).
      reflexivity.
Qed.

Lemma get_schema_with_apoc_witness :
  Database.get_schema plain
    (with_apoc (VDict [("Person", VDict [("type", VStr "node")])])) fresh
  = (inr (VDict [("Person", VDict [("type", VStr "node")])]),
     after_query fresh Database.apoc_query).
Proof.
  exact (proj2 (get_schema_with_apoc plain
                  (with_apoc (VDict [("Person", VDict [("type", VStr "node")])]))
                  fresh
                  {| drv_uri := "bolt://localhost:7687"; drv_auth := None |}
                  (rows [row [("value",
                               VDict [("Person", VDict [("type", VStr "node")])])]])
                  eq_refl eq_refl)
           _ _ _ eq_refl eq_refl).
Defined.

(** ** Statement handlers *)

(** [run_write_query] on a connected manager. *)
Lemma run_write_query_connected (eng : engine) (query params : value)
    (w : world) (d : driver) :
  _driver (self w) = Some d ->
  Database.run_write_query eng query params None w
  = (match answer eng w query (params_or_empty params) with
     | inr r => inr (counters_record (counters r))
     | inl e => inl e
     end,
     after_run w query (params_or_empty params)).
Proof.
  intros Hd.
  unfold Database.run_write_query, Database.with_session,
    Database.driver_session, Database.session_run, Database.session_close,
    Database.get_self, finally, bind, ret, answer, after_run.
  rewrite Hd. cbn [trace emit self str_or]. fold (params_or_empty params).
  destruct (eng_run eng _ _ _ _); unfold emit; cbn [trace self];
    rewrite <- !app_assoc; reflexivity.
Qed.

(** [run_query] on a connected manager. *)
Lemma run_query_connected (eng : engine) (query params : value)
    (w : world) (d : driver) :
  _driver (self w) = Some d ->
  Database.run_query eng query params None w
  = (match answer eng w query (params_or_empty params) with
     | inr r => inr (map rec_data (records r))
     | inl e => inl e
     end,
     after_run w query (params_or_empty params)).
Proof.
  intros Hd.
  unfold Database.run_query, Database.with_session,
    Database.driver_session, Database.session_run, Database.session_close,
    Database.get_self, finally, bind, ret, answer, after_run.
  rewrite Hd. cbn [trace emit self str_or]. fold (params_or_empty params).
  destruct (eng_run eng _ _ _ _); unfold emit; cbn [trace self];
    rewrite <- !app_assoc; reflexivity.
Qed.

(** The common end of the statement handlers: the statement is run once,
    and the engine's outcome decides the text. *)
Lemma statement_outcome (eng : engine) (statement ok prefix : string)
    (w : world) (d : driver) :
  _driver (self w) = Some d ->
  try_except
    (Database.run_write_query eng (VStr statement) VNone None ;;;
     ret [Server.TextContent ok])
    (fun e => ret [Server.TextContent (prefix ++ exn_str e)]) w
  = (inr [Server.TextContent
            (statement_text (answer eng w (VStr statement) (VDict [])) ok prefix)],
     after_run w (VStr statement) (VDict [])).
Proof.
  intros Hd. unfold try_except, bind.
  rewrite (run_write_query_connected eng _ _ w d Hd).
  cbn [params_or_empty truthy]. unfold statement_text.
  destruct (answer eng w (VStr statement) (VDict [])); reflexivity.
Qed.

Section Statements.

Variable py : runtime.
Variable eng : engine.
Variable args : pdict.
Variable w : world.

(** X9. [create_index], called on a connected manager with a non-empty
    label and a non-empty list of property names, sends one statement,
    [CREATE <type> INDEX [<name> ]FOR (n:<label>) ON (n.<p1>, n.<p2>, ...)]
    with type BTREE unless one is given, and returns a text: the success
    message when the engine executed the statement, [Error creating
    index: ] and the exception's message when it did not.  It raises
    nothing. *)
Theorem create_index_statement (d : driver) (label : string)
    (props : list string) :
  arg_or args "label" VNone = VStr label ->
  label <> "" ->
  arg_or args "properties" (VList []) = VList (map VStr props) ->
  props <> [] ->
  _driver (self w) = Some d ->
  Server.create_index py eng (VDict args) w
  = (inr [Server.TextContent
            (statement_text
               (answer eng w
                  (VStr (index_statement py
                           (arg_or args "type" (VStr "BTREE"))
                           (arg_or args "name" VNone) label props))
                  (VDict []))
               ("Index created successfully on :" ++ label ++ "("
                  ++ join ", " (map (fun p => "n." ++ p) props) ++ ")")
               "Error creating index: ")],
     after_run w
       (VStr (index_statement py (arg_or args "type" (VStr "BTREE"))
                (arg_or args "name" VNone) label props))
       (VDict [])).
Proof.
  intros Hlabel Hne Hprops Hnonempty Hd.
  unfold Server.create_index. rewrite !py_get_dict.
  unfold lift at 1 2 3 4. rewrite !bind_ret.
  rewrite Hlabel, Hprops, (truthy_str label Hne).
  assert (Ht : truthy (VList (map VStr props)) = true)
    by (destruct props; [contradiction | reflexivity]).
  rewrite Ht. cbn [negb orb py_iter lift]. rewrite bind_ret. cbv zeta.
  rewrite map_map. cbn [py_str].
  replace (if truthy (arg_or args "name" VNone)
           then _ else _)
    with (index_statement py (arg_or args "type" (VStr "BTREE"))
            (arg_or args "name" VNone) label props).
  - apply (statement_outcome eng _ _ _ w d Hd).
  - unfold index_statement.
    destruct (truthy (arg_or args "name" VNone)); rewrite ?append_assoc;
      reflexivity.
Qed.

(** X10. [create_constraint] with a label, a property and a type that is
    none of UNIQUE, EXISTS and NODE_KEY answers [Unknown constraint
    type: <type>] and asks nothing of the engine. *)
Theorem create_constraint_unknown_type (constraint_type : value) :
  truthy (arg_or args "label" VNone) = true ->
  truthy (arg_or args "property" VNone) = true ->
  arg_or args "type" (VStr "UNIQUE") = constraint_type ->
  truthy constraint_type = true ->
  known_constraint_type constraint_type = false ->
  Server.create_constraint py eng (VDict args) w
  = (inr [Server.TextContent
            ("Unknown constraint type: " ++ py_str py constraint_type)], w).
Proof.
  intros Hl Hp Ht Htruthy Hunknown.
  unfold Server.create_constraint. rewrite !py_get_dict.
  unfold lift at 1 2 3 4. rewrite !bind_ret.
  rewrite Hl, Hp, Ht, Htruthy. cbn [negb orb].
  unfold known_constraint_type in Hunknown.
  apply orb_false_elim in Hunknown as [Hunknown H3].
  apply orb_false_elim in Hunknown as [H1 H2].
  unfold Server.constraint_query. rewrite H1, H2, H3. reflexivity.
Qed.

(** X11. [drop_index] and [drop_constraint], called with a name on a
    connected manager, send the one statement [DROP INDEX <name>],
    respectively [DROP CONSTRAINT <name>], and return a text: the success
    message when the engine executed it, the handler's error prefix and
    the exception's message when it did not. *)
Theorem drop_statements (d : driver) (name : value) :
  arg_or args "name" VNone = name ->
  truthy name = true ->
  _driver (self w) = Some d ->
  Server.drop_index py eng (VDict args) w
  = (inr [Server.TextContent
            (statement_text
               (answer eng w (VStr ("DROP INDEX " ++ py_str py name)) (VDict []))
               ("Index " ++ py_str py name ++ " dropped successfully")
               "Error dropping index: ")],
     after_run w (VStr ("DROP INDEX " ++ py_str py name)) (VDict []))
  /\ Server.drop_constraint py eng (VDict args) w
     = (inr [Server.TextContent
               (statement_text
                  (answer eng w (VStr ("DROP CONSTRAINT " ++ py_str py name))
                     (VDict []))
                  ("Constraint " ++ py_str py name ++ " dropped successfully")
                  "Error dropping constraint: ")],
        after_run w (VStr ("DROP CONSTRAINT " ++ py_str py name)) (VDict [])).
Proof.
  intros Hname Ht Hd. split.
  - unfold Server.drop_index. rewrite !py_get_dict. unfold lift at 1.
    rewrite bind_ret, Hname, Ht. cbn [negb]. cbv zeta.
    apply (statement_outcome eng _ _ _ w d Hd).
  - unfold Server.drop_constraint. rewrite !py_get_dict. unfold lift at 1.
    rewrite bind_ret, Hname, Ht. cbn [negb]. cbv zeta.
    apply (statement_outcome eng _ _ _ w d Hd).
Qed.

End Statements.

(** ** Handlers that return rows *)

Lemma condition_property_term (py : runtime) (var : string)
    (item : string * value) :
  Server.condition py var item = property_term py var item.
Proof.
  unfold Server.condition, property_term.
  destruct item as [key v]. destruct v; cbn [fst snd]; rewrite ?append_assoc;
    reflexivity.
Qed.

(** The common end of [find_nodes] and [find_relationships]. *)
Lemma rows_outcome (py : runtime) (eng : engine) (query prefix : string)
    (w : world) (d : driver) :
  _driver (self w) = Some d ->
  try_except
    (results <- Database.run_query eng (VStr query) VNone None ;;
     Server.json_content py (VList results))
    (fun e => ret [Server.TextContent (prefix ++ exn_str e)]) w
  = (inr [Server.TextContent
            (rows_text py prefix (answer eng w (VStr query) (VDict [])))],
     after_run w (VStr query) (VDict [])).
Proof.
  intros Hd. unfold try_except, bind.
  rewrite (run_query_connected eng _ _ w d Hd).
  cbn [params_or_empty truthy]. unfold rows_text.
  destruct (answer eng w (VStr query) (VDict [])) as [e | r]; [reflexivity |].
  unfold Server.json_content, bind, lift.
  destruct (json_dumps py _); reflexivity.
Qed.

Section Rows.

Variable py : runtime.
Variable eng : engine.
Variable args : pdict.
Variable w : world.

(** X12. [find_relationships], called on a connected manager with a
    non-empty relationship type, end labels that are absent or strings,
    and a property mapping, sends the one query
    [MATCH (source[:<S>])-[r:<type>]->(target[:<T>])], then [ WHERE ] and
    one equality term on [r] per property joined by [ AND ] when there
    are properties, then [ RETURN source, r, target LIMIT <limit>] (limit
    10 unless given), with no bound parameter; it returns the JSON text
    of the rows, or [Error finding relationships: ] and the message of
    what went wrong. *)
Theorem find_relationships_query_and_text (d : driver) (rel_type : string)
    (source target : option string) (items : pdict) :
  arg_or args "type" VNone = VStr rel_type ->
  rel_type <> "" ->
  arg_or args "source_label" VNone = of_opt source ->
  arg_or args "target_label" VNone = of_opt target ->
  arg_or args "properties" (VDict []) = VDict items ->
  _driver (self w) = Some d ->
  Server.find_relationships py eng (VDict args) w
  = (inr [Server.TextContent
            (rows_text py "Error finding relationships: "
               (answer eng w
                  (VStr (relationships_query py rel_type source target items
                           (arg_or args "limit" (VInt 10))))
                  (VDict [])))],
     after_run w
       (VStr (relationships_query py rel_type source target items
                (arg_or args "limit" (VInt 10))))
       (VDict [])).
Proof.
  intros Htype Hne Hsource Htarget Hprops Hd.
  unfold Server.find_relationships. rewrite !py_get_dict.
  unfold lift at 1 2 3 4 5. rewrite !bind_ret.
  rewrite Htype, Hsource, Htarget, Hprops, (truthy_str rel_type Hne).
  cbn [negb].
  assert (Hq : Server.find_relationships_query py (VStr rel_type)
                 (of_opt source) (of_opt target) (VDict items)
                 (arg_or args "limit" (VInt 10))
               = inr (relationships_query py rel_type source target items
                        (arg_or args "limit" (VInt 10)))).
  { unfold Server.find_relationships_query, relationships_query, label_part,
      Server.conditions.
    assert (Hpart : forall o : option string,
              (if truthy (of_opt o) then Server.colon_plus (of_opt o)
               else inr "")
              = inr (match o with
                     | Some s => if String.eqb s "" then "" else ":" ++ s
                     | None => ""
                     end)).
    { intros [s |]; [| reflexivity]. cbn [of_opt truthy Server.colon_plus].
      destruct (String.eqb s ""); reflexivity. }
    rewrite !Hpart. cbv zeta. cbn [py_str].
    destruct items as [| item items].
    - cbn [truthy]. f_equal. rewrite !append_assoc. reflexivity.
    - cbn [truthy py_items map].
      rewrite condition_property_term.
      rewrite (map_ext _ _ (condition_property_term py "r")).
      f_equal. rewrite !append_assoc. reflexivity. }
  rewrite Hq. unfold lift at 1. rewrite bind_ret.
  apply (rows_outcome py eng _ _ w d Hd).
Qed.

(** X13. Through the dispatcher, [read_neo4j_cypher] with a query on a
    connected manager runs that query once, as it was given and with the
    given [params] as bound parameters (the empty mapping when there are
    none), and returns the JSON text of the rows; a failure of the engine
    or of the serialisation is not caught by the handler and comes back
    as [Error: ] and the message. *)
Theorem read_query_through_dispatcher (d : driver) :
  truthy (arg_or args "query" VNone) = true ->
  _driver (self w) = Some d ->
  Server.handle_call_tool py eng "read_neo4j_cypher" (VDict args) w
  = (inr [Server.TextContent
            (rows_text py "Error: "
               (answer eng w (arg_or args "query" VNone)
                  (params_or_empty (arg_or args "params" (VDict [])))))],
     after_run w (arg_or args "query" VNone)
       (params_or_empty (arg_or args "params" (VDict [])))).
Proof.
  intros Hq Hd.
  unfold Server.handle_call_tool, Server.route. simpl (String.eqb _ _).
  cbv beta iota. unfold Server.execute_read_query. rewrite !py_get_dict.
  unfold try_except, bind, lift, ret. rewrite Hq. cbn [negb].
  rewrite (run_query_connected eng _ _ w d Hd). unfold rows_text.
  destruct (answer eng w _ _) as [e | r]; [reflexivity |].
  unfold Server.json_content, bind, lift.
  destruct (json_dumps py _); reflexivity.
Qed.

(** X14. Through the dispatcher, [write_neo4j_cypher] with a query on a
    connected manager runs that query once with the given [params] and
    returns the JSON text of the record of the eleven counters, which
    always serialises; a failure of the engine comes back as [Error: ]
    and the message. *)
Theorem write_query_through_dispatcher (d : driver) :
  truthy (arg_or args "query" VNone) = true ->
  _driver (self w) = Some d ->
  Server.handle_call_tool py eng "write_neo4j_cypher" (VDict args) w
  = (inr [Server.TextContent
            (counters_text py
               (answer eng w (arg_or args "query" VNone)
                  (params_or_empty (arg_or args "params" (VDict [])))))],
     after_run w (arg_or args "query" VNone)
       (params_or_empty (arg_or args "params" (VDict [])))).
Proof.
  intros Hq Hd.
  unfold Server.handle_call_tool, Server.route. simpl (String.eqb _ _).
  cbv beta iota. unfold Server.execute_write_query. rewrite !py_get_dict.
  unfold try_except, bind, lift, ret. rewrite Hq. cbn [negb].
  rewrite (run_write_query_connected eng _ _ w d Hd). unfold counters_text.
  destruct (answer eng w _ _) as [e | r]; reflexivity.
Qed.

(** X15. [explain_neo4j_cypher] with a query on a connected manager runs
    [EXPLAIN <query>] once, with no parameters, and never returns a plan:
    the driver gives the plan of the summary as a [dict], of which the
    handler reads the attribute [operator_type], so that the text is
    [Error explaining query: 'dict' object has no attribute
    'operator_type'] when the engine answers with a plan, the same with
    ['NoneType'] when it answers without one, and [Error explaining
    query: ] with the engine's message when the engine fails. *)
Theorem explain_query_text (d : driver) :
  truthy (arg_or args "query" VNone) = true ->
  _driver (self w) = Some d ->
  Server.explain_query py eng (VDict args) w
  = (inr [Server.TextContent
            (plan_text
               (answer eng w
                  (VStr ("EXPLAIN " ++ py_str py (arg_or args "query" VNone)))
                  VNone))],
     after_query w ("EXPLAIN " ++ py_str py (arg_or args "query" VNone))).
Proof.
  intros Hq Hd.
  unfold Server.explain_query. rewrite !py_get_dict. unfold lift at 1.
  rewrite bind_ret, Hq. cbn [negb]. cbv zeta.
  unfold try_except, Database.with_session. unfold bind at 1.
  rewrite (get_session_connected eng w d Hd).
  unfold finally, bind, Database.session_run_text, Database.session_run,
    Database.session_close, plan_text, answer, summary_plan.
  cbn [trace emit self].
  destruct (eng_run eng _ _ _ _) as [e | r].
  - unfold after_query, emit. cbn [trace self]. rewrite <- !app_assoc.
    reflexivity.
  - destruct (res_plan r) as [p |]; cbn; unfold after_query, emit;
      cbn [trace self]; rewrite <- !app_assoc; reflexivity.
Qed.

End Rows.

(** ** The sample-data tool *)

Lemma for_each_nodes (rs : list record) (propss : list pdict) (w : world) :
  Forall2 holds_node rs propss ->
  for_each rs (fun r => lift (rec_get r "n")) w
  = (inr (map VNode propss), w).
Proof.
  induction 1 as [| r p rs propss Hp _ IH]; [reflexivity |].
  cbn [for_each map]. unfold bind at 1. unfold holds_node in Hp.
  rewrite Hp. cbn [lift ret]. unfold bind at 1. rewrite IH. reflexivity.
Qed.

(** X16. Through the dispatcher, [get_sample_data] called with one label
    on a connected manager runs one query for that label, limited as
    asked (10 unless given).  When the label has no node the text is the
    JSON of the mapping from the label to the empty list; when the engine
    returns nodes, the node objects are handed to the serialiser as they
    are, and the text is [Error: Object of type Node is not JSON
    serializable]. *)
Theorem sample_data_of_one_label (py : runtime) (eng : engine) (args : pdict)
    (w : world) (d : driver) (label : string) (r : result)
    (propss : list pdict) :
  arg_or args "labels" (VList []) = VList [VStr label] ->
  _driver (self w) = Some d ->
  answers eng w
    (sample_query py (VStr label) (arg_or args "limit" (VInt 10))) r ->
  Forall2 holds_node (records r) propss ->
  Server.handle_call_tool py eng "get_sample_data" (VDict args) w
  = (inr [Server.TextContent
            match propss with
            | [] => json_text py (VDict [(label, VList [])])
            | _ => "Error: Object of type Node is not JSON serializable"
            end],
     after_query w
       (sample_query py (VStr label) (arg_or args "limit" (VInt 10)))).
Proof.
  intros Hlabels Hd Hrun Hnodes.
  unfold Server.handle_call_tool, Server.route. simpl (String.eqb _ _).
  cbv beta iota. unfold Server.get_sample_data. rewrite !py_get_dict.
  unfold lift at 1 2. rewrite !bind_ret_fun. rewrite Hlabels.
  cbn [truthy py_iter lift]. rewrite bind_ret_fun.
  cbn [for_fold]. fold (sample_query py (VStr label)
                          (arg_or args "limit" (VInt 10))).
  unfold try_except. unfold bind at 1. unfold bind at 1.
  rewrite (one_query_session eng _ w d r _ [(label, VList (map VNode propss))]
             Hd Hrun).
  - cbn [ret]. unfold Server.json_content, json_dumps, bind, lift.
    destruct propss as [| p propss]; reflexivity.
  - intros w1. erewrite bind_ok by (apply for_each_nodes; exact Hnodes).
    reflexivity.
Qed.

Lemma sample_data_of_one_label_witness :
  fst (Server.handle_call_tool plain one_node "get_sample_data"
         (VDict [("labels", VList [VStr "Person"])]) fresh)
  = inr [Server.TextContent
           "Error: Object of type Node is not JSON serializable"].
Proof.
  rewrite (sample_data_of_one_label plain one_node
             [("labels", VList [VStr "Person"])] fresh
             {| drv_uri := "bolt://localhost:7687"; drv_auth := None |}
             "Person"
             (rows [{| rec_fields := [("n", VNode [("name", VStr "Alice")])];
                       rec_data := VDict [("n", VDict [("name", VStr "Alice")])] |}])
             [[("name", VStr "Alice")]]
             eq_refl eq_refl eq_refl ltac:(repeat constructor)).
  reflexivity.
Defined.

(** ** Tools on a manager without handle *)

Lemma run_query_absent (eng : engine) (query params : value) (w : world) :
  _driver (self w) = None ->
  Database.run_query eng query params None w = (inl no_session, w).
Proof.
  intros Hd.
  unfold Database.run_query, Database.with_session, Database.driver_session,
    Database.get_self, bind, ret. now rewrite Hd.
Qed.

Lemma run_write_query_absent (eng : engine) (query params : value)
    (w : world) :
  _driver (self w) = None ->
  Database.run_write_query eng query params None w = (inl no_session, w).
Proof.
  intros Hd.
  unfold Database.run_write_query, Database.with_session,
    Database.driver_session, Database.get_self, bind, ret. now rewrite Hd.
Qed.

(** X18. The tools that run their statement through [run_query] or
    [run_write_query] do not connect again: on a manager without handle
    they answer with the attribute error of the absent handle, under the
    dispatcher's prefix for the two query tools and under the handler's
    own prefix for the others, ask nothing of the engine and leave the
    manager as it was. *)
Theorem tools_without_handle (py : runtime) (eng : engine) (args : pdict)
    (w : world) :
  _driver (self w) = None ->
  (truthy (arg_or args "query" VNone) = true ->
   Server.handle_call_tool py eng "read_neo4j_cypher" (VDict args) w
   = (inr [Server.TextContent ("Error: " ++ no_session_text)], w)
   /\ Server.handle_call_tool py eng "write_neo4j_cypher" (VDict args) w
      = (inr [Server.TextContent ("Error: " ++ no_session_text)], w))
  /\ (truthy (arg_or args "name" VNone) = true ->
      Server.handle_call_tool py eng "drop_index" (VDict args) w
      = (inr [Server.TextContent ("Error dropping index: " ++ no_session_text)],
         w)
      /\ Server.handle_call_tool py eng "drop_constraint" (VDict args) w
         = (inr [Server.TextContent
                   ("Error dropping constraint: " ++ no_session_text)], w))
  /\ (forall label items,
        arg_or args "label" VNone = VStr label -> label <> "" ->
        arg_or args "properties" (VDict []) = VDict items ->
        Server.handle_call_tool py eng "find_nodes" (VDict args) w
        = (inr [Server.TextContent ("Error finding nodes: " ++ no_session_text)],
           w)).
Proof.
  intros Hd. split; [| split].
  - intros Hq. split.
    + unfold Server.handle_call_tool, Server.route. simpl (String.eqb _ _).
      cbv beta iota. unfold Server.execute_read_query. rewrite !py_get_dict.
      unfold try_except, bind, lift, ret. rewrite Hq. cbn [negb].
      now rewrite (run_query_absent eng _ _ w Hd).
    + unfold Server.handle_call_tool, Server.route. simpl (String.eqb _ _).
      cbv beta iota. unfold Server.execute_write_query. rewrite !py_get_dict.
      unfold try_except, bind, lift, ret. rewrite Hq. cbn [negb].
      now rewrite (run_write_query_absent eng _ _ w Hd).
  - intros Hname. split.
    + unfold Server.handle_call_tool, Server.route. simpl (String.eqb _ _).
      cbv beta iota. unfold Server.drop_index. rewrite !py_get_dict.
      unfold try_except, bind, lift, ret. rewrite Hname. cbn [negb].
      now rewrite (run_write_query_absent eng _ _ w Hd).
    + unfold Server.handle_call_tool, Server.route. simpl (String.eqb _ _).
      cbv beta iota. unfold Server.drop_constraint. rewrite !py_get_dict.
      unfold try_except, bind, lift, ret. rewrite Hname. cbn [negb].
      now rewrite (run_write_query_absent eng _ _ w Hd).
  - intros label items Hlabel Hne Hprops.
    unfold Server.handle_call_tool, Server.route. simpl (String.eqb _ _).
    cbv beta iota. unfold Server.find_nodes. rewrite !py_get_dict.
    unfold lift at 1 2 3. rewrite !bind_ret_fun.
    rewrite Hlabel, Hprops, (truthy_str label Hne). cbn [negb].
    rewrite find_nodes_query_text. unfold lift at 1. rewrite bind_ret_fun.
    unfold try_except, bind.
    now rewrite (run_query_absent eng _ _ w Hd).
Qed.

(** ** The theorems above, at concrete calls *)

Lemma tools_without_handle_witness :
  Server.handle_call_tool plain quiet "drop_index" (VDict drop_call) closed
  = (inr [Server.TextContent
            "Error dropping index: 'NoneType' object has no attribute 'session'"],
     closed).
Proof.
  exact (proj1 (proj1 (proj2 (tools_without_handle plain quiet drop_call closed
                                eq_refl))
                  eq_refl)).
Defined.

Lemma create_index_statement_witness :
  Server.create_index plain quiet (VDict index_call) fresh
  = (inr [Server.TextContent
            "Index created successfully on :Person(n.name, n.age)"],
     after_run fresh
       (VStr "CREATE BTREE INDEX person_idx FOR (n:Person) ON (n.name, n.age)")
       (VDict [])).
Proof.
  exact (create_index_statement plain quiet index_call fresh
           {| drv_uri := "bolt://localhost:7687"; drv_auth := None |}
           "Person" ["name"; "age"]
           eq_refl ltac:(discriminate) eq_refl ltac:(discriminate) eq_refl).
Defined.

Lemma create_constraint_unknown_type_witness :
  Server.create_constraint plain quiet
    (VDict [("label", VStr "Person"); ("property", VStr "name");
            ("type", VStr "PRIMARY")]) fresh
  = (inr [Server.TextContent "Unknown constraint type: PRIMARY"], fresh).
Proof.
  exact (create_constraint_unknown_type plain quiet
           [("label", VStr "Person"); ("property", VStr "name");
            ("type", VStr "PRIMARY")] fresh (VStr "PRIMARY")
           eq_refl eq_refl eq_refl eq_refl eq_refl).
Defined.

Lemma drop_statements_witness :
  Server.drop_index plain (rejecting unknown_procedure) (VDict drop_call) fresh
  = (inr [Server.TextContent
            ("Error dropping index: " ++ exn_str unknown_procedure)],
     after_run fresh (VStr "DROP INDEX person_idx") (VDict [])).
Proof.
  exact (proj1 (drop_statements plain (rejecting unknown_procedure) drop_call
                  fresh
                  {| drv_uri := "bolt://localhost:7687"; drv_auth := None |}
                  (VStr "person_idx") eq_refl eq_refl eq_refl)).
Defined.

Lemma find_relationships_query_and_text_witness :
  Server.find_relationships plain quiet
    (VDict [("type", VStr "KNOWS"); ("source_label", VStr "Person");
            ("properties", VDict [("since", VInt 2020)])]) fresh
  = (inr [Server.TextContent "[]"],
     after_run fresh
       (VStr "MATCH (source:Person)-[r:KNOWS]->(target) WHERE r.since = 2020 RETURN source, r, target LIMIT 10")
       (VDict [])).
Proof.
  exact (find_relationships_query_and_text plain quiet
           [("type", VStr "KNOWS"); ("source_label", VStr "Person");
            ("properties", VDict [("since", VInt 2020)])] fresh
           {| drv_uri := "bolt://localhost:7687"; drv_auth := None |}
           "KNOWS" (Some "Person") None [("since", VInt 2020)]
           eq_refl ltac:(discriminate) eq_refl eq_refl eq_refl eq_refl).
Defined.

Lemma read_query_through_dispatcher_witness :
  Server.handle_call_tool plain (rejecting unknown_procedure)
    "read_neo4j_cypher"
    (VDict [("query", VStr "CALL db.indexes()");
            ("params", VDict [("limit", VInt 5)])]) fresh
  = (inr [Server.TextContent ("Error: " ++ exn_str unknown_procedure)],
     after_run fresh (VStr "CALL db.indexes()") (VDict [("limit", VInt 5)])).
Proof.
  exact (read_query_through_dispatcher plain (rejecting unknown_procedure)
           [("query", VStr "CALL db.indexes()");
            ("params", VDict [("limit", VInt 5)])] fresh
           {| drv_uri := "bolt://localhost:7687"; drv_auth := None |}
           eq_refl eq_refl).
Defined.

Lemma write_query_through_dispatcher_witness :
  Server.handle_call_tool plain creating "write_neo4j_cypher"
    (VDict [("query", VStr "CREATE (n:Person {name: 'Alice', age: 30})")]) fresh
  = (inr [Server.TextContent
            (show (VDict (counters_record one_node_two_properties)))],
     after_run fresh (VStr "CREATE (n:Person {name: 'Alice', age: 30})")
       (VDict [])).
Proof.
  exact (write_query_through_dispatcher plain creating
           [("query", VStr "CREATE (n:Person {name: 'Alice', age: 30})")] fresh
           {| drv_uri := "bolt://localhost:7687"; drv_auth := None |}
           eq_refl eq_refl).
Defined.

Lemma explain_query_text_witness :
  Server.explain_query plain explaining
    (VDict [("query", VStr "MATCH (n) RETURN n")]) fresh
  = (inr [Server.TextContent
            "Error explaining query: 'dict' object has no attribute 'operator_type'"],
     after_query fresh "EXPLAIN MATCH (n) RETURN n").
Proof.
  exact (explain_query_text plain explaining
           [("query", VStr "MATCH (n) RETURN n")] fresh
           {| drv_uri := "bolt://localhost:7687"; drv_auth := None |}
           eq_refl eq_refl).
Defined.

(** ** The schema tool *)

Lemma json_bad_list (l : list value) :
  (forall v, In v l -> json_bad v = None) -> json_bad (VList l) = None.
Proof.
  cbn [json_bad]. induction l as [| x l IH]; intros H; [reflexivity |].
  rewrite (H x) by now left. apply IH. intros v Hv. apply H. now right.
Qed.

Lemma json_bad_dict (d : pdict) :
  (forall k v, In (k, v) d -> json_bad v = None) -> json_bad (VDict d) = None.
Proof.
  cbn [json_bad]. induction d as [| [k x] d IH]; intros H; [reflexivity |].
  rewrite (H k x) by now left. apply IH. intros k' v Hv. apply (H k'). now right.
Qed.

Lemma in_dict_set (d : pdict) (key : string) (v : value) (k : string)
    (x : value) :
  In (k, x) (dict_set d key v) -> (k, x) = (key, v) \/ In (k, x) d.
Proof.
  induction d as [| [k0 x0] d IH]; cbn [dict_set].
  - intros [H | []]. left. now symmetry.
  - destruct (String.eqb_spec k0 key) as [-> | Hne].
    + intros [H | H]; [left; now symmetry | right; now right].
    + intros [H | H]; [right; now left |].
      destruct (IH H) as [E | Hin]; [now left | right; now right].
Qed.

(** What is built by setting serialisable values is serialisable. *)
Lemma json_bad_fold_dict_set {X} (key : X -> string) (val : X -> value)
    (xs : list X) (d : pdict) :
  (forall x, json_bad (val x) = None) ->
  (forall k v, In (k, v) d -> json_bad v = None) ->
  forall k v,
    In (k, v) (fold_left (fun d x => dict_set d (key x) (val x)) xs d) ->
    json_bad v = None.
Proof.
  intros Hval. revert d. induction xs as [| x xs IH]; intros d Hd k v;
    cbn [fold_left]; [apply Hd |].
  apply IH. intros k' v' Hin.
  destruct (in_dict_set _ _ _ _ _ Hin) as [[= _ ->] | Hin']; [apply Hval |].
  exact (Hd _ _ Hin').
Qed.

(** The schema of a database always serialises. *)
Lemma basic_schema_serialises (g : reflected) : json_bad (basic_schema g) = None.
Proof.
  unfold basic_schema. apply json_bad_dict.
  intros k v [[= _ <-] | [[= _ <-] | []]].
  - apply json_bad_dict. unfold schema_nodes.
    apply (json_bad_fold_dict_set (fun l => l)
             (fun l => node_entry (db_keys g l))); [| intros ? ? []].
    intros l. unfold node_entry. apply json_bad_dict.
    intros k' v' [[= _ <-] | []]. apply json_bad_dict.
    apply (json_bad_fold_dict_set (fun k => k) (fun _ => unknown_type));
      [reflexivity | intros ? ? []].
  - apply json_bad_list. intros v Hv.
    apply in_schema_relationships in Hv
      as [t [row [s [target [_ [_ [_ [_ ->]]]]]]]].
    reflexivity.
Qed.

(** X19. On a connected manager whose engine serves the database [g] and
    has no schema meta-procedure, the tool [get_neo4j_schema] answers
    with the JSON text of the schema of [g] whatever its arguments: with
    [detailed] true the failed procedure call is absorbed and the answer
    is the one given without [detailed]. *)
Theorem schema_tool_without_apoc (py : runtime) (eng : engine) (g : reflected)
    (args : pdict) (w : world) (d : driver) :
  reflects py eng g ->
  without_apoc eng ->
  _driver (self w) = Some d ->
  exists w',
    Server.handle_call_tool py eng "get_neo4j_schema" (VDict args) w
    = (inr [Server.TextContent (json_text py (basic_schema g))], w')
    /\ self w' = self w.
Proof.
  intros Hserves Hapoc Hd.
  unfold Server.handle_call_tool, Server.route. simpl (String.eqb _ _).
  cbv beta iota. unfold Server.get_schema. rewrite !py_get_dict.
  unfold lift at 1. rewrite bind_ret_fun.
  assert (Hschema : exists w',
             (if truthy (arg_or args "detailed" (VBool false))
              then Database.get_schema py eng
              else Database.get_basic_schema py eng) w
             = (inr (basic_schema g), w') /\ self w' = self w).
  { destruct (truthy (arg_or args "detailed" (VBool false))).
    - exact (get_schema_runs_basic py eng g w d Hserves Hapoc Hd).
    - exact (get_basic_schema_runs py eng g Hserves w d Hd). }
  destruct Hschema as [w' [E S]]. exists w'. split; [| exact S].
  unfold try_except, bind. rewrite E.
  now rewrite (json_content_ok py _ w' (basic_schema_serialises g)).
Qed.

Lemma schema_tool_without_apoc_witness :
  fst (Server.handle_call_tool plain (serving plain person_only)
         "get_neo4j_schema" (VDict [("detailed", VBool true)]) fresh)
  = inr [Server.TextContent (show (basic_schema person_only))].
Proof.
  destruct (schema_tool_without_apoc plain (serving plain person_only)
              person_only [("detailed", VBool true)] fresh
              {| drv_uri := "bolt://localhost:7687"; drv_auth := None |}
              person_only_served
              (fun _ _ => ex_intro _ (Exn DriverError "unknown statement") eq_refl)
              eq_refl) as [w' [Hrun _]].
  now rewrite Hrun.
Defined.

(** ** Closing and connecting again *)

(** X20. Closing a manager whose handle was made from its configuration
    and then asking for a session brings the manager back to what it was:
    when the engine lets the driver close, accepts the new driver and
    answers the connectivity check, [close()] followed by [get_session()]
    returns a session of the configured database and leaves the very
    same manager, having closed the driver, created one with the same uri
    and credentials, checked connectivity and opened the session. *)
Theorem close_then_get_session (eng : engine) (w : world) :
  _driver (self w) = Some (handle_of (self w)) ->
  eng_close eng (trace w) = None ->
  eng_driver eng (trace w ++ [EvDriverClose])%list (uri (self w))
    (Database.auth_of (self w)) = None ->
  eng_verify eng
    (trace w ++ [EvDriverClose;
                 EvDriver (uri (self w)) (Database.auth_of (self w))])%list
  = None ->
  (Database.close eng ;;; Database.get_session eng) w
  = (inr (database (self w)),
     {| self := self w;
        trace := (trace w
          ++ [EvDriverClose;
              EvDriver (uri (self w)) (Database.auth_of (self w));
              EvVerify; EvSession (database (self w))])%list |}).
Proof.
  destruct w as [[u n p db drv] t]. cbn [self trace _driver uri database].
  unfold Database.auth_of. cbn [username password].
  intros -> Hclose Hdrv Hver.
  unfold Database.close, Database.get_session, Database.connect,
    Database.verify_connectivity, try_except, raise, ret, Database.get_self,
    Database.driver_close, Database.graph_driver, Database.driver_verify,
    Database.driver_session, emit, set_driver.
  unfold bind, Database.auth_of, handle_of.
  cbn [self trace _driver uri database username password]. rewrite Hclose.
  cbn [self trace _driver uri database username password]. rewrite Hdrv.
  cbn [self trace _driver uri database username password app].
  rewrite <- app_assoc. cbn [app]. rewrite Hver.
  cbn [self trace _driver uri database username password app].
  rewrite <- !app_assoc. reflexivity.
Qed.

Lemma close_then_get_session_witness :
  (Database.close quiet ;;; Database.get_session quiet) fresh
  = (inr None,
     {| self := self fresh;
        trace := [EvDriverClose; EvDriver "bolt://localhost:7687" None;
                  EvVerify; EvSession None] |}).
Proof.
  exact (close_then_get_session quiet fresh eq_refl eq_refl eq_refl eq_refl).
Defined.

(** ** Counting by label and by type *)

Lemma for_each_column (key : string) (rs : list record) (names : list string)
    (w : world) :
  map rec_fields rs = map (fun l => [(key, VStr l)]) names ->
  for_each rs (fun r => lift (rec_get r key)) w = (inr (map VStr names), w).
Proof.
  intros H. apply fields_Forall2 in H.
  induction H as [| r l rs names Hr _ IH]; [reflexivity |].
  cbn [for_each map]. unfold bind at 1.
  rewrite (rec_get_first r key (VStr l) [] Hr). cbn [lift ret].
  unfold bind at 1. now rewrite IH.
Qed.

Lemma column_query_connected (eng : engine) (listing key : string)
    (names : list string) (w : world) (d : driver) :
  yields eng listing (map (fun l => [(key, VStr l)]) names) ->
  _driver (self w) = Some d ->
  exists w',
    Database.column_query eng listing key w = (inr (map VStr names), w')
    /\ self w' = self w.
Proof.
  intros Hy Hd.
  destruct (Hy (trace w ++ [EvSession (database (self w))])%list
              (database (self w))) as [r [Hrun Hfields]].
  eexists. split.
  - unfold Database.column_query.
    apply (one_query_session eng listing w d r
             (fun result =>
                for_each (records result) (fun record => lift (rec_get record key)))
             (map VStr names) Hd Hrun).
    intros w1. now apply for_each_column.
  - reflexivity.
Qed.

(** The loop of the count tools, on a connected manager. *)
Lemma counts_by_connected (py : runtime) (eng : engine)
    (query_of : value -> string) (count : string -> Z) (names : list string) :
  (forall l, In l names ->
     yields eng (query_of (VStr l)) [[("count", VInt (count l))]]) ->
  forall (acc : pdict) (w : world) (d : driver),
    _driver (self w) = Some d ->
    exists w',
      for_fold (map VStr names) acc (fun counts item =>
        Database.with_session (Database.get_session eng) (fun session =>
          result <- Database.session_run_text eng session (query_of item) ;;
          count <- match single result with
                   | Some record =>
                       if rec_truthy record then lift (rec_get record "count")
                       else ret (VInt 0)
                   | None => ret (VInt 0)
                   end ;;
          key <- lift (as_key item) ;;
          ret (dict_set counts key count))) w
      = (inr (fold_left (fun d l => dict_set d l (VInt (count l))) names acc), w')
      /\ self w' = self w.
Proof.
  induction names as [| l names IH]; intros Hy acc w d Hd.
  - exists w. split; reflexivity.
  - cbn [map for_fold fold_left]. unfold bind at 1.
    destruct (Hy l (or_introl eq_refl)
                (trace w ++ [EvSession (database (self w))])%list
                (database (self w))) as [r [Hrun Hfields]].
    rewrite (one_query_session eng (query_of (VStr l)) w d r
               (fun result =>
                  count <- match single result with
                           | Some record =>
                               if rec_truthy record
                               then lift (rec_get record "count")
                               else ret (VInt 0)
                           | None => ret (VInt 0)
                           end ;;
                  key <- lift (as_key (VStr l)) ;;
                  ret (dict_set acc key count))
               (dict_set acc l (VInt (count l))) Hd Hrun).
    + match goal with
      | |- context [for_fold _ _ _ ?w1] =>
          destruct (IH (fun l' H => Hy l' (or_intror H))
                      (dict_set acc l (VInt (count l))) w1 d Hd)
            as [w' [E S]]
      end.
      exists w'. split; [exact E | exact S].
    + intros w1. unfold single.
      destruct (records r) as [| rec [| ? ?]]; try discriminate.
      injection Hfields as Hrec. cbn [hd_error]. unfold rec_truthy.
      rewrite Hrec. unfold bind, lift, ret.
      now rewrite (rec_get_first rec "count" (VInt (count l)) [] Hrec).
Qed.

Lemma counted_serialises (names : list string) (count : string -> Z) :
  json_bad (VDict (counted names count)) = None.
Proof.
  apply json_bad_dict. unfold counted.
  apply (json_bad_fold_dict_set (fun l => l) (fun l => VInt (count l)));
    [reflexivity | intros ? ? []].
Qed.

(** The two count tools share their shape: a listing, then the loop. *)
Lemma counts_tool_connected (py : runtime) (eng : engine)
    (listing key : string) (query_of : value -> string)
    (names : list string) (count : string -> Z) (w : world) (d : driver) :
  counts_served eng listing key query_of names count ->
  _driver (self w) = Some d ->
  exists w',
    (labels <- Database.column_query eng listing key ;;
     counts <- Server.counts_by eng labels query_of ;;
     Server.json_content py (VDict counts)) w
    = (inr [Server.TextContent (json_text py (VDict (counted names count)))], w')
    /\ self w' = self w.
Proof.
  intros [Hlist Hcount] Hd.
  destruct (column_query_connected eng listing key names w d Hlist Hd)
    as [w1 [E1 S1]].
  unfold bind at 1. rewrite E1. cbv beta iota.
  assert (Hd1 : _driver (self w1) = Some d) by now rewrite S1.
  destruct (counts_by_connected py eng query_of count names Hcount [] w1 d Hd1)
    as [w2 [E2 S2]].
  unfold bind at 1, Server.counts_by. unfold pdict in *. rewrite E2.
  cbv beta iota.
  pose proof (json_content_ok py _ w2 (counted_serialises names count)) as Hj.
  unfold counted, pdict in Hj. rewrite Hj.
  exists w2. split; [reflexivity | congruence].
Qed.

(** X21. On a connected manager whose engine lists the labels [names]
    and answers the count statement of each with one number, the tool
    [get_node_counts_by_label] answers, whatever its arguments, with the
    JSON text of the mapping that assigns its count to every label in the
    order of the listing, a label listed again keeping its first place;
    the manager is left as it was. *)
Theorem node_counts_by_label (py : runtime) (eng : engine)
    (names : list string) (count : string -> Z) (arguments : value)
    (w : world) (d : driver) :
  counts_served eng "CALL db.labels() YIELD label RETURN label" "label"
    (label_count_query py) names count ->
  _driver (self w) = Some d ->
  exists w',
    Server.handle_call_tool py eng "get_node_counts_by_label" arguments w
    = (inr [Server.TextContent (json_text py (VDict (counted names count)))], w')
    /\ self w' = self w.
Proof.
  intros Hserved Hd.
  unfold Server.handle_call_tool, Server.route. simpl (String.eqb _ _).
  cbv beta iota.
  destruct (counts_tool_connected py eng _ _ _ names count w d Hserved Hd)
    as [w' [E S]].
  exists w'. split; [| exact S].
  unfold try_except, Server.get_node_counts_by_label, Database.get_node_labels.
  unfold label_count_query in E. now rewrite E.
Qed.

(** X22. On a connected manager whose engine lists the relationship
    types [names] and answers the count statement of each with one
    number, the tool [get_relationship_counts_by_type] answers, whatever
    its arguments, with the JSON text of the mapping that assigns its
    count to every type in the order of the listing; the manager is left
    as it was. *)
Theorem relationship_counts_by_type (py : runtime) (eng : engine)
    (names : list string) (count : string -> Z) (arguments : value)
    (w : world) (d : driver) :
  counts_served eng
    "CALL db.relationshipTypes() YIELD relationshipType RETURN relationshipType"
    "relationshipType" (type_count_query py) names count ->
  _driver (self w) = Some d ->
  exists w',
    Server.handle_call_tool py eng "get_relationship_counts_by_type" arguments w
    = (inr [Server.TextContent (json_text py (VDict (counted names count)))], w')
    /\ self w' = self w.
Proof.
  intros Hserved Hd.
  unfold Server.handle_call_tool, Server.route. simpl (String.eqb _ _).
  cbv beta iota.
  destruct (counts_tool_connected py eng _ _ _ names count w d Hserved Hd)
    as [w' [E S]].
  exists w'. split; [| exact S].
  unfold try_except, Server.get_relationship_counts_by_type,
    Database.get_relationship_types.
  unfold type_count_query in E. now rewrite E.
Qed.

Lemma node_counts_by_label_witness :
  fst (Server.handle_call_tool plain census "get_node_counts_by_label"
         (VDict []) fresh)
  = inr [Server.TextContent
           (show (VDict [("Person", VInt 2); ("City", VInt 1)]))].
Proof.
  assert (Hserved : counts_served census
            "CALL db.labels() YIELD label RETURN label" "label"
            (label_count_query plain) ["Person"; "City"; "Person"]
            census_count).
  { split.
    - intros t db. eexists. split; reflexivity.
    - intros l [<- | [<- | [<- | []]]] t db; eexists; split; reflexivity. }
  destruct (node_counts_by_label plain census ["Person"; "City"; "Person"]
              census_count (VDict []) fresh
              {| drv_uri := "bolt://localhost:7687"; drv_auth := None |}
              Hserved eq_refl) as [w' [Hrun _]].
  now rewrite Hrun.
Defined.

Lemma relationship_counts_by_type_witness :
  fst (Server.handle_call_tool plain census "get_relationship_counts_by_type"
         VNone fresh)
  = inr [Server.TextContent (show (VDict [("KNOWS", VInt 3)]))].
Proof.
  assert (Hserved : counts_served census
            "CALL db.relationshipTypes() YIELD relationshipType RETURN relationshipType"
            "relationshipType" (type_count_query plain) ["KNOWS"]
            (fun _ => 3%Z)).
  { split.
    - intros t db. eexists. split; reflexivity.
    - intros l [<- | []] t db; eexists; split; reflexivity. }
  destruct (relationship_counts_by_type plain census ["KNOWS"] (fun _ => 3%Z)
              VNone fresh
              {| drv_uri := "bolt://localhost:7687"; drv_auth := None |}
              Hserved eq_refl) as [w' [Hrun _]].
  now rewrite Hrun.
Defined.

(** ** The statistics tool *)

Lemma count_query_connected (eng : engine) (query : string) (v : value)
    (w : world) (d : driver) :
  yields eng query [[("count", v)]] ->
  _driver (self w) = Some d ->
  exists w',
    Database.count_query eng query w = (inr v, w') /\ self w' = self w.
Proof.
  intros Hy Hd.
  destruct (Hy (trace w ++ [EvSession (database (self w))])%list
              (database (self w))) as [r [Hrun Hfields]].
  unfold Database.count_query.
  rewrite (one_query_session eng query w d r
           (fun result =>
              match single result with
              | Some record =>
                  if rec_truthy record then lift (rec_get record "count")
                  else ret (VInt 0)
              | None => ret (VInt 0)
              end) v Hd Hrun).
  - eexists. split; reflexivity.
  - intros w1. unfold single.
    destruct (records r) as [| rec [| ? ?]]; try discriminate.
    injection Hfields as Hrec. cbn [hd_error]. unfold rec_truthy.
    rewrite Hrec. now rewrite (rec_get_first rec "count" v [] Hrec).
Qed.

(** [get_database_info] when the server names its components. *)
Lemma get_database_info_connected (eng : engine) (name version edition : value)
    (rest : list value) (w : world) (d : driver) :
  yields eng components_query
    [[("name", name); ("versions", VList (version :: rest));
      ("edition", edition)]] ->
  _driver (self w) = Some d ->
  exists w',
    Database.get_database_info eng w
    = (inr (database_info (self w) version edition), w')
    /\ self w' = self w.
Proof.
  intros Hy Hd.
  destruct (Hy (trace w ++ [EvSession (database (self w))])%list
              (database (self w))) as [r [Hrun Hfields]].
  unfold Database.get_database_info. rewrite bind_get_self. cbv zeta.
  unfold bind at 1, try_except. fold components_query.
  erewrite (one_query_session eng components_query w d r _ _ Hd Hrun).
  - cbv beta iota. eexists. split; reflexivity.
  - intros w1. unfold single.
    destruct (records r) as [| rec [| ? ?]]; try discriminate.
    injection Hfields as Hrec. cbn [hd_error]. unfold rec_truthy, rec_get.
    rewrite Hrec. reflexivity.
Qed.

(** X23. On a connected manager whose engine counts the nodes and the
    relationships and names its versions and edition, the tool
    [get_database_statistics] answers, whatever its arguments, with the
    JSON text of the two counts and of the database information, whose
    version is the first of the versions and whose database name and
    address are those of the configuration; the manager is left as it
    was. *)
Theorem database_statistics (py : runtime) (eng : engine)
    (nodes relationships : Z) (version : string) (older : list value)
    (edition : string) (arguments : value) (w : world) (d : driver) :
  measures eng nodes relationships version older edition ->
  _driver (self w) = Some d ->
  exists w',
    Server.handle_call_tool py eng "get_database_statistics" arguments w
    = (inr [Server.TextContent
              (json_text py
                 (statistics (self w) nodes relationships version edition))],
       w')
    /\ self w' = self w.
Proof.
  intros [Hnodes [Hrels Hinfo]] Hd.
  unfold Server.handle_call_tool, Server.route. simpl (String.eqb _ _).
  cbv beta iota.
  unfold try_except, Server.get_database_statistics,
    Database.get_node_count, Database.get_relationship_count.
  destruct (count_query_connected eng _ _ w d Hnodes Hd) as [w1 [E1 S1]].
  unfold bind at 1. rewrite E1. cbv beta iota.
  assert (Hd1 : _driver (self w1) = Some d) by now rewrite S1.
  destruct (count_query_connected eng _ _ w1 d Hrels Hd1) as [w2 [E2 S2]].
  unfold bind at 1. rewrite E2. cbv beta iota.
  assert (Hd2 : _driver (self w2) = Some d) by now rewrite S2.
  destruct (get_database_info_connected eng _ _ _ _ w2 d Hinfo Hd2)
    as [w3 [E3 S3]].
  unfold bind at 1. rewrite E3. cbv beta iota.
  rewrite json_content_ok.
  - exists w3. split; [| congruence].
    unfold statistics. now rewrite S2, S1.
  - unfold database_info. cbn [json_bad].
    now destruct (database (self w2)).
Qed.

Lemma database_statistics_witness :
  fst (Server.handle_call_tool plain community "get_database_statistics"
         (VDict []) fresh)
  = inr [Server.TextContent
           (show (statistics (self fresh) 5 4 "5.12.0" "community"))].
Proof.
  assert (Hserved : measures community 5 4 "5.12.0" [] "community").
  { repeat split; intros t db; eexists; split; reflexivity. }
  destruct (database_statistics plain community 5 4 "5.12.0" [] "community"
              (VDict []) fresh
              {| drv_uri := "bolt://localhost:7687"; drv_auth := None |}
              Hserved eq_refl) as [w' [Hrun _]].
  now rewrite Hrun.
Defined.

(** ** The configuration loader *)

Lemma lookup_dict_set_other (d : pdict) (key : string) (v : value)
    (k : string) :
  k <> key -> lookup (dict_set d key v) k = lookup d k.
Proof.
  intros Hne. induction d as [| [k0 x] d IH]; cbn [dict_set lookup].
  - destruct (String.eqb_spec key k); [congruence | reflexivity].
  - destruct (String.eqb_spec k0 key) as [-> | Hk0]; cbn [lookup].
    + destruct (String.eqb_spec key k); [congruence | reflexivity].
    + now rewrite IH.
Qed.

Lemma lookup_absent (d : pdict) (k : string) :
  ~ In k (map fst d) -> lookup d k = None.
Proof.
  induction d as [| [k0 x] d IH]; [reflexivity |]. cbn [map fst In lookup].
  intros H. destruct (String.eqb_spec k0 k) as [-> | _]; [tauto |].
  apply IH. tauto.
Qed.

(** After an update a key reads as the update gives it, and as before
    when the update does not give it. *)
Lemma lookup_updated (d section : pdict) (k : string) :
  NoDup (map fst d) ->
  lookup (updated section d) k
  = match lookup d k with
    | Some v => Some v
    | None => lookup section k
    end.
Proof.
  unfold updated. revert section.
  induction d as [| [k0 x] d IH]; intros section Hnodup; [reflexivity |].
  cbn [map fst] in Hnodup. inversion Hnodup as [| ? ? Hnotin Hrest]; subst.
  cbn [fold_left fst snd lookup]. rewrite (IH _ Hrest).
  destruct (String.eqb_spec k0 k) as [-> | Hne].
  - rewrite (lookup_absent d k Hnotin). apply lookup_dict_set.
  - destruct (lookup d k); [reflexivity |].
    apply lookup_dict_set_other. congruence.
Qed.

Lemma get_set_section (n m : Config.section_name) (d : pdict)
    (s : Config.sections) :
  Config.get_section n (Config.set_section m d s)
  = match n, m with
    | Config.Neo4j, Config.Neo4j
    | Config.ServerSection, Config.ServerSection
    | Config.Logging, Config.Logging => d
    | _, _ => Config.get_section n s
    end.
Proof. destruct n, m; reflexivity. Qed.

Section Loader.

Variable py : runtime.
Variable fs : Config.filesystem.

(** A load that finds its file reads it and goes on to the sections. *)
Lemma load_config_reads (path : string) (v : value) (s : Config.state) :
  holds fs s path v ->
  Config.load_config py fs (Some path) s
  = Config.bind (Config.update_section Config.Neo4j v)
      (fun _ =>
         Config.bind (Config.update_section Config.ServerSection v)
           (fun _ =>
              Config.bind (Config.update_section Config.Logging v)
                (fun _ => Config.ret Config.ShallowCopy)))
      {| Config.defaults := Config.defaults s;
         Config.calls := (Config.calls s ++ reading path)%list |}.
Proof.
  intros [Hexists [Hopen Hload]].
  unfold Config.load_config, Config.path_exists.
  unfold Config.bind at 1 2. cbn [Config.ret]. rewrite Hexists.
  cbn [negb]. unfold Config.bind at 1, Config.load_from.
  unfold Config.bind at 1, Config.effect, Config.record_call.
  cbn [Config.calls Config.defaults]. rewrite Hopen.
  rewrite <- app_assoc. cbn [app]. rewrite Hload.
  rewrite <- app_assoc. reflexivity.
Qed.

(** The update of one section from an object whose section, if it has
    it, is an object. *)
Lemma update_section_object (n : Config.section_name) (file : pdict)
    (s : Config.state) :
  sections_are_objects file ->
  exists section,
    Config.update_section n (VDict file) s
    = (inr tt,
       {| Config.defaults := Config.set_section n section (Config.defaults s);
          Config.calls := Config.calls s |})
    /\ (forall k,
          lookup section k
          = match mentioned file n k with
            | Some v => Some v
            | None => lookup (Config.get_section n (Config.defaults s)) k
            end).
Proof.
  intros Hfile. specialize (Hfile n).
  unfold Config.update_section, mentioned.
  unfold Config.bind at 1. cbn [Config.lift Config.py_contains].
  destruct (lookup file (Config.key_of n)) as [v |] eqn:E.
  - destruct v as [| | | | | d | | |]; try contradiction.
    exists (updated (Config.get_section n (Config.defaults s)) d).
    split; [| intros k; now apply lookup_updated].
    unfold Config.bind, Config.lift, Config.py_getitem, Config.get_defaults.
    rewrite E. reflexivity.
  - exists (Config.get_section n (Config.defaults s)).
    split; [| reflexivity].
    destruct s as [[a b c] t], n; reflexivity.
Qed.

(** X24. Loading a file that exists and parses as an object whose
    sections are objects returns the shallow copy, makes no call but the
    three that read the file, and leaves every key of every section
    either as the file gives it or, when the file does not give it, as
    the section objects held it before the load: the values are merged
    into the section objects of the module, whatever they held, and not
    into a fresh copy of the initial ones. *)
Theorem load_config_merges_into_defaults (path : string) (file : pdict)
    (s : Config.state) :
  holds fs s path (VDict file) ->
  sections_are_objects file ->
  exists s',
    Config.load_config py fs (Some path) s = (inr Config.ShallowCopy, s')
    /\ Config.calls s' = (Config.calls s ++ reading path)%list
    /\ (forall n k,
          lookup (Config.get_section n (Config.defaults s')) k
          = match mentioned file n k with
            | Some v => Some v
            | None => lookup (Config.get_section n (Config.defaults s)) k
            end).
Proof.
  intros Hholds Hfile. rewrite (load_config_reads path _ s Hholds).
  destruct (update_section_object Config.Neo4j file
              {| Config.defaults := Config.defaults s;
                 Config.calls := (Config.calls s ++ reading path)%list |}
              Hfile) as [sec1 [E1 L1]].
  unfold Config.bind at 1. rewrite E1. cbv beta iota.
  unfold Config.bind at 1.
  match goal with
  | |- context [Config.update_section Config.ServerSection _ ?s1] =>
      destruct (update_section_object Config.ServerSection file s1 Hfile)
        as [sec2 [E2 L2]]
  end.
  rewrite E2. cbv beta iota. unfold Config.bind at 1.
  match goal with
  | |- context [Config.update_section Config.Logging _ ?s2] =>
      destruct (update_section_object Config.Logging file s2 Hfile)
        as [sec3 [E3 L3]]
  end.
  rewrite E3. cbv beta iota.
  eexists. split; [reflexivity |]. split; [reflexivity |].
  cbn [Config.defaults] in *.
  intros [] k; cbn [Config.get_section Config.set_section Config.neo4j
                      Config.server Config.logging] in *.
  - apply L1.
  - apply L2.
  - apply L3.
Qed.

(** X25. When the section [neo4j] of the file is an object and its
    section [server] is [None], a boolean or a number, the load raises a
    [TypeError], and the values of the section [neo4j] have already been
    assigned to the section object of the module: a load that fails has
    changed what later loads return. *)
Theorem load_config_fails_after_updating (path : string) (file d : pdict)
    (v : value) (s : Config.state) :
  holds fs s path (VDict file) ->
  lookup file "neo4j" = Some (VDict d) ->
  lookup file "server" = Some v ->
  scalar v = true ->
  exists s',
    Config.load_config py fs (Some path) s = (inl Config.TypeErr, s')
    /\ Config.neo4j (Config.defaults s')
       = updated (Config.neo4j (Config.defaults s)) d
    /\ Config.server (Config.defaults s') = Config.server (Config.defaults s)
    /\ Config.logging (Config.defaults s') = Config.logging (Config.defaults s).
Proof.
  intros Hholds Hneo4j Hserver Hscalar.
  rewrite (load_config_reads path _ s Hholds).
  unfold Config.bind, Config.update_section, Config.lift, Config.py_contains,
    Config.py_getitem, Config.get_defaults, Config.key_of.
  rewrite Hneo4j, Hserver. cbn [Config.py_update Config.get_section].
  destruct v; try discriminate; (eexists; split; [reflexivity |]);
    repeat split.
Qed.

(** X26. A file need not hold an object.  When it parses as [None], a
    boolean or a number, the load raises a [TypeError]; when it parses as
    anything in which none of the three section names is found, an object
    without them, an array that has none of them as an element or a text
    that has none of them as a part, the load returns the shallow copy.
    Either way the section objects are left as they were. *)
Theorem load_config_of_other_json (path : string) (v : value)
    (s : Config.state) :
  holds fs s path v ->
  (scalar v = true ->
   Config.load_config py fs (Some path) s
   = (inl Config.TypeErr,
      {| Config.defaults := Config.defaults s;
         Config.calls := (Config.calls s ++ reading path)%list |}))
  /\ ((forall n, Config.py_contains (Config.key_of n) v = inr false) ->
      Config.load_config py fs (Some path) s
      = (inr Config.ShallowCopy,
         {| Config.defaults := Config.defaults s;
            Config.calls := (Config.calls s ++ reading path)%list |})).
Proof.
  intros Hholds. rewrite (load_config_reads path _ s Hholds). split.
  - intros Hscalar. destruct v; try discriminate; reflexivity.
  - intros Hnone.
    unfold Config.bind, Config.update_section, Config.lift.
    rewrite (Hnone Config.Neo4j), (Hnone Config.ServerSection),
      (Hnone Config.Logging).
    reflexivity.
Qed.

(** *** A file that is not there *)

Lemma ensure_directory_obliging (path : string) (s : Config.state) :
  obliging fs ->
  Config.ensure_directory fs path s
  = (inr tt,
     {| Config.defaults := Config.defaults s;
        Config.calls :=
          (Config.calls s ++ directory_calls fs (Config.calls s) path)%list |}).
Proof.
  intros [Hmakedirs _].
  unfold Config.ensure_directory, directory_calls. cbv zeta.
  destruct (truthy (VStr (Config.dirname path))).
  - unfold Config.bind, Config.path_exists, Config.makedirs, Config.effect,
      Config.record_call. cbn [Config.calls Config.defaults].
    destruct (Config.fs_exists fs (Config.calls s) (Config.dirname path)).
    + reflexivity.
    + rewrite Hmakedirs. cbn [Config.calls Config.defaults].
      now rewrite <- app_assoc.
  - destruct s. cbn. now rewrite app_nil_r.
Qed.

Lemma dump_to_obliging (path : string) (v : value) (s : Config.state) :
  obliging fs ->
  json_bad v = None ->
  Config.dump_to py fs path v s
  = (inr tt,
     {| Config.defaults := Config.defaults s;
        Config.calls :=
          (Config.calls s
             ++ [Config.FsOpen path "w";
                 Config.FsDump path (json_text py v)])%list |}).
Proof.
  intros [_ [Hopen Hdump]] Hjson.
  unfold Config.dump_to, Config.bind, Config.effect, Config.lift,
    Config.record_call, json_dumps.
  rewrite Hopen, Hjson, Hdump. cbn [Config.calls Config.defaults].
  now rewrite <- app_assoc.
Qed.

Lemma load_config_absent (path : string)
    (s : Config.state) :
  obliging fs ->
  Config.fs_exists fs (Config.calls s) path = false ->
  json_bad (Config.contents (Config.defaults s)) = None ->
  Config.load_config py fs (Some path) s
  = (inr Config.TheDefaults,
     {| Config.defaults := Config.defaults s;
        Config.calls :=
          (Config.calls s
             ++ Config.FsExists path
             :: directory_calls fs (Config.calls s ++ [Config.FsExists path])
                  path
             ++ [Config.FsOpen path "w";
                 Config.FsDump path
                   (json_text py (Config.contents (Config.defaults s)))])%list
     |}).
Proof.
  intros Hfs Habsent Hjson.
  unfold Config.load_config, Config.path_exists.
  unfold Config.bind at 1 2. cbn [Config.ret]. rewrite Habsent. cbn [negb].
  unfold Config.bind at 1. rewrite (ensure_directory_obliging path _ Hfs).
  unfold Config.bind at 1, Config.get_defaults.
  unfold Config.bind at 1. cbn [Config.defaults Config.record_call].
  rewrite (dump_to_obliging path _ _ Hfs Hjson).
  cbn [Config.ret Config.calls Config.defaults Config.record_call].
  rewrite <- !app_assoc. reflexivity.
Qed.

(** X27. Loading a path at which there is no file, on a file system on
    which nothing fails, returns [DEFAULT_CONFIG] itself and leaves the
    section objects as they are; it makes the directory of the path when
    the path names one that does not exist, and writes to the path the
    JSON text of what the section objects hold at that moment, which is
    what earlier loads have made of them. *)
Theorem load_config_writes_current_defaults (path : string)
    (s : Config.state) :
  obliging fs ->
  Config.fs_exists fs (Config.calls s) path = false ->
  json_bad (Config.contents (Config.defaults s)) = None ->
  Config.load_config py fs (Some path) s
  = (inr Config.TheDefaults,
     {| Config.defaults := Config.defaults s;
        Config.calls :=
          (Config.calls s
             ++ Config.FsExists path
             :: directory_calls fs (Config.calls s ++ [Config.FsExists path])
                  path
             ++ [Config.FsOpen path "w";
                 Config.FsDump path
                   (json_text py (Config.contents (Config.defaults s)))])%list
     |}).
Proof. exact (load_config_absent path s). Qed.

(** *** The first run *)

Lemma ends_with_slash_app (a b : string) :
  b <> EmptyString ->
  Config.ends_with_slash (a ++ b) = Config.ends_with_slash b.
Proof.
  intros Hb. induction a as [| c a IH]; [reflexivity |].
  cbn [append Config.ends_with_slash]. rewrite <- IH.
  destruct (a ++ b) eqn:E; [| reflexivity].
  destruct a; [cbn in E; congruence | discriminate].
Qed.

Lemma all_slashes_app (a b : string) :
  Config.all_slashes (a ++ b) = Config.all_slashes a && Config.all_slashes b.
Proof.
  induction a as [| c a IH]; [reflexivity |].
  cbn [append Config.all_slashes]. rewrite IH. apply andb_assoc.
Qed.

Lemma has_slash_app (a b : string) :
  Config.has_slash (a ++ b) = Config.has_slash a || Config.has_slash b.
Proof.
  induction a as [| c a IH]; [reflexivity |].
  cbn [append Config.has_slash]. rewrite IH. apply orb_assoc.
Qed.

Lemma through_last_slash_plain (t : string) :
  Config.has_slash t = false -> Config.through_last_slash t = EmptyString.
Proof. destruct t; [reflexivity |]. cbn [Config.through_last_slash]. now intros ->. Qed.

Lemma through_last_slash_app (d t : string) :
  Config.has_slash t = false ->
  Config.through_last_slash (d ++ String Config.slash t)
  = d ++ String Config.slash EmptyString.
Proof.
  intros Ht. induction d as [| c d IH].
  - cbn [append Config.through_last_slash Config.has_slash].
    rewrite Ascii.eqb_refl. cbn [orb].
    now rewrite (through_last_slash_plain t Ht).
  - cbn [append Config.through_last_slash].
    replace (Config.has_slash (String c (d ++ String Config.slash t)))
      with true.
    + now rewrite IH.
    + cbn [Config.has_slash]. rewrite has_slash_app.
      cbn [Config.has_slash]. rewrite Ascii.eqb_refl.
      now rewrite !orb_true_r.
Qed.

Lemma rstrip_slashes_app (d : string) :
  Config.ends_with_slash d = false ->
  Config.rstrip_slashes (d ++ String Config.slash EmptyString) = d.
Proof.
  induction d as [| c d IH]; intros Hd; [reflexivity |].
  cbn [append Config.rstrip_slashes].
  assert (Hrest : Config.ends_with_slash d = false
                  /\ Config.all_slashes
                       (String c (d ++ String Config.slash EmptyString))
                     = false).
  { cbn [Config.ends_with_slash] in Hd. destruct d as [| c' d'].
    - split; [reflexivity |]. cbn [append Config.all_slashes]. now rewrite Hd.
    - split; [exact Hd |].
      cbn [Config.all_slashes]. rewrite all_slashes_app.
      destruct (Ascii.eqb c Config.slash); [| reflexivity]. cbn [andb].
      destruct (Config.all_slashes (String c' d')) eqn:Hall; [| reflexivity].
      exfalso. clear IH. revert c' Hall Hd.
      induction d' as [| c'' d'' IHd]; intros c' Hall Hd.
      + cbn in Hall, Hd. rewrite Hd in Hall. discriminate.
      + cbn [Config.all_slashes] in Hall.
        apply andb_prop in Hall as [_ Hall].
        apply (IHd c''); [exact Hall | exact Hd]. }
  destruct Hrest as [Hd' Hall]. rewrite Hall. now rewrite IH.
Qed.

(** The directory of [config.json] in a directory [d]. *)
Lemma dirname_of_config (d : string) :
  Config.ends_with_slash d = false ->
  Config.all_slashes d = false ->
  Config.dirname (Config.path_join d "config.json") = d.
Proof.
  intros Hend Hall. unfold Config.path_join.
  cbn [Config.starts_with_slash]. change (Ascii.eqb "c" Config.slash) with false.
  cbv iota. rewrite Hend.
  destruct (String.eqb_spec d EmptyString) as [-> | _]; [discriminate |].
  cbn [orb]. change ("/" ++ "config.json") with (String Config.slash "config.json").
  unfold Config.dirname. cbv zeta.
  rewrite (through_last_slash_app d "config.json" eq_refl).
  rewrite all_slashes_app, Hall. cbn [andb negb].
  replace (truthy (VStr (d ++ String Config.slash EmptyString))) with true
    by (destruct d; reflexivity).
  cbn [andb]. now apply rstrip_slashes_app.
Qed.

Lemma home_directory_shape (h : string) :
  Config.ends_with_slash (home_directory h) = false
  /\ Config.all_slashes (home_directory h) = false.
Proof.
  unfold home_directory, Config.path_join.
  cbn [Config.starts_with_slash]. change (Ascii.eqb "." Config.slash) with false.
  cbv iota.
  destruct (String.eqb h EmptyString || Config.ends_with_slash h).
  - split.
    + now rewrite ends_with_slash_app.
    + rewrite all_slashes_app. apply andb_false_r.
  - split.
    + now rewrite ends_with_slash_app.
    + rewrite all_slashes_app. apply andb_false_intro2. reflexivity.
Qed.

Lemma get_config_path_bare (s : Config.state) :
  bare fs ->
  Config.get_config_path fs s
  = (inr (home_config (Config.home fs)),
     {| Config.defaults := Config.defaults s;
        Config.calls :=
          (Config.calls s
             ++ [Config.FsExists "config.json";
                 Config.FsExists (home_config (Config.home fs));
                 Config.FsExists "/etc/neo4j-mcp/config.json"])%list |}).
Proof.
  intros Hbare.
  unfold Config.get_config_path, Config.bind, Config.path_exists,
    Config.record_call.
  rewrite !Hbare. cbn [Config.ret Config.calls Config.defaults].
  rewrite <- !app_assoc. reflexivity.
Qed.

(** X28. The first run: on a file system on which nothing exists and
    nothing fails, [load_config()] with no path looks for the file in the
    current directory, in the home directory and in [/etc], then makes
    the directory [.neo4j-mcp] of the home directory and writes the
    configuration to [config.json] in it, whatever the home directory is
    called; it returns [DEFAULT_CONFIG] itself. *)
Theorem first_run_creates_home_config (s : Config.state) :
  obliging fs ->
  bare fs ->
  json_bad (Config.contents (Config.defaults s)) = None ->
  Config.load_config py fs None s
  = (inr Config.TheDefaults,
     {| Config.defaults := Config.defaults s;
        Config.calls :=
          (Config.calls s
             ++ [Config.FsExists "config.json";
                 Config.FsExists (home_config (Config.home fs));
                 Config.FsExists "/etc/neo4j-mcp/config.json";
                 Config.FsExists (home_config (Config.home fs));
                 Config.FsExists (home_directory (Config.home fs));
                 Config.FsMakedirs (home_directory (Config.home fs));
                 Config.FsOpen (home_config (Config.home fs)) "w";
                 Config.FsDump (home_config (Config.home fs))
                   (json_text py (Config.contents (Config.defaults s)))])%list
     |}).
Proof.
  intros Hfs Hbare Hjson.
  change (Config.load_config py fs None s)
    with (Config.bind (Config.get_config_path fs)
            (fun p => Config.load_config py fs (Some p)) s).
  unfold Config.bind at 1. rewrite (get_config_path_bare s Hbare).
  cbv beta iota.
  match goal with
  | |- Config.load_config py fs (Some ?p) ?s1 = _ =>
      rewrite (load_config_absent p s1 Hfs (Hbare _ _) Hjson)
  end.
  cbn [Config.defaults Config.calls]. unfold directory_calls. cbv zeta.
  destruct (home_directory_shape (Config.home fs)) as [Hend Hall].
  assert (Hdir : Config.dirname (home_config (Config.home fs))
                 = home_directory (Config.home fs))
    by (now apply dirname_of_config).
  rewrite !Hdir, Hbare.
  replace (truthy (VStr (home_directory (Config.home fs)))) with true.
  - rewrite <- !app_assoc. reflexivity.
  - destruct (home_directory (Config.home fs)); [discriminate | reflexivity].
Qed.

End Loader.

Lemma load_config_merges_into_defaults_witness :
  lookup (Config.neo4j (Config.defaults
            (snd (Config.load_config plain
                    (with_file "cfg.json" (VDict remote_file))
                    (Some "cfg.json") imported)))) "uri"
  = Some (VStr "bolt://db:7687").
Proof.
  assert (Hholds : holds (with_file "cfg.json" (VDict remote_file)) imported
                     "cfg.json" (VDict remote_file)).
  { split; [reflexivity | split; reflexivity]. }
  assert (Hfile : sections_are_objects remote_file).
  { intros []; cbn; [| exact I | exact I].
    constructor; [intros [] | constructor]. }
  destruct (load_config_merges_into_defaults plain
              (with_file "cfg.json" (VDict remote_file)) "cfg.json"
              remote_file imported Hholds Hfile) as [s' [E [_ L]]].
  rewrite E. exact (L Config.Neo4j "uri").
Defined.

Lemma load_config_fails_after_updating_witness :
  exists s',
    Config.load_config plain (with_file "cfg.json" (VDict broken_file))
      (Some "cfg.json") imported
    = (inl Config.TypeErr, s')
    /\ lookup (Config.neo4j (Config.defaults s')) "uri"
       = Some (VStr "bolt://db:7687").
Proof.
  destruct (load_config_fails_after_updating plain
              (with_file "cfg.json" (VDict broken_file)) "cfg.json"
              broken_file [("uri", VStr "bolt://db:7687")] (VInt 1) imported
              (conj eq_refl (conj eq_refl eq_refl)) eq_refl eq_refl eq_refl)
    as [s' [E [Hneo4j _]]].
  exists s'. split; [exact E |]. now rewrite Hneo4j.
Defined.

Lemma load_config_of_other_json_witness :
  Config.load_config plain (with_file "cfg.json" (VList [VStr "neo"]))
    (Some "cfg.json") imported
  = (inr Config.ShallowCopy,
     {| Config.defaults := Config.DEFAULT_CONFIG;
        Config.calls := reading "cfg.json" |}).
Proof.
  apply (load_config_of_other_json plain
           (with_file "cfg.json" (VList [VStr "neo"])) "cfg.json"
           (VList [VStr "neo"]) imported
           (conj eq_refl (conj eq_refl eq_refl))).
  intros []; reflexivity.
Defined.

Lemma load_config_writes_current_defaults_witness :
  Config.load_config plain (with_file "cfg.json" VNone)
    (Some "conf/new.json") imported
  = (inr Config.TheDefaults,
     {| Config.defaults := Config.DEFAULT_CONFIG;
        Config.calls :=
          [Config.FsExists "conf/new.json"; Config.FsExists "conf";
           Config.FsMakedirs "conf"; Config.FsOpen "conf/new.json" "w";
           Config.FsDump "conf/new.json"
             (show (Config.contents Config.DEFAULT_CONFIG))] |}).
Proof.
  exact (load_config_writes_current_defaults plain
           (with_file "cfg.json" VNone) "conf/new.json" imported
           (conj (fun _ _ => eq_refl)
              (conj (fun _ _ _ => eq_refl) (fun _ _ _ => eq_refl)))
           eq_refl eq_refl).
Defined.

Lemma first_run_creates_home_config_witness :
  Config.load_config plain (empty_disk "/home/neo") None imported
  = (inr Config.TheDefaults,
     {| Config.defaults := Config.DEFAULT_CONFIG;
        Config.calls :=
          [Config.FsExists "config.json";
           Config.FsExists "/home/neo/.neo4j-mcp/config.json";
           Config.FsExists "/etc/neo4j-mcp/config.json";
           Config.FsExists "/home/neo/.neo4j-mcp/config.json";
           Config.FsExists "/home/neo/.neo4j-mcp";
           Config.FsMakedirs "/home/neo/.neo4j-mcp";
           Config.FsOpen "/home/neo/.neo4j-mcp/config.json" "w";
           Config.FsDump "/home/neo/.neo4j-mcp/config.json"
             (show (Config.contents Config.DEFAULT_CONFIG))] |}).
Proof.
  exact (first_run_creates_home_config plain (empty_disk "/home/neo") imported
           (conj (fun _ _ => eq_refl)
              (conj (fun _ _ _ => eq_refl) (fun _ _ _ => eq_refl)))
           (fun _ _ => eq_refl) eq_refl).
Defined.
